(** * Game orchestration and adaptive move scheduling: a shallow embedding

    The development follows the two densest files of the repository:

    - [engine.py]: the wrapper around the external search process
      ([Engine.classify_tc], [Engine.make_move], [Engine._configure_engine],
      the pondering);
    - [game.py]: the per-game session ([Game.run], [Game._handle_draw_offer],
      [Game._handle_takeback], [Game._make_move],
      [Game._print_result_message]).

    Conventions of the embedding.

    - Python numbers (clock readings, increments, think times) are modelled as
      exact rationals [Q].  Every comparison, [min] and [max] of the source is
      kept as written; products and quotients are exact.
    - The time-control category, which the source passes around as a string,
      is the enumeration [TimeControl].
    - The external search process and the network API are oracles: their
      answers are inputs of the functions, and the calls made to them are
      recorded in the result.
    - The coroutines of [game.py] run on one event loop: between two
      suspensions a coroutine is not interrupted, and while it is suspended
      the others may run.  The state of a session says where [run] is
      suspended and how far each move task has come; a step of the session
      resumes [run] or runs one move task up to its next suspension.  A
      function with suspensions is given piece by piece, from one suspension
      to the next, and as a whole for the case that nothing else runs in
      between. *)

From Stdlib Require Import QArith Lqa ZArith Lia Bool.
From stdpp Require Import base option list strings.

(** ** Python arithmetic on rationals *)

Module Py.

Open Scope Q_scope.

(** [a < b] as a boolean. *)
Definition Qltb (a b : Q) : bool := negb (Qle_bool b a).

(** [a <= b] as a boolean. *)
Definition Qleb (a b : Q) : bool := Qle_bool a b.

(** Python's [max(a, b)]: the first argument unless the second is strictly
    greater. *)
Definition max (a b : Q) : Q := if Qltb a b then b else a.

(** Python's [min(a, b)]: the first argument unless the second is strictly
    smaller. *)
Definition min (a b : Q) : Q := if Qltb b a then b else a.

(** Truthiness of a number: non-zero. *)
Definition truthy (a : Q) : bool := negb (Qeq_bool a 0).

End Py.

(** ** engine.py *)

Module Engine.

Open Scope Q_scope.

(** *** The collaborators' data, at their interface *)

Inductive Color := WHITE | BLACK.

Inductive PieceType := PAWN | KNIGHT | BISHOP | ROOK | QUEEN | KING.

(** A move of the rules engine: origin, destination, promotion piece and
    dropped piece. *)
Record Move := {
  from_square : nat;
  to_square : nat;
  promotion : option PieceType;
  drop : option PieceType
}.

(** The null move [0000]. *)
Definition Move_null : Move :=
  {| from_square := 0; to_square := 0; promotion := None; drop := None |}.

(** [Move.__bool__]: [bool(from_square or to_square or promotion or
    drop)]; squares are numbered from 0 and piece types from 1. *)
Definition Move_bool (m : Move) : bool :=
  negb (from_square m =? 0)%nat || negb (to_square m =? 0)%nat
  || bool_decide (promotion m <> None) || bool_decide (drop m <> None).

#[export] Instance Color_eq_dec : EqDecision Color.
Proof. solve_decision. Defined.

#[export] Instance PieceType_eq_dec : EqDecision PieceType.
Proof. solve_decision. Defined.

#[export] Instance Move_eq_dec : EqDecision Move.
Proof. solve_decision. Defined.

(** What [make_move] reads of the board: the side to move, the legal moves,
    which of them capture, and whether the side to move is in check. *)
Record Board := {
  turn : Color;
  legal_moves : list Move;
  is_capture : Move -> bool;
  is_check : bool
}.

(** A score of the search process: centipawns, mate in [n] (negative when
    the side of the point of view is being mated), or mate delivered. *)
Inductive Score :=
| Cp (cp : Z)
| Mate (moves : Z)
| MateGiven.

(** A score together with the side it is relative to. *)
Record PovScore := {
  relative : Score;
  pov_turn : Color
}.

Definition Score_neg (s : Score) : Score :=
  match s with
  | Cp c => Cp (- c)
  | Mate m => if (m =? 0)%Z then MateGiven else Mate (- m)
  | MateGiven => Mate 0
  end.

Definition Score_is_mate (s : Score) : bool :=
  match s with
  | Cp _ => false
  | _ => true
  end.

(** [Score.score(mate_score=ms)]. *)
Definition Score_score (s : Score) (ms : Z) : Z :=
  match s with
  | Cp c => c
  | Mate m => if (0 <? m)%Z then (ms - m)%Z else (- ms - m)%Z
  | MateGiven => ms
  end.

(** [PovScore.white()]. *)
Definition white (p : PovScore) : Score :=
  match pov_turn p with
  | WHITE => relative p
  | BLACK => Score_neg (relative p)
  end.

(** [PovScore.is_mate()]. *)
Definition is_mate (p : PovScore) : bool := Score_is_mate (relative p).

(** The fields of an info dictionary that [make_move] reads. *)
Record InfoDict := {
  depth : option nat;
  score : option PovScore;
  pv : list Move
}.

(** The empty dictionary [{}]. *)
Definition empty_info : InfoDict :=
  {| depth := None; score := None; pv := [] |}.

(** The answer of [engine.play]: a move (possibly none) and its info. *)
Record PlayResult := {
  move : option Move;
  info : InfoDict
}.

(** The answer of [engine.analyse]: a list of info dictionaries, a single
    one, or something else. *)
Inductive AnalyseResult :=
| InfoList (infos : list InfoDict)
| InfoOne (i : InfoDict)
| InfoOther.

(** [chess.engine.Limit] as built by [make_move]. *)
Record Limit := {
  white_clock : Q;
  white_inc : Q;
  black_clock : Q;
  black_inc : Q;
  time : Q;
  limit_depth : option nat;
  limit_nodes : option nat
}.

(** The search process as an oracle; [None] is a raised exception, of
    those that [except Exception] catches. *)
Record Uci := {
  play : Board -> Limit -> option PlayResult;
  analyse : Board -> Q -> option AnalyseResult
}.

(** A call made to the search process. *)
Inductive EngineCall :=
| CallPlay (l : Limit)
| CallAnalyse (t : Q).

Record Limit_Config := {
  lc_time : option Q;
  lc_depth : option nat;
  lc_nodes : option nat
}.

(** The fields of [Engine] that [make_move] reads; the search process
    itself is an argument of [make_move], so [self.engine] is there. *)
Record Engine := {
  ponder : bool;
  limit_config : Limit_Config;
  move_overhead_multiplier : Q
}.

(** *** classify_tc *)

Inductive TimeControl := Hyperbullet | Bullet | Blitz | Rapid | Classical.

#[export] Instance TimeControl_eq_dec : EqDecision TimeControl.
Proof. solve_decision. Defined.

Definition classify_tc (base inc : Q) : TimeControl :=
  if Py.Qleb base 60 then Hyperbullet
  else if Py.Qleb base 120 || (Py.Qleb base 180 && Py.Qleb inc 1) then Bullet
  else if Py.Qleb base 600 || (Py.Qleb base 900 && Py.Qleb inc 2) then Blitz
  else if Py.Qleb base 3600 then Rapid
  else Classical.

(** The thresholds as the specification words them: the first rule that
    applies, in order, names the category. *)
Inductive classified (base inc : Q) : TimeControl -> Prop :=
| is_hyperbullet :
    base <= 60 -> classified base inc Hyperbullet
| is_bullet_tc :
    ~ base <= 60 ->
    base <= 120 \/ (base <= 180 /\ inc <= 1) ->
    classified base inc Bullet
| is_blitz :
    ~ base <= 60 ->
    ~ (base <= 120 \/ (base <= 180 /\ inc <= 1)) ->
    base <= 600 \/ (base <= 900 /\ inc <= 2) ->
    classified base inc Blitz
| is_rapid :
    ~ base <= 60 ->
    ~ (base <= 120 \/ (base <= 180 /\ inc <= 1)) ->
    ~ (base <= 600 \/ (base <= 900 /\ inc <= 2)) ->
    base <= 3600 ->
    classified base inc Rapid
| is_classical :
    ~ base <= 60 ->
    ~ (base <= 120 \/ (base <= 180 /\ inc <= 1)) ->
    ~ (base <= 600 \/ (base <= 900 /\ inc <= 2)) ->
    ~ base <= 3600 ->
    classified base inc Classical.

(** *** make_move: the think time *)

(** [tc in ("bullet", "hyperbullet")]. *)
Definition is_bullet (tc : TimeControl) : bool :=
  match tc with
  | Bullet | Hyperbullet => true
  | _ => false
  end.

(** The clock of the side to move. *)
Definition my_time (board : Board) (white_time black_time : Q) : Q :=
  match turn board with
  | WHITE => white_time
  | BLACK => black_time
  end.

(** The category of one call: [classify_tc(max(white_time, black_time),
    increment)]. *)
Definition move_tc (white_time black_time increment : Q) : TimeControl :=
  classify_tc (Py.max white_time black_time) increment.

(** Base allocation: [(base_frac, cap)] of each category. *)
Definition base_allocation (tc : TimeControl) : Q * Q :=
  match tc with
  | Hyperbullet => (0.006, 0.05)
  | Bullet => (0.015, 0.12)
  | Blitz => (0.06, 1.2)
  | Rapid => (0.12, 4.0)
  | Classical => (0.20, 12.0)
  end.

(** [max(0.01, my_time * base_frac + min(cap, increment * 2.0))]. *)
Definition base_think_time (tc : TimeControl) (my_time increment : Q) : Q :=
  let '(base_frac, cap) := base_allocation tc in
  Py.max 0.01 (my_time * base_frac + Py.min cap (increment * 2.0)).

(** Tactical detection: captures plus promotions among the legal moves. *)
Definition tactical_score (board : Board) : nat :=
  let captures := length (List.filter (is_capture board) (legal_moves board)) in
  let promotions :=
    length (List.filter (fun m => bool_decide (promotion m <> None))
                        (legal_moves board)) in
  (captures + promotions)%nat.

(** The boost factor of a category. *)
Definition boost (tc : TimeControl) : Q :=
  if negb (is_bullet tc) then 1.8 else 1.4.

(** The tactical boost of the think time. *)
Definition tactical_boost (tc : TimeControl) (tactical_score : nat)
    (in_check : bool) (think_time : Q) : Q :=
  if (3 <=? tactical_score)%nat || in_check then
    Py.min (think_time * boost tc)
           (if negb (is_bullet tc)
            then Py.max (think_time * boost tc) 10.0
            else think_time * boost tc)
  else think_time.

(** The overhead multiplier, applied when it is truthy and not [1.0]. *)
Definition apply_overhead (self : Engine) (think_time : Q) : Q :=
  if Py.truthy (move_overhead_multiplier self)
     && negb (Qeq_bool (move_overhead_multiplier self) 1.0)
  then think_time / move_overhead_multiplier self
  else think_time.

(** The fixed per-move limit, applied when [limit_config.time] is truthy. *)
Definition clamp_limit (self : Engine) (think_time : Q) : Q :=
  match lc_time (limit_config self) with
  | Some t => if Py.truthy t then Py.min think_time t else think_time
  | None => think_time
  end.

(** Bullet safety caps. *)
Definition bullet_safety_caps (tc : TimeControl) (my_time think_time : Q) : Q :=
  if is_bullet tc then
    if Py.Qltb 30 my_time then Py.max 0.03 (Py.min think_time 0.35)
    else if Py.Qltb 3 my_time then Py.max 0.02 (Py.min think_time 0.12)
    else 0.01
  else think_time.

(** The think time before the limit clamp and the bullet caps. *)
Definition budget (self : Engine) (board : Board)
    (white_time black_time increment : Q) : Q :=
  let tc := move_tc white_time black_time increment in
  let think_time := base_think_time tc (my_time board white_time black_time) increment in
  let think_time := tactical_boost tc (tactical_score board) (is_check board) think_time in
  apply_overhead self think_time.

(** The think time that [make_move] hands to the search process. *)
Definition think_time (self : Engine) (board : Board)
    (white_time black_time increment : Q) : Q :=
  let tc := move_tc white_time black_time increment in
  let think_time := budget self board white_time black_time increment in
  let think_time := clamp_limit self think_time in
  bullet_safety_caps tc (my_time board white_time black_time) think_time.

(** *** make_move: the search and the fallback deepening *)

Definition shallow_threshold (tc : TimeControl) : nat :=
  if is_bullet tc || bool_decide (tc = Blitz) then 10%nat else 18%nat.

(** [result_depth < shallow_threshold and (tactical_score >= 2 or
    board.is_check())]. *)
Definition wants_fallback (tc : TimeControl) (result_depth tactical_score : nat)
    (in_check : bool) : bool :=
  (result_depth <? shallow_threshold tc)%nat
  && ((2 <=? tactical_score)%nat || in_check).

Definition extra_time (tc : TimeControl) (think_time : Q) : Q :=
  if negb (is_bullet tc)
  then Py.min (Py.max (think_time * 2.5) 1.0) 12.0
  else think_time * 1.2.

(** The score of the comparison, from White's side: the centipawns, or the
    constant [mate] for every mate score. *)
Definition ws (mate : Z) (s : PovScore) : Z :=
  if negb (is_mate s) then Score_score (white s) 100000 else mate.

(** Whether the candidate of the deeper analysis is preferred. *)
Definition prefer (side : Color) (orig_score new_score : option PovScore) : bool :=
  match orig_score with
  | None => true
  | Some o =>
      match new_score with
      | Some n =>
          match side with
          | WHITE => (ws 1000000 o <=? ws 1000000 n)%Z
          | BLACK => (ws (-1000000) n <=? ws (-1000000) o)%Z
          end
      | None => false
      end
  end.

(** [infos[0] if infos else {}] for a list, the dictionary itself for a
    dictionary, [{}] otherwise. *)
Definition best_info (infos : AnalyseResult) : InfoDict :=
  match infos with
  | InfoList (i :: _) => i
  | InfoList [] => empty_info
  | InfoOne i => i
  | InfoOther => empty_info
  end.

(** [result.move] when it is truthy: a move other than the null move. *)
Definition truthy_move (result : PlayResult) : option Move :=
  match move result with
  | Some m => if Move_bool m then Some m else None
  | None => None
  end.

(** How a call of [make_move] ends. *)
Inductive Outcome :=
| Return (m : Move) (i : InfoDict)
| Raise.

(** [make_move], with the calls it made to the search process. *)
Definition make_move (self : Engine) (engine : Uci) (board : Board)
    (white_time black_time increment : Q) : Outcome * list EngineCall :=
  let tc := move_tc white_time black_time increment in
  let think_time := think_time self board white_time black_time increment in
  let limit :=
    {| white_clock := white_time; white_inc := increment;
       black_clock := black_time; black_inc := increment;
       time := think_time;
       limit_depth := lc_depth (limit_config self);
       limit_nodes := lc_nodes (limit_config self) |} in
  match play engine board limit with
  | None =>
      match legal_moves board with
      | m :: _ => (Return m empty_info, [CallPlay limit])
      | [] => (Raise, [CallPlay limit])
      end
  | Some result =>
      match truthy_move result with
      | None => (Raise, [CallPlay limit])
      | Some result_move =>
          let result_depth := default 0%nat (depth (info result)) in
          if wants_fallback tc result_depth (tactical_score board) (is_check board)
          then
            let extra_time := extra_time tc think_time in
            let calls := [CallPlay limit; CallAnalyse extra_time] in
            match analyse engine board extra_time with
            | None => (Return result_move (info result), calls)
            | Some infos =>
                let best_info := best_info infos in
                match pv best_info with
                | cand :: _ =>
                    if bool_decide (cand <> result_move)
                       && prefer (turn board) (score (info result)) (score best_info)
                    then (Return cand best_info, calls)
                    else (Return result_move (info result), calls)
                | [] => (Return result_move (info result), calls)
                end
            end
          else (Return result_move (info result), [CallPlay limit])
      end
  end.

(** *** The wording of the specification, for comparison *)

(** The tactical boost as the specification words it: 1.8 times the budget,
    floored at 10 seconds if that is larger, for the categories that are
    not bullet; 1.4 times for bullet and hyperbullet. *)
Definition spec_tactical_boost (tc : TimeControl) (tactical_score : nat)
    (in_check : bool) (think_time : Q) : Q :=
  if (3 <=? tactical_score)%nat || in_check then
    if negb (is_bullet tc) then Py.max (think_time * 1.8) 10.0
    else think_time * 1.4
  else think_time.

(** The think time as the specification computes it for a category that
    is given from outside: the base budget with the fractions of the
    category, the tactical boost (without the floor), the overhead, the
    clamp to the fixed limit and, for bullet and hyperbullet, the
    emergency caps. *)
Definition spec_think_time (tc : TimeControl) (self : Engine)
    (tactical_score : nat) (in_check : bool) (my_time increment : Q) : Q :=
  let bullet :=
    match tc with
    | Bullet | Hyperbullet => true
    | _ => false
    end in
  let '(base_frac, cap) :=
    match tc with
    | Hyperbullet => (0.006, 0.05)
    | Bullet => (0.015, 0.12)
    | Blitz => (0.06, 1.2)
    | Rapid => (0.12, 4.0)
    | Classical => (0.20, 12.0)
    end in
  let base := Py.max 0.01 (my_time * base_frac + Py.min cap (increment * 2.0)) in
  let boosted :=
    if (3 <=? tactical_score)%nat || in_check
    then base * (if bullet then 1.4 else 1.8)
    else base in
  let clamped := clamp_limit self (apply_overhead self boosted) in
  if bullet then
    if Py.Qltb 30 my_time then Py.max 0.03 (Py.min clamped 0.35)
    else if Py.Qltb 3 my_time then Py.max 0.02 (Py.min clamped 0.12)
    else 0.01
  else clamped.

(** The shallow threshold of the specification: 10 for bullet, hyperbullet
    and blitz, 18 otherwise. *)
Definition spec_shallow_threshold (tc : TimeControl) : nat :=
  match tc with
  | Hyperbullet | Bullet | Blitz => 10%nat
  | _ => 18%nat
  end.

(** The extra time of the specification: 1.2 times the think time for
    bullet and hyperbullet, [min(max(2.5 t, 1), 12)] otherwise. *)
Definition spec_extra_time (tc : TimeControl) (t : Q) : Q :=
  match tc with
  | Hyperbullet | Bullet => t * 1.2
  | _ => Py.min (Py.max (t * 2.5) 1.0) 12.0
  end.

(** An evaluation in which mate scores are signed infinities. *)
Inductive Evaluation :=
| MinusInfinity
| Centipawns (cp : Z)
| PlusInfinity.

(** A score from the perspective of [side]: a mate that [side] delivers
    is plus infinity, a mate that [side] suffers is minus infinity. *)
Definition evaluation (side : Color) (p : PovScore) : Evaluation :=
  let s := if bool_decide (pov_turn p = side) then relative p
           else Score_neg (relative p) in
  match s with
  | Cp c => Centipawns c
  | Mate m => if (0 <? m)%Z then PlusInfinity else MinusInfinity
  | MateGiven => PlusInfinity
  end.

(** [a] is worse than [b]. *)
Definition worse (a b : Evaluation) : bool :=
  match a, b with
  | MinusInfinity, MinusInfinity => false
  | MinusInfinity, _ => true
  | Centipawns x, Centipawns y => (x <? y)%Z
  | Centipawns _, PlusInfinity => true
  | _, _ => false
  end.

End Engine.

(** ** game.py *)

Module Game.

Open Scope string_scope.

(** *** Events and collaborators *)

(** The move that [Lichess_Game.make_move] hands back. *)
Record Lichess_Move := {
  uci_move : string;
  offer_draw : bool;
  resign : bool
}.

(** The fields of a game-state event that the session reads. *)
Record GameState := {
  status : string;
  winner : option string;
  wdraw : bool;
  bdraw : bool;
  wtakeback : bool;
  btakeback : bool;
  wtime : Z;
  moves : list string
}.

(** The events of the game stream. *)
Inductive Event :=
| chatLine (text : string)
| opponentGone (claimWinInSeconds : option Z)
| gameFull (state : GameState)
| gameState (state : GameState).

(** The fields of [Game_Information] that the session reads. *)
Record Game_Information := {
  id_str : string;
  white_name : string;
  black_name : string;
  white_str : string;
  black_str : string;
  tc_format : string;
  rated_str : string;
  variant_str : string;
  white_title : option string;
  black_title : option string;
  tournament_id : option string;
  state : GameState
}.

(** What the session reads of [Lichess_Game]; the board is the stack of the
    moves played, the oldest first. *)
Record Lichess_Game := {
  board : list string;
  is_white : bool;
  is_our_turn : bool;
  is_abortable : bool;
  tc_str : option string
}.

(** The methods of the rules engine and of [Lichess_Game] that the session
    calls and whose code is not part of these sources.  [None] from
    [make_move] is a raised exception. *)
Record Collaborators := {
  fen : list string -> string;
  is_fifty_moves : list string -> bool;
  is_repetition : list string -> bool;
  is_insufficient_material : list string -> bool;
  is_variant_draw : list string -> bool;
  update : Lichess_Game -> GameState -> bool * Lichess_Game;
  make_move : Lichess_Game -> option (Lichess_Move * Lichess_Game)
}.

Definition set_board (b : list string) (lg : Lichess_Game) : Lichess_Game :=
  {| board := b; is_white := is_white lg; is_our_turn := is_our_turn lg;
     is_abortable := is_abortable lg; tc_str := tc_str lg |}.

(** Modelled from the spec: [Lichess_Game.takeback], whose code is not part
    of these sources, rolls the board back one ply. *)
Definition takeback (lg : Lichess_Game) : Lichess_Game :=
  set_board (removelast (board lg)) lg.

(** The calls that [run], its handlers and the move tasks make to the
    network API, the chatter, the console and [Lichess_Game] from line 38
    of [game.py] on, in the order they are made.  A call that the source
    wraps in [asyncio.create_task] is recorded where the task is created;
    the abortion task is recorded where it is created and where it is
    cancelled. *)
Inductive Call :=
| api_claim_victory
| api_accept_draw
| api_decline_draw
| api_handle_takeback (accept : bool)
| api_resign_game
| api_send_move (uci : string) (draw : bool)
| chatter_handle_chat_message (text : string)
| chatter_print_eval
| chatter_send_greetings
| chatter_send_goodbyes
| lichess_game_make_move
| lichess_game_takeback
| lichess_game_update
| lichess_game_start_pondering
| lichess_game_close
| print (line : string)
| rematch
| abortion_task_create (seconds : Z)
| abortion_task_cancel.

Record Config := {
  accept_30_second_draws : bool;
  max_takebacks : Z
}.

(** An exception: the cancellation of a task, or an error with its text. *)
Inductive Exception :=
| CancelledError
| Error (text : string).

(** The state of an [asyncio] task that runs [_make_move]: created and not
    yet run; suspended in [lichess_game.make_move()]; asked to cancel and
    not yet unwound; and, once it is done, finished, failed with the
    exception of [lichess_game.make_move()], or cancelled. *)
Inductive Task :=
| Created
| Awaiting
| Cancelling
| Finished
| Failed
| Cancelled.

#[export] Instance Task_eq_dec : EqDecision Task.
Proof. solve_decision. Defined.

(** Where the coroutine of [run] is suspended (in [game_stream_queue.get()]
    of line 60, in [api.handle_takeback] of line 134, in
    [lichess_game.takeback()] of line 138, in [_handle_rematch] of line 98,
    in [chatter.send_goodbyes()] of line 42, in [lichess_game.close()] of
    lines 43 and 106), or how it has ended. *)
Inductive Main :=
| AwaitsEvent
| AwaitsTakebackAnswer (event : GameState)
| AwaitsTakeback (event : GameState)
| AwaitsRematch
| AwaitsGoodbyes
| AwaitsClose
| Returned
| Raised (e : Exception).

(** *** The session *)

(** The attributes of [Game], the move tasks created so far (a task handle
    is its index), the [Lichess_Game] of the session, the calls made, and
    where [run] stands. *)
Record Game := {
  config : Config;
  username : string;
  rematch_manager : bool;
  takeback_count : Z;
  was_aborted : bool;
  ejected_tournament : option string;
  move_task : option nat;
  bot_offered_draw : bool;
  last_fen : option string;
  last_move : option Lichess_Move;
  tasks : list Task;
  lichess_game : Lichess_Game;
  calls : list Call;
  main : Main
}.

Definition set_takeback_count (v : Z) (s : Game) : Game :=
  {| config := config s; username := username s;
     rematch_manager := rematch_manager s; takeback_count := v;
     was_aborted := was_aborted s; ejected_tournament := ejected_tournament s;
     move_task := move_task s; bot_offered_draw := bot_offered_draw s;
     last_fen := last_fen s; last_move := last_move s; tasks := tasks s;
     lichess_game := lichess_game s; calls := calls s; main := main s |}.

Definition set_was_aborted (v : bool) (s : Game) : Game :=
  {| config := config s; username := username s;
     rematch_manager := rematch_manager s; takeback_count := takeback_count s;
     was_aborted := v; ejected_tournament := ejected_tournament s;
     move_task := move_task s; bot_offered_draw := bot_offered_draw s;
     last_fen := last_fen s; last_move := last_move s; tasks := tasks s;
     lichess_game := lichess_game s; calls := calls s; main := main s |}.

Definition set_ejected_tournament (v : option string) (s : Game) : Game :=
  {| config := config s; username := username s;
     rematch_manager := rematch_manager s; takeback_count := takeback_count s;
     was_aborted := was_aborted s; ejected_tournament := v;
     move_task := move_task s; bot_offered_draw := bot_offered_draw s;
     last_fen := last_fen s; last_move := last_move s; tasks := tasks s;
     lichess_game := lichess_game s; calls := calls s; main := main s |}.

Definition set_move_task (v : option nat) (s : Game) : Game :=
  {| config := config s; username := username s;
     rematch_manager := rematch_manager s; takeback_count := takeback_count s;
     was_aborted := was_aborted s; ejected_tournament := ejected_tournament s;
     move_task := v; bot_offered_draw := bot_offered_draw s;
     last_fen := last_fen s; last_move := last_move s; tasks := tasks s;
     lichess_game := lichess_game s; calls := calls s; main := main s |}.

Definition set_bot_offered_draw (v : bool) (s : Game) : Game :=
  {| config := config s; username := username s;
     rematch_manager := rematch_manager s; takeback_count := takeback_count s;
     was_aborted := was_aborted s; ejected_tournament := ejected_tournament s;
     move_task := move_task s; bot_offered_draw := v;
     last_fen := last_fen s; last_move := last_move s; tasks := tasks s;
     lichess_game := lichess_game s; calls := calls s; main := main s |}.

Definition set_last (f : option string) (m : option Lichess_Move) (s : Game) : Game :=
  {| config := config s; username := username s;
     rematch_manager := rematch_manager s; takeback_count := takeback_count s;
     was_aborted := was_aborted s; ejected_tournament := ejected_tournament s;
     move_task := move_task s; bot_offered_draw := bot_offered_draw s;
     last_fen := f; last_move := m; tasks := tasks s;
     lichess_game := lichess_game s; calls := calls s; main := main s |}.

Definition set_tasks (v : list Task) (s : Game) : Game :=
  {| config := config s; username := username s;
     rematch_manager := rematch_manager s; takeback_count := takeback_count s;
     was_aborted := was_aborted s; ejected_tournament := ejected_tournament s;
     move_task := move_task s; bot_offered_draw := bot_offered_draw s;
     last_fen := last_fen s; last_move := last_move s; tasks := v;
     lichess_game := lichess_game s; calls := calls s; main := main s |}.

Definition set_lichess_game (v : Lichess_Game) (s : Game) : Game :=
  {| config := config s; username := username s;
     rematch_manager := rematch_manager s; takeback_count := takeback_count s;
     was_aborted := was_aborted s; ejected_tournament := ejected_tournament s;
     move_task := move_task s; bot_offered_draw := bot_offered_draw s;
     last_fen := last_fen s; last_move := last_move s; tasks := tasks s;
     lichess_game := v; calls := calls s; main := main s |}.

Definition set_main (v : Main) (s : Game) : Game :=
  {| config := config s; username := username s;
     rematch_manager := rematch_manager s; takeback_count := takeback_count s;
     was_aborted := was_aborted s; ejected_tournament := ejected_tournament s;
     move_task := move_task s; bot_offered_draw := bot_offered_draw s;
     last_fen := last_fen s; last_move := last_move s; tasks := tasks s;
     lichess_game := lichess_game s; calls := calls s; main := v |}.

(** Record one more call. *)
Definition call (c : Call) (s : Game) : Game :=
  {| config := config s; username := username s;
     rematch_manager := rematch_manager s; takeback_count := takeback_count s;
     was_aborted := was_aborted s; ejected_tournament := ejected_tournament s;
     move_task := move_task s; bot_offered_draw := bot_offered_draw s;
     last_fen := last_fen s; last_move := last_move s; tasks := tasks s;
     lichess_game := lichess_game s; calls := calls s ++ [c];
     main := main s |}.

(** [Game.__init__], and [run] as far as line 36: the first event has been
    read from the queue and [lichess_game] built from it. *)
Definition init (cfg : Config) (user : string) (rematch_manager : bool)
    (lg : Lichess_Game) : Game :=
  {| config := cfg; username := user; rematch_manager := rematch_manager;
     takeback_count := 0; was_aborted := false; ejected_tournament := None;
     move_task := None; bot_offered_draw := false;
     last_fen := None; last_move := None; tasks := [];
     lichess_game := lg; calls := []; main := AwaitsEvent |}.

(** *** Move tasks *)

(** [self.move_task = asyncio.create_task(self._make_move(...))]: a new
    task, which has not run yet, and whose handle is stored. *)
Definition create_move_task (s : Game) : Game :=
  set_move_task (Some (length (tasks s))) (set_tasks (tasks s ++ [Created]) s).

(** Task [i] becomes [t]. *)
Definition set_task (i : nat) (t : Task) (s : Game) : Game :=
  set_tasks (<[i := t]> (tasks s)) s.

(** A task that has finished, failed or been cancelled. *)
Definition Task_done (t : Task) : bool :=
  match t with
  | Finished | Failed | Cancelled => true
  | Created | Awaiting | Cancelling => false
  end.

(** A task that can still run the body of [_make_move]: it is not done and
    has not been asked to cancel. *)
Definition Task_live (t : Task) : bool :=
  match t with
  | Created | Awaiting => true
  | Cancelling | Finished | Failed | Cancelled => false
  end.

(** [task.done()]. *)
Definition done (s : Game) (i : nat) : bool :=
  match tasks s !! i with
  | Some t => Task_done t
  | None => true
  end.

(** [task.cancel()]: a task that is not done is asked to cancel; it is done
    only when the event loop has run it once more ([run_task]).  A task
    that is done is left as it is. *)
Definition cancel (i : nat) (s : Game) : Game :=
  match tasks s !! i with
  | Some Created | Some Awaiting => set_task i Cancelling s
  | _ => s
  end.

(** The number of move tasks that are not done. *)
Definition pending (s : Game) : nat :=
  length (List.filter (fun t => negb (Task_done t)) (tasks s)).

(** The number of move tasks that can still run the body of [_make_move]. *)
Definition live (s : Game) : nat :=
  length (List.filter Task_live (tasks s)).

(** Every move task that can still run the body of [_make_move] is the one
    [self.move_task] holds. *)
Definition tracked (s : Game) : Prop :=
  forall i t, tasks s !! i = Some t -> Task_live t = true ->
              move_task s = Some i.

(** *** _make_move *)

(** Line 143: the stored move, when the position of the board is the stored
    one and a move is stored. *)
Definition _make_move_reuse (c : Collaborators) (s : Game) : option Lichess_Move :=
  if bool_decide (Some (fen c (board (lichess_game s))) = last_fen s)
  then last_move s else None.

(** Lines 150 to 157: the move is dispatched and the task handle
    forgotten. *)
Definition _make_move_dispatch (lichess_move : Lichess_Move) (s : Game) : Game :=
  let s :=
    if resign lichess_move then call api_resign_game s
    else
      let s := set_bot_offered_draw (offer_draw lichess_move) s in
      let s := call (api_send_move (uci_move lichess_move)
                                   (offer_draw lichess_move)) s in
      call chatter_print_eval s in
  set_move_task None s.

(** Lines 146 to 157, from the moment [lichess_game.make_move()] hands its
    answer back: the move and what the call made of [lichess_game], or
    [None] when it raised.  The move that was dispatched, if any. *)
Definition _make_move_resume (c : Collaborators)
    (answer : option (Lichess_Move * Lichess_Game)) (s : Game)
    : Game * option Lichess_Move :=
  match answer with
  | Some (lichess_move, lg) =>
      let s := set_lichess_game lg s in
      let s := set_last (Some (fen c (board (lichess_game s))))
                        (Some lichess_move) s in
      (_make_move_dispatch lichess_move s, Some lichess_move)
  | None => (s, None)
  end.

(** The body of [_make_move] when nothing else runs while it is suspended:
    [lichess_game.make_move()] answers as the collaborator does on the
    [lichess_game] of the call. *)
Definition _make_move (c : Collaborators) (s : Game) : Game * option Lichess_Move :=
  match _make_move_reuse c s with
  | Some lichess_move => (_make_move_dispatch lichess_move s, Some lichess_move)
  | None =>
      let s := call lichess_game_make_move s in
      _make_move_resume c (make_move c (lichess_game s)) s
  end.

(** The event loop runs task [i] once, up to its next suspension or its
    end.  A task that was created runs [_make_move] up to line 146, or to
    its end when the stored move is reused.  A task suspended in
    [lichess_game.make_move()] goes on from the [answer] of that call.  A
    task that was asked to cancel gets [CancelledError] thrown in, which
    [_make_move] does not catch: it ends there (the call it is suspended in
    is taken not to swallow the cancellation).  A task that is done does
    not run. *)
Definition run_task (c : Collaborators) (i : nat)
    (answer : option (Lichess_Move * Lichess_Game)) (s : Game) : Game :=
  match tasks s !! i with
  | Some Created =>
      match _make_move_reuse c s with
      | Some lichess_move =>
          set_task i Finished (_make_move_dispatch lichess_move s)
      | None => set_task i Awaiting (call lichess_game_make_move s)
      end
  | Some Awaiting =>
      match answer with
      | Some _ => set_task i Finished (fst (_make_move_resume c answer s))
      | None => set_task i Failed s
      end
  | Some Cancelling => set_task i Cancelled s
  | _ => s
  end.

(** *** _handle_draw_offer and _handle_takeback *)

(** [self._should_accept_draw(lichess_game)]: the class [Game] neither
    defines such a method nor sets such an attribute, so the lookup
    raises [AttributeError]. *)
Definition _should_accept_draw (lg : Lichess_Game) : Exception + bool :=
  inl (Error "'Game' object has no attribute '_should_accept_draw'").

(** [_handle_draw_offer], which has no suspension: the state it leaves, or
    the exception it raises. *)
Definition _handle_draw_offer (event : GameState) (s : Game) : Exception + Game :=
  let lichess_game := lichess_game s in
  let is_0_5_0_game := bool_decide (tc_str lichess_game = Some "0.5+0") in
  let is_opponent_draw :=
    (is_white lichess_game && bdraw event)
    || (negb (is_white lichess_game) && wdraw event) in
  if negb is_opponent_draw || bot_offered_draw s then
    inr (set_bot_offered_draw false s)
  else
    let should_accept :=
      if is_0_5_0_game && accept_30_second_draws (config s)
      then _should_accept_draw lichess_game
      else if negb is_0_5_0_game then _should_accept_draw lichess_game
      else inr false in
    match should_accept with
    | inl e => inl e
    | inr should_accept =>
        let s :=
          if should_accept then call api_accept_draw s
          else if negb is_0_5_0_game then call api_decline_draw s
          else s in
        inr (set_bot_offered_draw false s)
    end.

(** Lines 130 to 134 of [_handle_takeback], up to the suspension in
    [api.handle_takeback(game_id, True)]; whether it is suspended there. *)
Definition _handle_takeback_start (max_takebacks : Z) (s : Game) : Game * bool :=
  if (max_takebacks <=? takeback_count s)%Z then
    (call (api_handle_takeback false) s, false)
  else (call (api_handle_takeback true) s, true).

(** Lines 134 to 138, from the answer of the API up to the suspension in
    [lichess_game.takeback()]; whether it is suspended there. *)
Definition _handle_takeback_answer (accepted : bool) (s : Game) : Game * bool :=
  if accepted then
    let s :=
      match move_task s with
      | Some i => set_move_task None (cancel i s)
      | None => s
      end in
    (call lichess_game_takeback
          (set_lichess_game (takeback (lichess_game s)) s), true)
  else (s, false).

(** Line 139. *)
Definition _handle_takeback_end (s : Game) : Game :=
  set_takeback_count (takeback_count s + 1)%Z s.

(** [_handle_takeback] when nothing else runs while it is suspended;
    [accepted] is the answer of [api.handle_takeback(game_id, True)], read
    only when the call is made. *)
Definition _handle_takeback (accepted : bool) (max_takebacks : Z) (s : Game) : Game :=
  let '(s, suspended) := _handle_takeback_start max_takebacks s in
  if suspended then
    let '(s, suspended) := _handle_takeback_answer accepted s in
    if suspended then _handle_takeback_end s else s
  else s.

(** *** _print_game_information and _print_result_message *)

(** The line feed. *)
Definition nl : string := String (Ascii.ascii_of_nat 10) "".

(** [n * c]. *)
Fixpoint times (n : nat) (c : string) : string :=
  match n with
  | O => ""
  | S n => c ++ times n c
  end.

(** The text that [_print_game_information] prints. *)
Definition game_information (info : Game_Information) : string :=
  let opponents_str := white_str info ++ "   -   " ++ black_str info in
  let message :=
    id_str info ++ times 5 " " ++ opponents_str ++ times 5 " "
    ++ tc_format info ++ times 5 " " ++ rated_str info ++ times 5 " "
    ++ variant_str info in
  nl ++ message ++ nl ++ times 128 "-".

Definition _print_game_information (info : Game_Information) (s : Game) : Game :=
  call (print (game_information info)) s.

(** The classification of a finished game: the text of the outcome and the
    result of each side. *)
Record Result := {
  message : string;
  white_result : string;
  black_result : string
}.

(** [game_state.get('winner')] when it is truthy. *)
Definition truthy_winner (game_state : GameState) : option string :=
  match winner game_state with
  | Some w => if bool_decide (w = "") then None else Some w
  | None => None
  end.

(** The first part of [_print_result_message]: the classification, with the
    attributes it sets on the way. *)
Definition result (c : Collaborators) (game_state : GameState)
    (info : Game_Information) (s : Game) : Game * Result :=
  let board := board (lichess_game s) in
  let status := status game_state in
  match truthy_winner game_state with
  | Some winner =>
      let '(message, loser, white_result, black_result) :=
        if bool_decide (winner = "white")
        then (white_name info ++ " won", black_name info, "1", "0")
        else (black_name info ++ " won", white_name info, "0", "1") in
      let '(s, message) :=
        if bool_decide (status = "mate") then
          (s, message ++ " by checkmate!")
        else if bool_decide (status = "outoftime") then
          (s, message ++ "! " ++ loser ++ " ran out of time.")
        else if bool_decide (status = "resign") then
          (s, message ++ "! " ++ loser ++ " resigned.")
        else if bool_decide (status = "variantEnd") then
          (s, message ++ " by variant rules!")
        else if bool_decide (status = "timeout") then
          (s, message ++ "! " ++ loser ++ " timed out.")
        else if bool_decide (status = "noStart") then
          (if bool_decide (loser = username s)
           then set_ejected_tournament (tournament_id info) s else s,
           message ++ "! " ++ loser ++ " has not started the game.")
        else (s, message) in
      (s, {| message := message; white_result := white_result;
             black_result := black_result |})
  | None =>
      if bool_decide (status = "draw") then
        (s, {| message :=
                 if is_fifty_moves c board then
                   "Game drawn by 50-move rule."
                 else if is_repetition c board then
                   "Game drawn by threefold repetition."
                 else if is_insufficient_material c board then
                   "Game drawn due to insufficient material."
                 else if is_variant_draw c board then
                   "Game drawn by variant rules."
                 else "Game drawn by agreement.";
               white_result := "1/2"; black_result := "1/2" |})
      else if bool_decide (status = "stalemate") then
        (s, {| message := "Game drawn by stalemate.";
               white_result := "1/2"; black_result := "1/2" |})
      else if bool_decide (status = "outoftime") then
        let out_of_time_player :=
          if bool_decide (wtime game_state <> 0%Z)
          then black_name info else white_name info in
        (s, {| message := "Game drawn. " ++ out_of_time_player ++ " ran out of time.";
               white_result := "1/2"; black_result := "1/2" |})
      else if bool_decide (status = "insufficientMaterialClaim") then
        (s, {| message := "Game drawn due to insufficient material claim.";
               white_result := "1/2"; black_result := "1/2" |})
      else
        (set_was_aborted true s,
         {| message := "Game aborted.";
            white_result := "X"; black_result := "X" |})
  end.

(** The line that [_print_result_message] prints for a classification. *)
Definition result_line (info : Game_Information) (r : Result) : string :=
  let opponents_str :=
    white_str info ++ " " ++ white_result r ++ " - "
    ++ black_result r ++ " " ++ black_str info in
  let message :=
    id_str info ++ times 5 " " ++ opponents_str ++ times 5 " " ++ message r in
  message ++ nl ++ times 128 "-".

Definition _print_result_message (c : Collaborators) (game_state : GameState)
    (info : Game_Information) (s : Game) : Game :=
  let '(s, r) := result c game_state info s in
  call (print (result_line info r)) s.

(** *** run *)

Definition opponent_is_bot (info : Game_Information) : bool :=
  bool_decide (white_title info = Some "BOT")
  && bool_decide (black_title info = Some "BOT").

(** [max_takebacks] of [run]. *)
Definition run_max_takebacks (info : Game_Information) (s : Game) : Z :=
  if opponent_is_bot info then 0%Z else max_takebacks (config s).

(** [self.move_task is None or self.move_task.done()]. *)
Definition no_active_task (s : Game) : bool :=
  match move_task s with
  | None => true
  | Some i => done s i
  end.

(** Lines 38 to 56 of [run], up to its first suspension: in
    [chatter.send_goodbyes()] when the game is already over, in
    [game_stream_queue.get()] otherwise. *)
Definition start (c : Collaborators) (cfg : Config) (user : string)
    (rematch_manager : bool) (info : Game_Information) (lg : Lichess_Game) : Game :=
  let s := init cfg user rematch_manager lg in
  let s := _print_game_information info s in
  if bool_decide (status (state info) <> "started") then
    let s := _print_result_message c (state info) info s in
    let s := call chatter_send_goodbyes s in
    set_main AwaitsGoodbyes s
  else
    let s := call chatter_send_greetings s in
    let s :=
      if negb (is_our_turn lg) then call lichess_game_start_pondering s
      else create_move_task s in
    let abortion_seconds := if opponent_is_bot info then 30%Z else 60%Z in
    let s := call (abortion_task_create abortion_seconds) s in
    set_main AwaitsEvent s.

(** Lines 105 and 106, after the loop, up to the suspension in
    [lichess_game.close()]. *)
Definition after_loop (s : Game) : Game :=
  let s := call abortion_task_cancel s in
  let s := call lichess_game_close s in
  set_main AwaitsClose s.

(** Lines 93 to 99, for an event whose status is not ["started"]: up to
    the suspension in [_handle_rematch], or through the [break] and lines
    105 and 106 up to the suspension in [lichess_game.close()].  What
    [_handle_rematch] does with the rematch manager is the one call
    [rematch]. *)
Definition game_finished (c : Collaborators) (event : GameState)
    (info : Game_Information) (s : Game) : Game :=
  let s :=
    match move_task s with
    | Some i => cancel i s
    | None => s
    end in
  let s := _print_result_message c event info s in
  let s := call chatter_send_goodbyes s in
  if rematch_manager s && negb (was_aborted s)
  then set_main AwaitsRematch (call rematch s)
  else after_loop s.

(** Line 89: the board update, and whether it changed the board. *)
Definition updated (c : Collaborators) (event : GameState) (s : Game)
    : bool * Game :=
  let '(has_updated, lg) := update c (lichess_game s) event in
  (has_updated, call lichess_game_update (set_lichess_game lg s)).

(** Lines 89 to 103 of a turn of the loop, up to the next suspension of
    [run]. *)
Definition handle_update (c : Collaborators) (info : Game_Information)
    (event : GameState) (s : Game) : Game :=
  let '(has_updated, s) := updated c event s in
  if bool_decide (status event <> "started") then
    game_finished c event info s
  else
    let s :=
      if has_updated && no_active_task s then create_move_task s else s in
    set_main AwaitsEvent s.

(** Lines 78 to 103 of a turn of the loop on a game-state event, up to the
    next suspension of [run]. *)
Definition handle_state (c : Collaborators) (info : Game_Information)
    (event : GameState) (s : Game) : Game :=
  let drawn :=
    if wdraw event || bdraw event then _handle_draw_offer event s
    else inr (set_bot_offered_draw false s) in
  match drawn with
  | inl e => set_main (Raised e) s
  | inr s =>
      if wtakeback event || btakeback event then
        let '(s, suspended) :=
          _handle_takeback_start (run_max_takebacks info s) s in
        if suspended then set_main (AwaitsTakebackAnswer event) s
        else handle_update c info event s
      else handle_update c info event s
  end.

(** One turn of the loop of [run], from the event that
    [game_stream_queue.get()] hands over up to the next suspension. *)
Definition handle_event (c : Collaborators) (info : Game_Information)
    (event : Event) (s : Game) : Game :=
  match event with
  | chatLine text => call (chatter_handle_chat_message text) s
  | opponentGone secs =>
      if bool_decide (secs = Some 0%Z) then call api_claim_victory s else s
  | gameFull event => handle_state c info event s
  | gameState event => handle_state c info event s
  end.

(** What the event loop does next.  [run] is resumed: the queue hands over
    an event, or the call [run] is suspended in returns (with the answer
    that line 134 reads) or raises.  Or a move task is run once; the
    [answer] is the one of [lichess_game.make_move()], read when the task
    is suspended there.  A step that does not fit where [run] stands
    changes nothing. *)
Inductive Step :=
| Incoming (event : Event)
| Returns (answer : bool)
| Raises (e : Exception)
| TaskRuns (i : nat) (answer : option (Lichess_Move * Lichess_Game)).

(** [run] and the move tasks, from one suspension to the next.  Line 61
    catches the cancellation of [run] while it waits for an event, and
    [_handle_rematch] catches and prints every error but a cancellation;
    any other exception leaves [run]. *)
Definition step (c : Collaborators) (info : Game_Information) (l : Step)
    (s : Game) : Game :=
  match l with
  | TaskRuns i answer => run_task c i answer s
  | Incoming event =>
      match main s with
      | AwaitsEvent => handle_event c info event s
      | _ => s
      end
  | Returns answer =>
      match main s with
      | AwaitsTakebackAnswer event =>
          let '(s, suspended) := _handle_takeback_answer answer s in
          if suspended then set_main (AwaitsTakeback event) s
          else handle_update c info event s
      | AwaitsTakeback event =>
          handle_update c info event (_handle_takeback_end s)
      | AwaitsRematch => after_loop s
      | AwaitsGoodbyes => set_main AwaitsClose (call lichess_game_close s)
      | AwaitsClose => set_main Returned s
      | AwaitsEvent | Returned | Raised _ => s
      end
  | Raises e =>
      match main s with
      | AwaitsEvent =>
          match e with
          | CancelledError => after_loop s
          | Error _ => set_main (Raised e) s
          end
      | AwaitsRematch =>
          match e with
          | CancelledError => set_main (Raised e) s
          | Error text =>
              after_loop (call (print ("Error handling rematch: " ++ text)) s)
          end
      | Returned | Raised _ => s
      | _ => set_main (Raised e) s
      end
  end.

(** A session from line 38 of [run] through a sequence of steps. *)
Definition run (c : Collaborators) (cfg : Config) (user : string)
    (rematch_manager : bool) (info : Game_Information) (lg : Lichess_Game)
    (steps : list Step) : Game :=
  fold_left (fun s l => step c info l s) steps
            (start c cfg user rematch_manager info lg).

End Game.

(** ** Concrete inputs *)

Module Scenario.

Import Engine.
Open Scope Q_scope.

(** An engine with the given fixed per-move limit and overhead
    multiplier, and no depth or node ceiling. *)
Definition engine_with (limit : option Q) (multiplier : Q) : Engine :=
  {| ponder := false;
     limit_config := {| lc_time := limit; lc_depth := None; lc_nodes := None |};
     move_overhead_multiplier := multiplier |}.

(** No fixed limit, multiplier [1.0]. *)
Definition plain_engine : Engine := engine_with None 1.0.

Definition e2e4 : Move :=
  {| from_square := 12; to_square := 28; promotion := None; drop := None |}.
Definition d4e5 : Move :=
  {| from_square := 27; to_square := 36; promotion := None; drop := None |}.
Definition f3e5 : Move :=
  {| from_square := 21; to_square := 36; promotion := None; drop := None |}.
Definition c4f7 : Move :=
  {| from_square := 26; to_square := 53; promotion := None; drop := None |}.

(** A position without captures, promotions or check. *)
Definition quiet_board (side : Color) : Board :=
  {| turn := side; legal_moves := [e2e4];
     is_capture := fun _ => false; is_check := false |}.

(** A position with [n] of the captures [d4e5], [f3e5], [c4f7] among its
    legal moves, and no check. *)
Definition capture_board (side : Color) (n : nat) : Board :=
  {| turn := side; legal_moves := e2e4 :: take n [d4e5; f3e5; c4f7];
     is_capture := fun m => negb (bool_decide (m = e2e4)); is_check := false |}.

(** A search process that answers [play] with [r] and [analyse] with [a]. *)
Definition scripted (r : option PlayResult) (a : option AnalyseResult) : Uci :=
  {| play := fun _ _ => r; analyse := fun _ _ => a |}.

(** The primary result of the search: [e2e4] at depth 5, half a pawn up
    for White. *)
Definition shallow_result : PlayResult :=
  {| move := Some e2e4;
     info := {| depth := Some 5%nat;
                score := Some {| relative := Cp 50; pov_turn := WHITE |};
                pv := [e2e4] |} |}.

(** The deeper analysis: [d4e5], after which White is mated in two. *)
Definition mated_info : InfoDict :=
  {| depth := Some 14%nat;
     score := Some {| relative := Mate (-2); pov_turn := WHITE |};
     pv := [d4e5] |}.

End Scenario.

Module GameScenario.

Import Game.
Open Scope string_scope.

Definition a_move : Lichess_Move :=
  {| uci_move := "e7e5"; offer_draw := false; resign := false |}.

(** Collaborators for the examples: the position is named by its moves,
    [update] takes the move list of the event when it differs in length
    from the board's, [make_move] plays [e7e5]. *)
Definition collaborators : Collaborators :=
  {| fen := String.concat " ";
     is_fifty_moves := fun _ => false;
     is_repetition := fun _ => false;
     is_insufficient_material := fun _ => false;
     is_variant_draw := fun _ => false;
     update := fun lg event =>
       if (length (board lg) =? length (moves event))%nat
       then (false, lg)
       else (true, set_board (moves event) lg);
     make_move := fun lg =>
       Some (a_move, set_board (board lg ++ [uci_move a_move]) lg) |}.

Definition a_config : Config :=
  {| accept_30_second_draws := false; max_takebacks := 1 |}.

(** A game-state event with the given status, winner and moves. *)
Definition state_event (st : string) (w : option string) (ms : list string)
    (takeback : bool) : GameState :=
  {| status := st; winner := w; wdraw := false; bdraw := false;
     wtakeback := takeback; btakeback := false; wtime := 1000; moves := ms |}.

Definition an_info : Game_Information :=
  {| id_str := "abcd1234"; white_name := "alice"; black_name := "bot";
     white_str := "alice (1500)"; black_str := "BOT bot (2000)";
     tc_format := "5+0"; rated_str := "Rated"; variant_str := "Standard";
     white_title := None; black_title := Some "BOT";
     tournament_id := None;
     state := state_event "started" None ["e2e4"] false |}.

(** The bot plays Black; White has played [e2e4]. *)
Definition a_game (our_turn : bool) : Lichess_Game :=
  {| board := ["e2e4"]; is_white := false; is_our_turn := our_turn;
     is_abortable := true; tc_str := Some "5+0" |}.

(** The session at its first suspension. *)
Definition started (our_turn : bool) : Game :=
  start collaborators a_config "bot" false an_info (a_game our_turn).

(** The same collaborators on a board under the fifty-move rule. *)
Definition fifty_collaborators : Collaborators :=
  {| fen := fen collaborators;
     is_fifty_moves := fun _ => true;
     is_repetition := is_repetition collaborators;
     is_insufficient_material := is_insufficient_material collaborators;
     is_variant_draw := is_variant_draw collaborators;
     update := update collaborators;
     make_move := make_move collaborators |}.

(** The answer of [lichess_game.make_move()] to the first request: [e7e5],
    pushed on the board. *)
Definition first_answer : option (Lichess_Move * Lichess_Game) :=
  Some (a_move, set_board ["e2e4"; "e7e5"] (a_game true)).

(** The session once its first move task has run to its end: the bot has
    answered [e2e4] with [e7e5] and no task is left. *)
Definition after_first_move : Game :=
  run collaborators a_config "bot" false an_info (a_game true)
    [TaskRuns 0 None; TaskRuns 0 first_answer].

(** The event that ends the game: the opponent's third ply, which mates. *)
Definition mate_event : GameState :=
  state_event "mate" (Some "white") ["e2e4"; "e7e5"; "d1h5"] false.

(** A takeback request of the opponent, who has taken [e2e4] back and
    played [d2d4] instead by the time the request is handled. *)
Definition takeback_event : GameState :=
  state_event "started" None ["d2d4"] true.

(** The session in which the first move task is still waiting for its
    answer when the takeback is accepted, confirmed and carried out: the
    task is asked to cancel, the board is rolled back and updated, and a
    second task is created before the first one has unwound. *)
Definition after_takeback : Game :=
  run collaborators a_config "bot" false an_info (a_game true)
    [TaskRuns 0 None; Incoming (gameState takeback_event);
     Returns true; Returns true].

(** An offer of a draw by the opponent, who plays White. *)
Definition draw_event : GameState :=
  {| status := "started"; winner := None; wdraw := true; bdraw := false;
     wtakeback := false; btakeback := false; wtime := 1000;
     moves := ["e2e4"] |}.

(** A move that carries an offer of a draw. *)
Definition a_draw_move : Lichess_Move :=
  {| uci_move := "e7e5"; offer_draw := true; resign := false |}.

(** A session in which the move task hands its move, with an offer of a
    draw, while [_handle_takeback] is suspended in the call of the API,
    which then answers that the takeback was not accepted. *)
Definition offer_during_takeback : Game :=
  run collaborators a_config "bot" false an_info (a_game true)
    [TaskRuns 0 None; Incoming (gameState (state_event "started" None
                                            ["e2e4"] true));
     TaskRuns 0 (Some (a_draw_move, set_board ["e2e4"; "e7e5"] (a_game true)));
     Returns false].

End GameScenario.

(** ** engine.py: the set-up of the search process *)

Module EngineSetup.

(** *** _recommend_threads_and_hash *)

(** An optional integer as the left operand of [or]: [None] and [0] are
    falsy. *)
Definition or_else (a : option Z) (b : Z) : Z :=
  match a with
  | Some x => if (x =? 0)%Z then b else x
  | None => b
  end.

(** [_recommend_threads_and_hash]; [os_cpu_count] is what [os.cpu_count()]
    answers. *)
Definition _recommend_threads_and_hash (os_cpu_count : option Z)
    (role : string) (cpu_count total_ram_mb : option Z) : Z * Z :=
  let cpu := or_else cpu_count (or_else os_cpu_count 4) in
  let ram := or_else total_ram_mb 8192 in
  let usable := Z.max 1 (cpu - 1) in
  if bool_decide (role = "bullet"%string) then
    (Z.min usable 4,
     if (ram <=? 4096)%Z then 256%Z
     else if (ram <=? 8192)%Z then 512%Z else 1024%Z)
  else
    (Z.min usable 7,
     if (ram <=? 4096)%Z then 1024%Z
     else if (ram <=? 8192)%Z then 3072%Z
     else 4096%Z).

(** *** _configure_engine *)

(** The value of a UCI option. *)
Inductive Value :=
| VInt (z : Z)
| VStr (s : string)
| VBool (b : bool).

#[export] Instance Value_eq_dec : EqDecision Value.
Proof. solve_decision. Defined.

(** [engine_config.uci_options]: a dictionary in insertion order. *)
Definition Options : Type := list (string * Value).

(** [name in options]. *)
Definition contains (name : string) (options : Options) : bool :=
  existsb (fun kv => bool_decide (fst kv = name)) options.

(** [options.setdefault(name, value)]. *)
Definition setdefault (name : string) (value : Value) (options : Options)
    : Options :=
  if contains name options then options else options ++ [(name, value)].

(** [str.lower] on a character of an ASCII name. *)
Definition lower_ascii (a : Ascii.ascii) : Ascii.ascii :=
  let n := Ascii.nat_of_ascii a in
  if (65 <=? n)%nat && (n <=? 90)%nat then Ascii.ascii_of_nat (n + 32) else a.

(** [str.lower] on an ASCII name. *)
Fixpoint lower (s : string) : string :=
  match s with
  | EmptyString => EmptyString
  | String a s => String (lower_ascii a) (lower s)
  end.

(** [any(k.lower() == name for k in options.keys())]. *)
Definition provided (name : string) (options : Options) : bool :=
  existsb (fun kv => bool_decide (lower (fst kv) = name)) options.

Record Syzygy_Config := {
  enabled : bool;
  paths : list string;
  max_pieces : Z;
  probe_depth : option Z
}.

(** What [_configure_engine] reads of the engine object and of the
    library: the options the search process advertises, the options the
    library manages itself ([chess.engine.MANAGED_OPTIONS]), whether
    [engine.configure] raises for an option, and whether [os.name] is
    ["nt"]. *)
Record Process := {
  options : string -> bool;
  MANAGED_OPTIONS : list string;
  configure_raises : string -> Value -> bool;
  os_name_nt : bool;
  os_cpu_count : option Z
}.

(** The attributes of [Engine] that [_configure_engine] reads. *)
Record Tuning := {
  limit_time : option Q;
  auto_tune : bool;
  cpu_count : option Z;
  total_ram_mb : option Z
}.

(** What [_configure_engine] does to the outside: a call of
    [engine.configure] with one option, or a line on the error stream. *)
Inductive Effect :=
| configure (name : string) (value : Value)
| print_could_not_set (name : string) (value : Value)
| print_not_supported (name : string)
| print_failed_syzygy_path.

(** [self.limit_config.time or 0]. *)
Definition time_or_0 (t : option Q) : Q :=
  match t with
  | Some x => if Py.truthy x then x else 0%Q
  | None => 0%Q
  end.

(** The role of the tuning table. *)
Definition role (self : Tuning) : string :=
  if Engine.is_bullet (Engine.classify_tc (time_or_0 (limit_time self)) 0%Q)
  then "bullet"%string else "standard"%string.

(** The first part of [_configure_engine]: the options after the defaults
    of the tuning and of MultiPV. *)
Definition tuned_options (self : Tuning) (engine : Process)
    (uci_options : Options) : Options :=
  let threads_provided := provided "threads" uci_options in
  let hash_provided := provided "hash" uci_options in
  let uci_options :=
    if auto_tune self && (negb threads_provided || negb hash_provided) then
      let '(rec_threads, rec_hash) :=
        _recommend_threads_and_hash (os_cpu_count engine) (role self)
          (cpu_count self) (total_ram_mb self) in
      let uci_options :=
        if negb threads_provided
        then setdefault "Threads" (VInt rec_threads) uci_options
        else uci_options in
      if negb hash_provided
      then setdefault "Hash" (VInt rec_hash) uci_options
      else uci_options
    else uci_options in
  if negb (contains "MultiPV" uci_options) && options engine "MultiPV"
  then setdefault "MultiPV" (VInt 1) uci_options
  else uci_options.

(** One turn of the loop over the options. *)
Definition configure_option (engine : Process) (kv : string * Value)
    : list Effect :=
  let '(name, value) := kv in
  if bool_decide (lower name ∈ MANAGED_OPTIONS engine) then []
  else if options engine name then
    if configure_raises engine name value
    then [configure name value; print_could_not_set name value]
    else [configure name value]
  else [print_not_supported name].

(** The tablebase options. *)
Definition configure_syzygy (engine : Process) (syzygy_config : Syzygy_Config)
    (uci_options : Options) : list Effect :=
  if enabled syzygy_config then
    (if options engine "SyzygyPath" && negb (contains "SyzygyPath" uci_options)
     then
       let delim := if os_name_nt engine then ";"%string else ":"%string in
       let value := VStr (String.concat delim (paths syzygy_config)) in
       if configure_raises engine "SyzygyPath" value
       then [configure "SyzygyPath" value; print_failed_syzygy_path]
       else [configure "SyzygyPath" value]
     else [])
    ++ (if options engine "SyzygyProbeDepth"
           && negb (contains "SyzygyProbeDepth" uci_options)
        then [configure "SyzygyProbeDepth"
                        (VInt (default 1%Z (probe_depth syzygy_config)))]
        else [])
    ++ (if options engine "SyzygyProbeLimit"
           && negb (contains "SyzygyProbeLimit" uci_options)
        then [configure "SyzygyProbeLimit" (VInt (max_pieces syzygy_config))]
        else [])
  else [].

(** [_configure_engine]: the options as it leaves them, and what it did. *)
Definition _configure_engine (self : Tuning) (engine : Process)
    (uci_options : Options) (syzygy_config : Syzygy_Config)
    : Options * list Effect :=
  let uci_options := tuned_options self engine uci_options in
  (uci_options,
   flat_map (configure_option engine) uci_options
   ++ configure_syzygy engine syzygy_config uci_options).

(** The options that were sent, in order. *)
Fixpoint sent (effects : list Effect) : list (string * Value) :=
  match effects with
  | [] => []
  | configure name value :: effects => (name, value) :: sent effects
  | _ :: effects => sent effects
  end.

(** *** from_dual_config *)

(** [chosen] of [from_dual_config]. *)
Definition chosen {A : Type} (bullet_config standard_config : A)
    (base_seconds inc_seconds : Q) : A :=
  if Engine.is_bullet (Engine.classify_tc base_seconds inc_seconds)
  then bullet_config else standard_config.

(** *** start_pondering and stop_pondering *)

(** The pondering state of [Engine]: what [ponder] and [engine] are, the
    analysis handle and the task that consumes it.  Handles and tasks are
    numbered by [fresh]. *)
Record Pondering := {
  ponder : bool;
  has_engine : bool;
  _ponder_handle : option nat;
  _ponder_task : option nat;
  fresh : nat
}.

(** What the pondering functions do to the outside; a call of
    [engine.analysis] comes with the handle it answered, [None] when it
    raised. *)
Inductive PonderCall :=
| handle_stop (h : nat)
| wait_for_task (t : nat)
| task_cancel (t : nat)
| await_task (t : nat)
| engine_analysis (h : option nat)
| create_task (t : nat).

#[export] Instance PonderCall_eq_dec : EqDecision PonderCall.
Proof. solve_decision. Defined.

Definition set_ponder (h t : option nat) (n : nat) (s : Pondering) : Pondering :=
  {| ponder := ponder s; has_engine := has_engine s;
     _ponder_handle := h; _ponder_task := t; fresh := n |}.

(** [stop_pondering]; [timed_out] tells whether [asyncio.wait_for] ends
    with [TimeoutError]. *)
Definition stop_pondering (timed_out : bool) (s : Pondering)
    : Pondering * list PonderCall :=
  let stop :=
    match _ponder_handle s with
    | Some h => [handle_stop h]
    | None => []
    end in
  let wait :=
    match _ponder_task s with
    | Some t =>
        if timed_out then [wait_for_task t; task_cancel t; await_task t]
        else [wait_for_task t]
    | None => []
    end in
  (set_ponder None None (fresh s) s, stop ++ wait).

(** What [engine.analysis] does in [start_pondering]: it answers a handle;
    it raises [TypeError] and answers a handle at the second call; it
    raises [TypeError] and raises again; it raises something else. *)
Inductive Analysis :=
| Answers
| TypeError_then_answers
| TypeError_then_raises
| Raises.

(** [start_pondering]; when [engine.analysis] raises for good, the
    exception leaves the function after the calls listed. *)
Definition start_pondering (timed_out : bool) (analysis : Analysis)
    (s : Pondering) : Pondering * list PonderCall :=
  if negb (ponder s) || negb (has_engine s) then (s, [])
  else
    let '(s, calls) := stop_pondering timed_out s in
    let h := fresh s in
    let t := S h in
    match analysis with
    | Answers =>
        (set_ponder (Some h) (Some t) (S t) s,
         calls ++ [engine_analysis (Some h); create_task t])
    | TypeError_then_answers =>
        (set_ponder (Some h) (Some t) (S t) s,
         calls ++ [engine_analysis None; engine_analysis (Some h);
                   create_task t])
    | TypeError_then_raises =>
        (s, calls ++ [engine_analysis None; engine_analysis None])
    | Raises => (s, calls ++ [engine_analysis None])
    end.

(** A call of the pondering interface. *)
Inductive PonderOp :=
| Start (timed_out : bool) (analysis : Analysis)
| Stop (timed_out : bool).

Definition ponder_op (op : PonderOp) (s : Pondering)
    : Pondering * list PonderCall :=
  match op with
  | Start timed_out analysis => start_pondering timed_out analysis s
  | Stop timed_out => stop_pondering timed_out s
  end.

(** The state that a sequence of operations leaves, and its calls in
    order. *)
Fixpoint ponder_ops (ops : list PonderOp) (s : Pondering)
    : Pondering * list PonderCall :=
  match ops with
  | [] => (s, [])
  | op :: ops =>
      let '(s, calls) := ponder_op op s in
      let '(s, more) := ponder_ops ops s in
      (s, calls ++ more)
  end.

(** The analysis handles that were answered and not stopped, after a list
    of calls that started with the handles [live]. *)
Fixpoint live_handles (calls : list PonderCall) (live : list nat) : list nat :=
  match calls with
  | [] => live
  | handle_stop h :: calls =>
      live_handles calls (List.filter (fun x => negb (x =? h)%nat) live)
  | engine_analysis (Some h) :: calls => live_handles calls (h :: live)
  | _ :: calls => live_handles calls live
  end.

End EngineSetup.

(** ** game.py: counting the calls of a session *)

Module GameTrace.

Import Game.

#[export] Instance Lichess_Move_eq_dec : EqDecision Lichess_Move.
Proof. solve_decision. Defined.

#[export] Instance Call_eq_dec : EqDecision Call.
Proof. solve_decision. Defined.

(** How often the call [c] was made. *)
Definition count (c : Call) (calls : list Call) : nat :=
  length (List.filter (fun x => bool_decide (x = c)) calls).

(** A call that neither closes the game, nor rolls the board back, nor
    accepts a takeback, nor answers a draw offer. *)
Definition plain (x : Call) : Prop :=
  x <> lichess_game_close /\ x <> lichess_game_takeback
  /\ x <> api_handle_takeback true
  /\ x <> api_accept_draw /\ x <> api_decline_draw.

(** [s'] has the configuration and the takeback counter of [s], and its
    calls followed by plain ones. *)
Definition frame (s s' : Game) : Prop :=
  config s' = config s /\ takeback_count s' = takeback_count s
  /\ exists new, calls s' = (calls s ++ new)%list /\ Forall plain new.

(** What the counts of a session obey wherever [run] stands: the
    configuration is the one it started with; the takeback counter lies
    between 0 and the maximum; no rollback without an acceptance sent;
    against a bot no acceptance is sent; no draw offer is answered. *)
Definition counts_invariant (info : Game_Information) (cfg : Config)
    (s : Game) : Prop :=
  config s = cfg
  /\ (0 <= takeback_count s <= Z.max 0 (run_max_takebacks info s))%Z
  /\ (count lichess_game_takeback (calls s)
      <= count (api_handle_takeback true) (calls s))%nat
  /\ (opponent_is_bot info = true ->
      count (api_handle_takeback true) (calls s) = 0%nat)
  /\ count api_accept_draw (calls s) = 0%nat
  /\ count api_decline_draw (calls s) = 0%nat.

(** The rollbacks of the board against the takeback counter: they are
    equal, but while [run] is suspended in [lichess_game.takeback()], where
    the rollback is one ahead; a session that an exception has ended is in
    one of the two cases.  While [run] waits for the answer to an
    acceptance, the counter is below the maximum and that acceptance has no
    rollback yet. *)
Definition rollbacks_invariant (info : Game_Information) (s : Game) : Prop :=
  let rollbacks := Z.of_nat (count lichess_game_takeback (calls s)) in
  match main s with
  | AwaitsTakebackAnswer _ =>
      rollbacks = takeback_count s
      /\ (takeback_count s < run_max_takebacks info s)%Z
      /\ (count lichess_game_takeback (calls s)
          < count (api_handle_takeback true) (calls s))%nat
  | AwaitsTakeback _ =>
      rollbacks = (takeback_count s + 1)%Z
      /\ (takeback_count s < run_max_takebacks info s)%Z
  | Raised _ =>
      (takeback_count s <= rollbacks <= takeback_count s + 1)%Z
      /\ (rollbacks <= Z.max 0 (run_max_takebacks info s))%Z
  | _ => rollbacks = takeback_count s
  end.

(** The game is closed once when [run] has come to [lichess_game.close()],
    and not before; a session that an exception has ended was closed at
    most once. *)
Definition closes_invariant (s : Game) : Prop :=
  let closes := count lichess_game_close (calls s) in
  match main s with
  | AwaitsClose | Returned => closes = 1%nat
  | Raised _ => (closes <= 1)%nat
  | _ => closes = 0%nat
  end.

Definition session_invariant (info : Game_Information) (cfg : Config)
    (s : Game) : Prop :=
  counts_invariant info cfg s /\ rollbacks_invariant info s
  /\ closes_invariant s.

(** The rollbacks, the counter and the closing calls of a session that is
    in the loop of [run] and not inside [_handle_takeback]. *)
Definition ready (info : Game_Information) (cfg : Config) (s : Game) : Prop :=
  counts_invariant info cfg s
  /\ Z.of_nat (count lichess_game_takeback (calls s)) = takeback_count s
  /\ count lichess_game_close (calls s) = 0%nat.

(** Whether an offer of a draw gets as far as the policy of the bot: it is
    the opponent's, the bot has not just offered one itself, and the game
    is not at 0.5+0 or the configuration accepts draws at 0.5+0. *)
Definition reaches_policy (event : GameState) (s : Game) : bool :=
  let lg := lichess_game s in
  ((is_white lg && bdraw event) || (negb (is_white lg) && wdraw event))
  && negb (bot_offered_draw s)
  && (negb (bool_decide (tc_str lg = Some "0.5+0"%string))
      || accept_30_second_draws (config s)).

(** What a session whose game was over at its first event has done: it
    has made the calls [said], and closed the game once [run] has got
    there. *)
Definition over (said : list Call) (s : Game) : Prop :=
  tasks s = [] /\ move_task s = None
  /\ match main s with
     | AwaitsGoodbyes => calls s = said
     | AwaitsClose | Returned =>
         calls s = (said ++ [lichess_game_close])%list
     | Raised _ =>
         calls s = said \/ calls s = (said ++ [lichess_game_close])%list
     | _ => False
     end.

End GameTrace.

(** ** Concrete inputs for the set-up and the session *)

Module SetupScenario.

Import EngineSetup.

(** An engine without a fixed per-move limit on a machine with 8 cores and
    16 GB. *)
Definition a_tuning : Tuning :=
  {| limit_time := None; auto_tune := true;
     cpu_count := Some 8%Z; total_ram_mb := Some 16384%Z |}.

(** A search process that advertises every option but "Contempt" and
    rejects whatever it is sent. *)
Definition a_process : Process :=
  {| options := fun name => bool_decide (name <> "Contempt"%string);
     MANAGED_OPTIONS := ["multipv"; "ponder"]%string;
     configure_raises := fun _ _ => true;
     os_name_nt := false; os_cpu_count := None |}.

Definition some_options : Options :=
  [("hash"%string, VInt 64); ("Contempt"%string, VInt 0)].

Definition no_syzygy : Syzygy_Config :=
  {| enabled := false; paths := []; max_pieces := 0%Z; probe_depth := None |}.

(** A game between two bots. *)
Definition bot_info : Game.Game_Information :=
  {| Game.id_str := "abcd1234"; Game.white_name := "other";
     Game.black_name := "bot";
     Game.white_str := "BOT other (2100)"; Game.black_str := "BOT bot (2000)";
     Game.tc_format := "5+0"; Game.rated_str := "Rated";
     Game.variant_str := "Standard";
     Game.white_title := Some "BOT"%string;
     Game.black_title := Some "BOT"%string;
     Game.tournament_id := None;
     Game.state := GameScenario.state_event "started" None ["e2e4"%string] false |}.

(** A game that is over when the session starts. *)
Definition over_info : Game.Game_Information :=
  {| Game.id_str := "abcd1234"; Game.white_name := "alice";
     Game.black_name := "bot";
     Game.white_str := "alice (1500)"; Game.black_str := "BOT bot (2000)";
     Game.tc_format := "5+0"; Game.rated_str := "Rated";
     Game.variant_str := "Standard";
     Game.white_title := None; Game.black_title := Some "BOT"%string;
     Game.tournament_id := None;
     Game.state := GameScenario.mate_event |}.

(** A configuration that allows three takebacks. *)
Definition three_takebacks : Game.Config :=
  {| Game.accept_30_second_draws := false; Game.max_takebacks := 3 |}.

(** A takeback request that the API confirms, the first move task run
    once, and an update with the opponent's next move. *)
Definition some_steps : list Game.Step :=
  [Game.Incoming
     (Game.gameState (GameScenario.state_event "started" None
                        ["e2e4"%string] true));
   Game.Returns true;
   Game.Returns true;
   Game.TaskRuns 0 None;
   Game.Incoming
     (Game.gameState (GameScenario.state_event "started" None
                        ["e2e4"; "e7e5"; "g1f3"]%string false))].

End SetupScenario.

(** * Properties *)

(** ** Facts on Python arithmetic *)

Section PyFacts.

Open Scope Q_scope.

Lemma Qltb_lt a b : Py.Qltb a b = true <-> a < b.
Proof.
  unfold Py.Qltb. rewrite negb_true_iff, <- not_true_iff_false, Qle_bool_iff.
  split; [apply Qnot_le_lt | apply Qlt_not_le].
Qed.

Lemma Qltb_ge a b : Py.Qltb a b = false <-> b <= a.
Proof. unfold Py.Qltb. rewrite negb_false_iff. apply Qle_bool_iff. Qed.

Lemma Qleb_le a b : Py.Qleb a b = true <-> a <= b.
Proof. apply Qle_bool_iff. Qed.

Lemma Qleb_gt a b : Py.Qleb a b = false <-> ~ a <= b.
Proof. unfold Py.Qleb. rewrite <- not_true_iff_false, Qle_bool_iff. tauto. Qed.

Lemma truthy_ne a : Py.truthy a = true <-> ~ a == 0.
Proof.
  unfold Py.truthy.
  rewrite negb_true_iff, <- not_true_iff_false, Qeq_bool_iff. tauto.
Qed.

(** What [max] and [min] return, by the order of their arguments. *)
Lemma max_cases a b :
  (a < b /\ Py.max a b = b) \/ (b <= a /\ Py.max a b = a).
Proof.
  unfold Py.max. destruct (Py.Qltb a b) eqn:E.
  - left. split; [by apply Qltb_lt | done].
  - right. split; [by apply Qltb_ge | done].
Qed.

Lemma min_cases a b :
  (b < a /\ Py.min a b = b) \/ (a <= b /\ Py.min a b = a).
Proof.
  unfold Py.min. destruct (Py.Qltb b a) eqn:E.
  - left. split; [by apply Qltb_lt | done].
  - right. split; [by apply Qltb_ge | done].
Qed.

End PyFacts.

(** Case analysis on the [Py.max] and [Py.min] of the goal, innermost
    first, leaving linear arithmetic. *)
Ltac py_minmax :=
  repeat match goal with
    | |- context [Py.max ?a ?b] =>
        lazymatch a with context [Py.max _ _] => fail | context [Py.min _ _] => fail | _ => idtac end;
        lazymatch b with context [Py.max _ _] => fail | context [Py.min _ _] => fail | _ => idtac end;
        let H := fresh "Hmax" in
        destruct (max_cases a b) as [[? H] | [? H]]; rewrite H in *; clear H
    | |- context [Py.min ?a ?b] =>
        lazymatch a with context [Py.max _ _] => fail | context [Py.min _ _] => fail | _ => idtac end;
        lazymatch b with context [Py.max _ _] => fail | context [Py.min _ _] => fail | _ => idtac end;
        let H := fresh "Hmin" in
        destruct (min_cases a b) as [[? H] | [? H]]; rewrite H in *; clear H
    end.

(** Turn the boolean comparisons of the context into propositions. *)
Ltac py_bools :=
  repeat match goal with
    | H : Py.Qleb _ _ = true |- _ => apply Qleb_le in H
    | H : Py.Qleb _ _ = false |- _ => apply Qleb_gt in H
    | H : Py.Qltb _ _ = true |- _ => apply Qltb_lt in H
    | H : Py.Qltb _ _ = false |- _ => apply Qltb_ge in H
    end.

(** ** classify_tc *)

Section ClassifyTc.

Import Engine.
Open Scope Q_scope.

(** The function agrees with the ordered rules. *)
Lemma classify_tc_classified base inc :
  classified base inc (classify_tc base inc).
Proof.
  unfold classify_tc.
  destruct (Py.Qleb base 60) eqn:E60; py_bools.
  { by constructor. }
  destruct (Py.Qleb base 120 || Py.Qleb base 180 && Py.Qleb inc 1) eqn:Eb.
  { constructor; [done |].
    apply orb_true_iff in Eb as [Eb | Eb]; [left; by apply Qleb_le |].
    apply andb_true_iff in Eb as [? ?]. py_bools. by right. }
  assert (~ (base <= 120 \/ base <= 180 /\ inc <= 1)) as Nb.
  { apply orb_false_iff in Eb as [E1 E2]. py_bools.
    apply andb_false_iff in E2. intros [? | [? ?]]; [done |].
    destruct E2; py_bools; done. }
  destruct (Py.Qleb base 600 || Py.Qleb base 900 && Py.Qleb inc 2) eqn:Ez.
  { constructor; [done | done |].
    apply orb_true_iff in Ez as [Ez | Ez]; [left; by apply Qleb_le |].
    apply andb_true_iff in Ez as [? ?]. py_bools. by right. }
  assert (~ (base <= 600 \/ base <= 900 /\ inc <= 2)) as Nz.
  { apply orb_false_iff in Ez as [E1 E2]. py_bools.
    apply andb_false_iff in E2. intros [? | [? ?]]; [done |].
    destruct E2; py_bools; done. }
  destruct (Py.Qleb base 3600) eqn:Er; py_bools; by constructor.
Qed.

(** The ordered rules name one category only. *)
Lemma classified_functional base inc tc1 tc2 :
  classified base inc tc1 -> classified base inc tc2 -> tc1 = tc2.
Proof. intros H1 H2. destruct H1; destruct H2; done. Qed.

(** C3: [classify_tc] is a function of the base time and the increment
    that returns the category of the first threshold rule that applies, in
    the order hyperbullet ([base <= 60]), bullet ([base <= 120], or
    [base <= 180] with [inc <= 1]), blitz ([base <= 600], or [base <= 900]
    with [inc <= 2]), rapid ([base <= 3600]), classical; the seven listed
    values are the ones it returns. *)
Theorem classify_tc_thresholds :
  (forall base inc tc, classify_tc base inc = tc <-> classified base inc tc)
  /\ classify_tc 40 0 = Hyperbullet
  /\ classify_tc 120 0 = Bullet
  /\ classify_tc 180 1 = Bullet
  /\ classify_tc 300 0 = Blitz
  /\ classify_tc 900 2 = Blitz
  /\ classify_tc 1800 0 = Rapid
  /\ classify_tc 5400 0 = Classical.
Proof.
  split; [| repeat split; reflexivity].
  intros base inc tc. split.
  - intros <-. apply classify_tc_classified.
  - intros H. eapply classified_functional; [apply classify_tc_classified | done].
Qed.

End ClassifyTc.

(** ** make_move: the think time *)

Section ThinkTime.

Import Engine.
Open Scope Q_scope.

(** The [min] and [max] of the boost leave the product as it is. *)
Lemma tactical_boost_product tc ts in_check t :
  tactical_boost tc ts in_check t =
  if (3 <=? ts)%nat || in_check then t * boost tc else t.
Proof.
  unfold tactical_boost. destruct ((3 <=? ts)%nat || in_check); [| done].
  destruct (negb (is_bullet tc)).
  - unfold Py.max. destruct (Py.Qltb (t * boost tc) 10.0) eqn:E.
    + unfold Py.min. apply Qltb_lt in E.
      destruct (Py.Qltb 10.0 (t * boost tc)) eqn:E'; [| done].
      apply Qltb_lt in E'. lra.
    + unfold Py.min. destruct (Py.Qltb (t * boost tc) (t * boost tc)) eqn:E'; done.
  - unfold Py.min. destruct (Py.Qltb (t * boost tc) (t * boost tc)); done.
Qed.

Lemma boost_pos tc : 0 < boost tc.
Proof. unfold boost. destruct (negb (is_bullet tc)); lra. Qed.

Lemma base_think_time_pos tc mine inc : 0 < base_think_time tc mine inc.
Proof.
  unfold base_think_time. destruct (base_allocation tc) as [f cap].
  destruct (max_cases 0.01 (mine * f + Py.min cap (inc * 2.0)))
    as [[? ->] | [? ->]]; lra.
Qed.

Lemma tactical_boost_pos tc ts in_check t :
  0 < t -> 0 < tactical_boost tc ts in_check t.
Proof.
  intros Ht. rewrite tactical_boost_product.
  destruct ((3 <=? ts)%nat || in_check); [| done].
  pose proof (boost_pos tc). by apply Qmult_lt_0_compat.
Qed.

Lemma apply_overhead_pos self t :
  0 <= move_overhead_multiplier self -> 0 < t -> 0 < apply_overhead self t.
Proof.
  intros Hm Ht. unfold apply_overhead.
  destruct (Py.truthy (move_overhead_multiplier self)) eqn:E; [| done].
  destruct (negb (Qeq_bool (move_overhead_multiplier self) 1.0)); [| done].
  apply truthy_ne in E. simpl.
  apply Qlt_shift_div_l; lra.
Qed.

Lemma budget_pos self board wt bt inc :
  0 <= move_overhead_multiplier self -> 0 < budget self board wt bt inc.
Proof.
  intros Hm. unfold budget.
  apply apply_overhead_pos; [done |].
  apply tactical_boost_pos, base_think_time_pos.
Qed.

Lemma clamp_limit_pos self t :
  (forall l, lc_time (limit_config self) = Some l -> 0 <= l) ->
  0 < t -> 0 < clamp_limit self t.
Proof.
  intros Hl Ht. unfold clamp_limit.
  destruct (lc_time (limit_config self)) as [l |]; [| done].
  specialize (Hl l eq_refl).
  destruct (Py.truthy l) eqn:E; [| done].
  apply truthy_ne in E.
  destruct (min_cases t l) as [[? ->] | [? ->]]; lra.
Qed.

Lemma clamp_limit_le self t l :
  lc_time (limit_config self) = Some l -> Py.truthy l = true ->
  clamp_limit self t <= l.
Proof.
  intros Hl E. unfold clamp_limit. rewrite Hl, E.
  destruct (min_cases t l) as [[? ->] | [? ->]]; lra.
Qed.

Lemma bullet_safety_caps_pos tc mine t :
  0 < t -> 0 < bullet_safety_caps tc mine t.
Proof.
  intros Ht. unfold bullet_safety_caps.
  destruct (is_bullet tc); [| done].
  destruct (Py.Qltb 30 mine); [| destruct (Py.Qltb 3 mine)];
    py_minmax; lra.
Qed.

(** The bounds of the bullet safety caps. *)
Lemma bullet_safety_caps_bounds tc mine t :
  is_bullet tc = true ->
  (30 < mine -> 0.03 <= bullet_safety_caps tc mine t <= 0.35)
  /\ (3 < mine -> mine <= 30 -> 0.02 <= bullet_safety_caps tc mine t <= 0.12)
  /\ (mine <= 3 -> bullet_safety_caps tc mine t = 0.01).
Proof.
  intros Hb. unfold bullet_safety_caps. rewrite Hb.
  destruct (Py.Qltb 30 mine) eqn:E30; py_bools.
  { split; [| split]; intros; try lra. py_minmax; lra. }
  destruct (Py.Qltb 3 mine) eqn:E3; py_bools.
  { split; [| split]; intros; try lra. py_minmax; lra. }
  split; [| split]; intros; try lra. done.
Qed.

End ThinkTime.

(** ** make_move: the claims on the think time *)

Section ThinkTimeClaims.

Import Engine Scenario.
Open Scope Q_scope.

(** [max(lo, min(t, hi))] clamps [t] into the interval from [lo] to
    [hi]. *)
Lemma clamp_cases lo hi t :
  lo < hi ->
  (t < lo -> Py.max lo (Py.min t hi) = lo)
  /\ (lo <= t <= hi -> Py.max lo (Py.min t hi) == t)
  /\ (hi < t -> Py.max lo (Py.min t hi) = hi).
Proof.
  intros Hlh. unfold Py.max, Py.min. repeat split; intros H.
  - destruct (Py.Qltb hi t) eqn:E1; py_bools; [lra |].
    destruct (Py.Qltb lo t) eqn:E2; py_bools; [lra | done].
  - destruct (Py.Qltb hi t) eqn:E1; py_bools; [lra |].
    destruct (Py.Qltb lo t) eqn:E2; py_bools; [done | lra].
  - destruct (Py.Qltb hi t) eqn:E1; py_bools; [| lra].
    destruct (Py.Qltb lo hi) eqn:E2; py_bools; [done | lra].
Qed.

(** C6: for the bullet and hyperbullet categories, and for them only, the
    think time of [make_move] is the budget, clamped to the fixed limit,
    clamped again by the emergency caps on the mover's own clock.  Above
    30 s it is clamped into [0.03, 0.35]: 0.03 below the interval, the value
    itself inside, 0.35 above.  Above 3 s and up to 30 s it is clamped into
    [0.02, 0.12] in the same way.  Up to 3 s it is exactly 0.01; so bullet
    with an own clock of 2 s gives exactly 0.01.  For the other categories
    the value is left as it is. *)
Theorem emergency_caps self board white_time black_time increment :
  let tc := move_tc white_time black_time increment in
  let mine := my_time board white_time black_time in
  let clamped :=
    clamp_limit self (budget self board white_time black_time increment) in
  let t := think_time self board white_time black_time increment in
  (is_bullet tc = true ->
     (30 < mine ->
        (clamped < 0.03 -> t = 0.03)
        /\ (0.03 <= clamped <= 0.35 -> t == clamped)
        /\ (0.35 < clamped -> t = 0.35)
        /\ 0.03 <= t <= 0.35)
     /\ (3 < mine -> mine <= 30 ->
        (clamped < 0.02 -> t = 0.02)
        /\ (0.02 <= clamped <= 0.12 -> t == clamped)
        /\ (0.12 < clamped -> t = 0.12)
        /\ 0.02 <= t <= 0.12)
     /\ (mine <= 3 -> t = 0.01)
     /\ (tc = Bullet -> mine == 2 -> t = 0.01))
  /\ (is_bullet tc = false -> t = clamped).
Proof.
  intros tc mine clamped t. split.
  - intros Hb.
    destruct (bullet_safety_caps_bounds tc mine clamped Hb) as (H30 & H3 & H0).
    assert (t = bullet_safety_caps tc mine clamped) as Et by reflexivity.
    split; [| split; [| split]].
    + intros Hm. rewrite Et at 1 2 3.
      unfold bullet_safety_caps. rewrite Hb.
      assert (Py.Qltb 30 mine = true) as -> by (by apply Qltb_lt).
      destruct (clamp_cases 0.03 0.35 clamped) as (C1 & C2 & C3); [lra |].
      repeat split; try done; rewrite Et; by apply H30.
    + intros Hm Hm'. rewrite Et at 1 2 3.
      unfold bullet_safety_caps. rewrite Hb.
      assert (Py.Qltb 30 mine = false) as -> by (by apply Qltb_ge).
      assert (Py.Qltb 3 mine = true) as -> by (by apply Qltb_lt).
      destruct (clamp_cases 0.02 0.12 clamped) as (C1 & C2 & C3); [lra |].
      repeat split; try done; rewrite Et; by apply H3.
    + intros Hm. rewrite Et. by apply H0.
    + intros _ E. rewrite Et. apply H0. lra.
  - intros Hb. unfold t, think_time, bullet_safety_caps. fold tc.
    by rewrite Hb.
Qed.

Lemma emergency_caps_witness :
  move_tc 2 100 0 = Bullet
  /\ think_time plain_engine (quiet_board WHITE) 2 100 0 = 0.01
  /\ think_time plain_engine (quiet_board WHITE) 100 100 0 == 0.35
  /\ think_time plain_engine (quiet_board WHITE) 20 100 0 == 0.12
  /\ think_time plain_engine (quiet_board BLACK) 100 4 0 == 0.06.
Proof.
  split; [reflexivity |].
  destruct (emergency_caps plain_engine (quiet_board WHITE) 2 100 0)
    as [H2 _].
  destruct (emergency_caps plain_engine (quiet_board WHITE) 100 100 0)
    as [H100 _].
  destruct (emergency_caps plain_engine (quiet_board WHITE) 20 100 0)
    as [H20 _].
  destruct (emergency_caps plain_engine (quiet_board BLACK) 100 4 0)
    as [H4 _].
  split; [| split; [| split]].
  - destruct (H2 eq_refl) as (_ & _ & _ & H). apply H; reflexivity.
  - destruct (H100 eq_refl) as (H & _).
    destruct H as (_ & _ & H & _); [reflexivity |].
    rewrite H; [reflexivity | reflexivity].
  - destruct (H20 eq_refl) as (_ & H & _).
    destruct H as (_ & _ & H & _); [reflexivity | vm_compute; discriminate |].
    rewrite H; [reflexivity | reflexivity].
  - destruct (H4 eq_refl) as (_ & H & _).
    destruct H as (_ & H & _); [reflexivity | vm_compute; discriminate |].
    rewrite H; [reflexivity |]. vm_compute. split; discriminate.
Defined.

(** C5, as amended: in [make_move], when the tactical score (legal
    captures plus legal promotions) is at least 3 or the side to move is in
    check, the base budget is multiplied by 1.8 for the categories that are
    not bullet and by 1.4 for bullet and hyperbullet; otherwise it is left
    as it is.  No floor is applied: the 10 s term of the source never
    changes the value. *)
Theorem tactical_boost_factor self board white_time black_time increment :
  let tc := move_tc white_time black_time increment in
  let base :=
    base_think_time tc (my_time board white_time black_time) increment in
  tactical_score board =
    (length (List.filter (is_capture board) (legal_moves board))
     + length (List.filter (fun m => bool_decide (promotion m <> None))
                           (legal_moves board)))%nat
  /\ budget self board white_time black_time increment =
     apply_overhead self
       (if (3 <=? tactical_score board)%nat || is_check board
        then base * (if is_bullet tc then 1.4 else 1.8)
        else base).
Proof.
  intros tc base. split; [reflexivity |].
  unfold budget. fold tc base. rewrite tactical_boost_product.
  unfold boost. by destruct (is_bullet tc).
Qed.

(** C5 as worded fails: in a blitz position with three captures and 30 s on
    the mover's clock the boosted budget is 3.24 s, where the floor of the
    wording would give 10 s. *)
Lemma tactical_boost_not_floored :
  move_tc 30 300 0 = Blitz
  /\ tactical_score (capture_board WHITE 3) = 3%nat
  /\ budget plain_engine (capture_board WHITE 3) 30 300 0 == 3.24
  /\ spec_tactical_boost Blitz 3 false (base_think_time Blitz 30 0) == 10
  /\ ~ budget plain_engine (capture_board WHITE 3) 30 300 0
       == spec_tactical_boost Blitz 3 false (base_think_time Blitz 30 0).
Proof. repeat apply conj; vm_compute; congruence. Qed.

End ThinkTimeClaims.

Section ThinkTimeLimit.

Import Engine Scenario.
Open Scope Q_scope.

(** C2, as amended: when the overhead multiplier and the fixed per-move
    limit are not negative, the think time of [make_move] is strictly
    positive; it never exceeds a configured limit for blitz, rapid and
    classical, nor for any category when the limit is at least 0.03 s; for
    bullet and hyperbullet the emergency caps come after the clamp, so the
    think time never exceeds the larger of the limit and 0.03 s. *)
Theorem think_time_bounds self board white_time black_time increment :
  0 <= move_overhead_multiplier self ->
  (forall l, lc_time (limit_config self) = Some l -> 0 <= l) ->
  let tc := move_tc white_time black_time increment in
  let t := think_time self board white_time black_time increment in
  0 < t
  /\ (forall l,
       lc_time (limit_config self) = Some l -> Py.truthy l = true ->
       (is_bullet tc = false -> t <= l)
       /\ (0.03 <= l -> t <= l)
       /\ t <= Py.max l 0.03).
Proof.
  intros Hm Hl tc t. split.
  { apply bullet_safety_caps_pos, clamp_limit_pos; [done |].
    by apply budget_pos. }
  intros l El Tl.
  pose proof (clamp_limit_le self
                (budget self board white_time black_time increment) l El Tl)
    as Hc.
  unfold t, think_time. fold tc.
  set (c := clamp_limit self _) in *.
  unfold bullet_safety_caps.
  destruct (is_bullet tc).
  - split; [done |].
    destruct (Py.Qltb 30 _); [| destruct (Py.Qltb 3 _)];
      (split; [intros ? |]); py_minmax; lra.
  - repeat split; intros; py_minmax; lra.
Qed.

Lemma think_time_bounds_witness :
  0 < think_time (engine_with (Some 5) 1.0) (quiet_board WHITE) 300 300 0
  /\ think_time (engine_with (Some 5) 1.0) (quiet_board WHITE) 300 300 0 <= 5.
Proof.
  assert (0 <= move_overhead_multiplier (engine_with (Some 5) 1.0)) as Hm
    by (vm_compute; discriminate).
  assert (forall l, lc_time (limit_config (engine_with (Some 5) 1.0)) = Some l
                    -> 0 <= l) as Hl
    by (intros l [= <-]; vm_compute; discriminate).
  destruct (think_time_bounds (engine_with (Some 5) 1.0) (quiet_board WHITE)
              300 300 0 Hm Hl) as [Hpos Hle].
  split; [exact Hpos |].
  destruct (Hle 5 eq_refl eq_refl) as [H _].
  apply H. reflexivity.
Defined.

(** C2 as worded fails: with a fixed limit of 0.02 s, hyperbullet and 60 s
    on the mover's clock, the think time is 0.03 s, above the limit. *)
Lemma think_time_exceeds_limit :
  lc_time (limit_config (engine_with (Some 0.02) 1.0)) = Some 0.02
  /\ think_time (engine_with (Some 0.02) 1.0) (quiet_board WHITE) 60 60 0
     = 0.03
  /\ ~ think_time (engine_with (Some 0.02) 1.0) (quiet_board WHITE) 60 60 0
       <= 0.02.
Proof. repeat apply conj; vm_compute; congruence. Qed.

(** Both clocks at 120 s or less give bullet or hyperbullet. *)
Lemma low_clocks_bullet white_time black_time increment :
  white_time <= 120 -> black_time <= 120 ->
  is_bullet (move_tc white_time black_time increment) = true.
Proof.
  intros Hw Hb. unfold move_tc, classify_tc.
  assert (Py.max white_time black_time <= 120) as Hmax
    by (py_minmax; lra).
  destruct (Py.Qleb _ 60); [done |].
  apply Qleb_le in Hmax. by rewrite Hmax.
Qed.

End ThinkTimeLimit.

(** ** make_move: the fallback deepening *)

Section Fallback.

Import Engine Scenario.
Open Scope Q_scope.

(** When the search returns a move, the deeper analysis is called exactly
    when the depth is shallow and the position tactical or in check, for
    the extra time of the category. *)
Lemma fallback_deepening_trigger self engine board white_time black_time
    increment result m :
  let tc := move_tc white_time black_time increment in
  let t := think_time self board white_time black_time increment in
  let limit :=
    {| white_clock := white_time; white_inc := increment;
       black_clock := black_time; black_inc := increment; time := t;
       limit_depth := lc_depth (limit_config self);
       limit_nodes := lc_nodes (limit_config self) |} in
  play engine board limit = Some result ->
  truthy_move result = Some m ->
  snd (make_move self engine board white_time black_time increment) =
  if wants_fallback tc (default 0%nat (depth (info result)))
       (tactical_score board) (is_check board)
  then [CallPlay limit; CallAnalyse (extra_time tc t)]
  else [CallPlay limit].
Proof.
  intros tc t limit Hplay Hmove. unfold make_move.
  fold tc t limit. rewrite Hplay, Hmove.
  destruct (wants_fallback _ _ _ _); [| done].
  destruct (analyse engine board _) as [infos |]; [| done].
  destruct (pv (best_info infos)); [done |].
  by destruct (_ && _).
Qed.

(** The think time of [make_move] is the one of the specification for the
    category of the larger clock. *)
Lemma think_time_by_category self board white_time black_time increment :
  think_time self board white_time black_time increment
  = spec_think_time (classify_tc (Py.max white_time black_time) increment)
      self (tactical_score board) (is_check board)
      (my_time board white_time black_time) increment.
Proof.
  unfold think_time, budget, move_tc. rewrite tactical_boost_product.
  unfold spec_think_time, base_think_time, base_allocation, boost,
    bullet_safety_caps, is_bullet.
  by destruct (classify_tc _ _).
Qed.

(** C10: on every call of [make_move] the category that decides the budget
    fractions, the boost factor, the emergency caps, the shallow threshold
    and the extra time is [classify_tc] of the larger of the two clock
    readings and the increment: the search is asked first, with the think
    time that the specification computes for that category, and when it
    returns a move the deeper analysis is asked exactly when the depth is
    below the threshold of that category (and the position tactical or in
    check), for the extra time of that category.  The base time of the
    game is no input, so the category changes within a game: a game
    started at 5400 s is classical by its base time and with 5400 s on both
    clocks, blitz with 300 s on both, bullet with 100 s and 90 s, and blitz
    when the mover has 50 s and the opponent 700 s (the think time is then
    3 s, uncapped).  Whenever both clocks are at 120 s or less the move is
    scheduled under the bullet or hyperbullet rules: a think time within
    [0.01, 0.35], the threshold 10 and the extra time of 1.2 times the
    think time. *)
Theorem category_follows_clocks :
  (forall self engine board white_time black_time increment,
      let tc := classify_tc (Py.max white_time black_time) increment in
      let t :=
        spec_think_time tc self (tactical_score board) (is_check board)
          (my_time board white_time black_time) increment in
      let limit :=
        {| white_clock := white_time; white_inc := increment;
           black_clock := black_time; black_inc := increment; time := t;
           limit_depth := lc_depth (limit_config self);
           limit_nodes := lc_nodes (limit_config self) |} in
      let calls :=
        snd (make_move self engine board white_time black_time increment) in
      head calls = Some (CallPlay limit)
      /\ (forall result m,
            play engine board limit = Some result ->
            truthy_move result = Some m ->
            calls =
            if (default 0%nat (depth (info result))
                <? spec_shallow_threshold tc)%nat
               && ((2 <=? tactical_score board)%nat || is_check board)
            then [CallPlay limit; CallAnalyse (spec_extra_time tc t)]
            else [CallPlay limit]))
  /\ (classify_tc 5400 0 = Classical
      /\ classify_tc (Py.max 5400 5400) 0 = Classical
      /\ classify_tc (Py.max 300 300) 0 = Blitz
      /\ classify_tc (Py.max 100 90) 0 = Bullet
      /\ classify_tc (Py.max 50 700) 0 = Blitz
      /\ think_time plain_engine (quiet_board WHITE) 50 700 0 == 3)
  /\ (forall self engine board white_time black_time increment,
        white_time <= 120 -> black_time <= 120 ->
        let tc := classify_tc (Py.max white_time black_time) increment in
        let t := think_time self board white_time black_time increment in
        let limit :=
          {| white_clock := white_time; white_inc := increment;
             black_clock := black_time; black_inc := increment; time := t;
             limit_depth := lc_depth (limit_config self);
             limit_nodes := lc_nodes (limit_config self) |} in
        (tc = Bullet \/ tc = Hyperbullet)
        /\ 0.01 <= t <= 0.35
        /\ (forall result m,
              play engine board limit = Some result ->
              truthy_move result = Some m ->
              snd (make_move self engine board white_time black_time
                     increment) =
              if (default 0%nat (depth (info result)) <? 10)%nat
                 && ((2 <=? tactical_score board)%nat || is_check board)
              then [CallPlay limit; CallAnalyse (t * 1.2)]
              else [CallPlay limit])).
Proof.
  assert (forall self engine board white_time black_time increment,
      let tc := classify_tc (Py.max white_time black_time) increment in
      let t := think_time self board white_time black_time increment in
      let limit :=
        {| white_clock := white_time; white_inc := increment;
           black_clock := black_time; black_inc := increment; time := t;
           limit_depth := lc_depth (limit_config self);
           limit_nodes := lc_nodes (limit_config self) |} in
      forall result m,
        play engine board limit = Some result ->
        truthy_move result = Some m ->
        snd (make_move self engine board white_time black_time increment) =
        if (default 0%nat (depth (info result))
            <? spec_shallow_threshold tc)%nat
           && ((2 <=? tactical_score board)%nat || is_check board)
        then [CallPlay limit; CallAnalyse (spec_extra_time tc t)]
        else [CallPlay limit]) as Hcalls.
  { intros self engine board white_time black_time increment tc t limit
      result m Hplay Hmove.
    rewrite (fallback_deepening_trigger self engine board white_time
               black_time increment result m Hplay Hmove).
    unfold wants_fallback, shallow_threshold, extra_time, is_bullet, move_tc.
    fold tc t limit. unfold spec_shallow_threshold, spec_extra_time.
    destruct tc; try done. }
  split; [| split].
  - intros self engine board white_time black_time increment tc t limit calls.
    assert (think_time self board white_time black_time increment = t) as Et
      by apply think_time_by_category.
    split.
    + unfold calls, make_move. rewrite Et. fold limit.
      destruct (play engine board limit) as [result |].
      * destruct (truthy_move result) as [m |]; [| done].
        destruct (wants_fallback _ _ _ _); [| done].
        destruct (analyse engine board _) as [infos |]; [| done].
        destruct (pv (best_info infos)); [done |].
        by destruct (_ && _).
      * by destruct (legal_moves board).
    + intros result m Hplay Hmove. unfold calls.
      pose proof (Hcalls self engine board white_time black_time increment)
        as H. simpl in H. rewrite Et in H.
      exact (H result m Hplay Hmove).
  - repeat split; try reflexivity.
  - intros self engine board white_time black_time increment Hw Hb tc t limit.
    pose proof (low_clocks_bullet white_time black_time increment Hw Hb)
      as Hbul. unfold move_tc in Hbul. fold tc in Hbul.
    assert (0.01 <= t <= 0.35) as Ht.
    { unfold t, think_time, bullet_safety_caps, move_tc. fold tc.
      rewrite Hbul.
      destruct (Py.Qltb 30 _); [| destruct (Py.Qltb 3 _)]; py_minmax; lra. }
    split; [destruct tc; try discriminate; auto |]. split; [done |].
    intros result m Hplay Hmove.
    rewrite (Hcalls self engine board white_time black_time increment
               result m Hplay Hmove).
    fold tc t limit. destruct tc; try discriminate; done.
Qed.

Lemma category_follows_clocks_witness :
  classify_tc (Py.max 100 90) 0 = Bullet
  /\ think_time plain_engine (capture_board BLACK 2) 100 90 0 <= 0.35
  /\ snd (make_move plain_engine
            (scripted (Some shallow_result) (Some (InfoList [mated_info])))
            (capture_board BLACK 2) 100 90 0)
     = [CallPlay {| white_clock := 100; white_inc := 0;
                    black_clock := 90; black_inc := 0;
                    time := think_time plain_engine (capture_board BLACK 2)
                                       100 90 0;
                    limit_depth := None; limit_nodes := None |};
        CallAnalyse (think_time plain_engine (capture_board BLACK 2)
                                100 90 0 * 1.2)].
Proof.
  destruct category_follows_clocks as (_ & _ & H).
  assert (100 <= 120) as Hw by (vm_compute; discriminate).
  assert (90 <= 120) as Hb by (vm_compute; discriminate).
  destruct (H plain_engine
              (scripted (Some shallow_result) (Some (InfoList [mated_info])))
              (capture_board BLACK 2) 100 90 0 Hw Hb)
    as (_ & [_ Hle] & Hcalls).
  split; [reflexivity |]. split; [exact Hle |].
  rewrite (Hcalls shallow_result e2e4 eq_refl eq_refl). reflexivity.
Defined.

(** C4: the code at the failing input.  White to move in a blitz position
    with two captures; the search returns [e2e4] at depth 5 with +50
    centipawns; the deeper analysis returns [d4e5] with White mated in two.
    [make_move] adopts [d4e5], whose evaluation from White's perspective
    (minus infinity) is worse than the primary's. *)
Theorem fallback_adopts_mated_candidate :
  let engine := scripted (Some shallow_result) (Some (InfoList [mated_info])) in
  let board := capture_board WHITE 2 in
  move_tc 300 300 0 = Blitz
  /\ wants_fallback Blitz 5 (tactical_score board) (is_check board) = true
  /\ fst (make_move plain_engine engine board 300 300 0)
     = Return d4e5 mated_info
  /\ evaluation WHITE {| relative := Mate (-2); pov_turn := WHITE |}
     = MinusInfinity
  /\ evaluation WHITE {| relative := Cp 50; pov_turn := WHITE |}
     = Centipawns 50
  /\ worse MinusInfinity (Centipawns 50) = true.
Proof. repeat apply conj; vm_compute; reflexivity. Qed.

End Fallback.

(** ** _make_move *)

Section MakeMove.

Import Game GameScenario.

Variable c : Collaborators.

(** The calls that dispatch a move. *)
Local Abbreviation dispatch m :=
  (if resign m then [api_resign_game]
   else [api_send_move (uci_move m) (offer_draw m); chatter_print_eval]).

(** What the dispatch of a move changes. *)
Lemma _make_move_dispatch_effect m s :
  let s' := _make_move_dispatch m s in
  calls s' = (calls s ++ dispatch m)%list
  /\ move_task s' = None
  /\ bot_offered_draw s' = (if resign m then bot_offered_draw s else offer_draw m)
  /\ lichess_game s' = lichess_game s /\ tasks s' = tasks s
  /\ last_fen s' = last_fen s /\ last_move s' = last_move s
  /\ config s' = config s /\ takeback_count s' = takeback_count s
  /\ main s' = main s.
Proof.
  unfold _make_move_dispatch. destruct (resign m); simpl; repeat split.
  by rewrite <- app_assoc.
Qed.

(** A request that returns a move leaves it stored, with the position of
    the board it leaves. *)
Lemma _make_move_remembers s s1 m :
  _make_move c s = (s1, Some m) ->
  last_fen s1 = Some (fen c (board (lichess_game s1)))
  /\ last_move s1 = Some m.
Proof.
  unfold _make_move, _make_move_reuse.
  destruct (bool_decide (Some (fen c (board (lichess_game s))) = last_fen s))
    eqn:Efen.
  - apply bool_decide_eq_true in Efen.
    destruct (last_move s) as [m' |] eqn:Elast.
    + intros [= <- <-].
      destruct (_make_move_dispatch_effect m' s)
        as (_ & _ & _ & -> & _ & -> & -> & _). by rewrite <- Efen.
    + simpl. destruct (make_move c (lichess_game s)) as [[m' lg] |];
        [| discriminate].
      intros [= <- <-].
      match goal with |- context [_make_move_dispatch m' ?t] =>
        destruct (_make_move_dispatch_effect m' t)
          as (_ & _ & _ & -> & _ & -> & -> & _) end.
      done.
  - simpl. destruct (make_move c (lichess_game s)) as [[m' lg] |];
      [| discriminate].
    intros [= <- <-].
    match goal with |- context [_make_move_dispatch m' ?t] =>
      destruct (_make_move_dispatch_effect m' t)
        as (_ & _ & _ & -> & _ & -> & -> & _) end.
    done.
Qed.

(** A request on a board whose position is the stored one dispatches the
    stored move and does nothing else, whatever [lichess_game.make_move]
    would answer. *)
Lemma _make_move_reuses (c' : Collaborators) s m :
  last_fen s = Some (fen c' (board (lichess_game s))) ->
  last_move s = Some m ->
  _make_move c' s = (_make_move_dispatch m s, Some m).
Proof.
  intros Hfen Hmove. unfold _make_move, _make_move_reuse.
  rewrite bool_decide_eq_true_2 by done. by rewrite Hmove.
Qed.

(** A request on a board whose position is not the stored one asks
    [lichess_game] for a move. *)
Lemma _make_move_asks s :
  last_fen s <> Some (fen c (board (lichess_game s))) ->
  exists rest,
    calls (fst (_make_move c s))
    = (calls s ++ lichess_game_make_move :: rest)%list.
Proof.
  intros Hfen. unfold _make_move, _make_move_reuse.
  rewrite bool_decide_eq_false_2 by done.
  cbn [lichess_game call].
  destruct (make_move c (lichess_game s)) as [[m lg] |];
    cbn [_make_move_resume fst].
  - match goal with |- context [_make_move_dispatch m ?t] =>
      destruct (_make_move_dispatch_effect m t) as (-> & _) end.
    simpl. rewrite <- app_assoc. by eexists.
  - by exists [].
Qed.

(** C8: two consecutive move requests on a board whose position has not
    changed since the first one return the identical move, and the second
    one does not invoke [lichess_game.make_move] (hence not the engine).
    The first request stores the position it leaves and its move; the
    second one, whatever [lichess_game.make_move] would answer, is the
    dispatch of the stored move and nothing else: it leaves [lichess_game]
    and the stored position as they are and its only calls are those of
    the dispatch; a move task that is created in that state ends in its
    first run, without being suspended.  The reuse hangs on the stored
    position: a request on a board whose position is another one asks
    [lichess_game] again. *)
Theorem consecutive_requests_reuse s s1 m :
  _make_move c s = (s1, Some m) ->
  (last_fen s1 = Some (fen c (board (lichess_game s1)))
   /\ last_move s1 = Some m)
  /\ (forall c' : Collaborators,
        fen c' = fen c ->
        _make_move c' s1 = (_make_move_dispatch m s1, Some m))
  /\ lichess_game (_make_move_dispatch m s1) = lichess_game s1
  /\ last_fen (_make_move_dispatch m s1) = last_fen s1
  /\ calls (_make_move_dispatch m s1) = (calls s1 ++ dispatch m)%list
  /\ (lichess_game_make_move ∉ dispatch m)
  /\ (forall i answer,
        tasks s1 !! i = Some Created ->
        run_task c i answer s1
        = set_task i Finished (_make_move_dispatch m s1))
  /\ (forall s',
        last_fen s' <> Some (fen c (board (lichess_game s'))) ->
        exists rest,
          calls (fst (_make_move c s'))
          = (calls s' ++ lichess_game_make_move :: rest)%list).
Proof.
  intros H1. destruct (_make_move_remembers s s1 m H1) as [Hfen Hmove].
  destruct (_make_move_dispatch_effect m s1)
    as (Hcalls & _ & _ & Hlg & _ & Hlast & _).
  split; [done |]. split.
  { intros c' Hc'. apply _make_move_reuses; [by rewrite Hc' | done]. }
  do 3 (split; [done |]). split.
  { destruct (resign m); rewrite ?not_elem_of_cons;
      repeat split; try done; apply not_elem_of_nil. }
  split; [| apply _make_move_asks].
  intros i answer Hi. unfold run_task, _make_move_reuse. rewrite Hi.
  rewrite bool_decide_eq_true_2 by done. by rewrite Hmove.
Qed.

End MakeMove.

Lemma consecutive_requests_reuse_witness :
  Game.last_move (fst (Game._make_move GameScenario.collaborators
                         (GameScenario.started true)))
  = Some GameScenario.a_move
  /\ Game._make_move GameScenario.fifty_collaborators
       (fst (Game._make_move GameScenario.collaborators
               (GameScenario.started true)))
     = (Game._make_move_dispatch GameScenario.a_move
          (fst (Game._make_move GameScenario.collaborators
                  (GameScenario.started true))),
        Some GameScenario.a_move)
  /\ Game.calls
       (Game._make_move_dispatch GameScenario.a_move
          (fst (Game._make_move GameScenario.collaborators
                  (GameScenario.started true))))
     = (Game.calls (fst (Game._make_move GameScenario.collaborators
                           (GameScenario.started true)))
        ++ [Game.api_send_move "e7e5"%string false; Game.chatter_print_eval])%list.
Proof.
  assert (Game._make_move GameScenario.collaborators
            (GameScenario.started true)
          = (fst (Game._make_move GameScenario.collaborators
                    (GameScenario.started true)),
             Some GameScenario.a_move)) as H1
    by (vm_compute; reflexivity).
  destruct (consecutive_requests_reuse GameScenario.collaborators
              (GameScenario.started true) _ GameScenario.a_move H1)
    as ([_ Hmove] & Hreuse & _ & _ & Hcalls & _).
  split; [exact Hmove |].
  split; [apply Hreuse; reflexivity | exact Hcalls].
Defined.

(** ** _handle_takeback *)

Section Takeback.

Import Game GameScenario.

(** After [cancel], the task cannot run the body of [_make_move] any more. *)
Lemma cancel_not_live i s t :
  tasks (cancel i s) !! i = Some t -> Task_live t = false.
Proof.
  unfold cancel.
  destruct (tasks s !! i) as [[] |] eqn:E; simpl; rewrite ?E;
    try (by intros [= <-]);
    (rewrite list_lookup_insert_eq by (by eapply lookup_lt_Some));
    by intros [= <-].
Qed.

(** C7, as amended: a takeback request that finds the counter at the
    maximum or above is declined, and nothing but the record of that call
    changes: counter, board and task stay.  Below the maximum the
    acceptance is sent; when the API confirms it, the task that was in
    flight is asked to cancel (so that it cannot go on with its request)
    and forgotten, the board is rolled back one ply and the counter grows
    by exactly one; when the API does not confirm it, counter, board and
    task stay. *)
Theorem takeback_cases accepted max_takebacks s :
  let s' := _handle_takeback accepted max_takebacks s in
  ((max_takebacks <= takeback_count s)%Z ->
     s' = call (api_handle_takeback false) s)
  /\ ((takeback_count s < max_takebacks)%Z -> accepted = true ->
      takeback_count s' = (takeback_count s + 1)%Z
      /\ board (lichess_game s') = removelast (board (lichess_game s))
      /\ move_task s' = None
      /\ (forall i, move_task s = Some i ->
            tasks s' = tasks (cancel i s)
            /\ forall t, tasks s' !! i = Some t -> Task_live t = false)
      /\ (move_task s = None -> tasks s' = tasks s)
      /\ calls s' = (calls s ++ [api_handle_takeback true;
                                 lichess_game_takeback])%list)
  /\ ((takeback_count s < max_takebacks)%Z -> accepted = false ->
      s' = call (api_handle_takeback true) s).
Proof.
  intros s'. unfold s', _handle_takeback, _handle_takeback_start,
    _handle_takeback_answer, _handle_takeback_end. split; [| split].
  - intros H. apply Z.leb_le in H. by rewrite H.
  - intros H ->. apply Z.leb_gt in H. rewrite H. simpl.
    destruct (move_task s) as [i |] eqn:Ei; simpl.
    + assert (tasks (cancel i (call (api_handle_takeback true) s))
              = tasks (cancel i s)) as Et.
      { unfold cancel. simpl. by destruct (tasks s !! i) as [[] |]. }
      assert (calls (cancel i (call (api_handle_takeback true) s))
              = (calls s ++ [api_handle_takeback true])%list
              /\ takeback_count (cancel i (call (api_handle_takeback true) s))
                 = takeback_count s
              /\ lichess_game (cancel i (call (api_handle_takeback true) s))
                 = lichess_game s) as (Ec & Ek & El).
      { unfold cancel. simpl. by destruct (tasks s !! i) as [[] |]. }
      rewrite Ec, Ek, El, Et. do 3 (split; [done |]).
      split; [| split; [congruence | by rewrite <- app_assoc]].
      intros j [= <-]. split; [done |]. intros t. apply cancel_not_live.
    + do 3 (split; [done |]). split; [done |].
      split; [done | by rewrite <- app_assoc].
  - intros H ->. apply Z.leb_gt in H. by rewrite H.
Qed.

Lemma takeback_cases_witness :
  takeback_count (_handle_takeback true 1 (started true)) = 1%Z
  /\ board (lichess_game (_handle_takeback true 1 (started true))) = []
  /\ tasks (_handle_takeback true 1 (started true))
     = tasks (cancel 0 (started true))
  /\ _handle_takeback true 0 (started true)
     = call (api_handle_takeback false) (started true).
Proof.
  destruct (takeback_cases true 1 (started true)) as (_ & Hacc & _).
  destruct (takeback_cases true 0 (started true)) as (Hdecl & _ & _).
  destruct (Hacc eq_refl eq_refl) as (Hcount & Hboard & _ & Hdone & _).
  split; [exact Hcount |].
  split; [exact Hboard |].
  split; [apply Hdone; reflexivity |].
  apply Hdecl. vm_compute. discriminate.
Defined.

(** C7 as worded fails: with the counter at 0 below a maximum of 1, a
    takeback whose acceptance the API does not confirm leaves the counter
    at 0, the board with its ply and the move task pending. *)
Lemma takeback_unconfirmed_changes_nothing :
  takeback_count (started true) = 0%Z
  /\ takeback_count (started true) <> 1%Z
  /\ takeback_count (_handle_takeback false 1 (started true)) = 0%Z
  /\ board (lichess_game (_handle_takeback false 1 (started true)))
     = board (lichess_game (started true))
  /\ done (_handle_takeback false 1 (started true)) 0 = false.
Proof. repeat apply conj; vm_compute; congruence. Qed.

End Takeback.

(** ** _print_result_message *)

Section ResultMessage.

Import Game GameScenario.

Variable c : Collaborators.

(** The statuses for which an event without a winner is a draw. *)
Local Abbreviation draw_statuses :=
  ["draw"; "stalemate"; "outoftime"; "insufficientMaterialClaim"]%string.

Lemma append_assoc (a b d : string) :
  ((a ++ b) ++ d = a ++ (b ++ d))%string.
Proof.
  induction a as [| x a IH]; [reflexivity |].
  change (String x ((a ++ b) ++ d) = String x (a ++ (b ++ d)))%string.
  by f_equal.
Qed.

(** The classification makes no call. *)
Lemma result_calls game_state info s :
  calls (fst (result c game_state info s)) = calls s.
Proof.
  unfold result. destruct (truthy_winner game_state) as [w |].
  - destruct (bool_decide (w = "white"%string));
      repeat (case_bool_decide; try done).
  - repeat (case_bool_decide; try done).
Qed.

(** C9, as amended: the classification depends on the event, the board,
    the game information and the user name only, and it is what
    [_print_result_message] prints.  An event without a winner, with
    status "draw", on a board under the fifty-move rule gives the 50-move
    message; status "mate" with winner "white" gives "<white> won by
    checkmate!" with the result 1 - 0; an event without a winner whose
    status is none of the draw statuses is an abort (X - X, [was_aborted]
    set); an event with a winner is a win of that side, 1 - 0 or 0 - 1,
    whatever its status, and never an abort. *)
Theorem result_classification game_state info s :
  let r := snd (result c game_state info s) in
  let s' := fst (result c game_state info s) in
  (forall s2, board (lichess_game s2) = board (lichess_game s) ->
              username s2 = username s ->
              snd (result c game_state info s2) = r)
  /\ calls (_print_result_message c game_state info s)
     = (calls s ++ [print (result_line info r)])%list
  /\ (truthy_winner game_state = None -> status game_state = "draw"%string ->
      is_fifty_moves c (board (lichess_game s)) = true ->
      message r = "Game drawn by 50-move rule."%string
      /\ white_result r = "1/2"%string /\ black_result r = "1/2"%string)
  /\ (winner game_state = Some "white"%string ->
      status game_state = "mate"%string ->
      message r = (white_name info ++ " won by checkmate!")%string
      /\ white_result r = "1"%string /\ black_result r = "0"%string)
  /\ (truthy_winner game_state = None ->
      status game_state ∉ draw_statuses ->
      message r = "Game aborted."%string
      /\ white_result r = "X"%string /\ black_result r = "X"%string
      /\ was_aborted s' = true)
  /\ (forall w, truthy_winner game_state = Some w ->
      was_aborted s' = was_aborted s
      /\ ((w = "white"%string /\ white_result r = "1"%string
           /\ black_result r = "0"%string)
          \/ (w <> "white"%string /\ white_result r = "0"%string
              /\ black_result r = "1"%string))).
Proof.
  intros r s'. unfold r, s'. split; [| split; [| split; [| split; [| split]]]].
  - intros s2 Hb Hu. unfold result. rewrite Hb, Hu.
    destruct (truthy_winner game_state) as [w |].
    + destruct (bool_decide (w = "white"%string));
        repeat (case_bool_decide; try done).
    + repeat (case_bool_decide; try done).
  - unfold _print_result_message.
    pose proof (result_calls game_state info s) as Hc.
    destruct (result c game_state info s) as [s1 r1]. simpl in *.
    by rewrite Hc.
  - intros Hw Hs Hf. unfold result. rewrite Hw, Hs, Hf.
    by case_bool_decide.
  - intros Hw Hs. unfold result, truthy_winner. rewrite Hw, Hs.
    repeat (case_bool_decide; try done). simpl.
    by rewrite append_assoc.
  - intros Hw Hs. unfold result. rewrite Hw.
    assert (status game_state <> "draw"%string
            /\ status game_state <> "stalemate"%string
            /\ status game_state <> "outoftime"%string
            /\ status game_state <> "insufficientMaterialClaim"%string)
      as (N1 & N2 & N3 & N4)
      by (repeat split; intros E; apply Hs; rewrite E, !elem_of_cons; tauto).
    by rewrite !bool_decide_eq_false_2 by done.
  - intros w Hw. unfold result. rewrite Hw.
    case_bool_decide.
    + split; [repeat (case_bool_decide; try done) |].
      left. split; [done |]. repeat (case_bool_decide; try done).
    + split; [repeat (case_bool_decide; try done) |].
      right. split; [done |]. repeat (case_bool_decide; try done).
Qed.

End ResultMessage.

Section ResultExamples.

Import Game GameScenario.

Lemma result_classification_witness :
  message (snd (result fifty_collaborators (state_event "draw" None [] false)
                  an_info (started false)))
  = "Game drawn by 50-move rule."%string
  /\ message (snd (result fifty_collaborators mate_event an_info
                     (started false)))
     = "alice won by checkmate!"%string
  /\ white_result (snd (result fifty_collaborators
                          (state_event "aborted" None [] false)
                          an_info (started false)))
     = "X"%string
  /\ white_result (snd (result fifty_collaborators
                          (state_event "resign" (Some "black") [] false)
                          an_info (started false)))
     = "0"%string.
Proof.
  destruct (result_classification fifty_collaborators
              (state_event "draw" None [] false) an_info (started false))
    as (_ & _ & Hfifty & _).
  destruct (result_classification fifty_collaborators mate_event an_info
              (started false))
    as (_ & _ & _ & Hmate & _).
  destruct (result_classification fifty_collaborators
              (state_event "aborted" None [] false) an_info (started false))
    as (_ & _ & _ & _ & Habort & _).
  destruct (result_classification fifty_collaborators
              (state_event "resign" (Some "black") [] false) an_info
              (started false))
    as (_ & _ & _ & _ & _ & Hwin).
  split; [apply Hfifty; reflexivity |].
  split; [apply Hmate; reflexivity |].
  split.
  - apply Habort; [reflexivity |].
    rewrite !not_elem_of_cons. repeat split; try discriminate.
    apply not_elem_of_nil.
  - destruct (Hwin "black"%string eq_refl) as [_ [[E _] | (_ & H & _)]];
      [discriminate E | exact H].
Defined.

(** C9 as worded fails: the status "cheat" is none of the listed win or
    draw statuses, yet with the winner "white" the game is classified as
    White's win, 1 - 0, and not as an abort. *)
Lemma unlisted_status_with_winner_is_a_win :
  ("cheat"%string ∉ ["mate"; "outoftime"; "resign"; "variantEnd"; "timeout";
                     "noStart"; "draw"; "stalemate";
                     "insufficientMaterialClaim"]%string)
  /\ snd (result collaborators (state_event "cheat" (Some "white") [] false)
            an_info (started false))
     = {| message := "alice won"; white_result := "1"; black_result := "0" |}
  /\ was_aborted (fst (result collaborators
                         (state_event "cheat" (Some "white") [] false)
                         an_info (started false)))
     = false.
Proof.
  split; [| split; reflexivity].
  rewrite !not_elem_of_cons. repeat split; try discriminate.
  apply not_elem_of_nil.
Qed.

End ResultExamples.

(** ** run: the move tasks *)

Section OneTask.

Import Game GameScenario.

Variable c : Collaborators.
Variable info : Game_Information.

(** No move task can still run the body of [_make_move]. *)
Local Abbreviation idle s :=
  (forall i t, tasks s !! i = Some t -> Task_live t = false).

(** [s'] has the tasks and the task handle of [s]. *)
Local Abbreviation same_tasks s s' :=
  (tasks s' = tasks s /\ move_task s' = move_task s).

Lemma idle_filter (l : list Task) :
  (forall i t, l !! i = Some t -> Task_live t = false) ->
  List.filter Task_live l = [].
Proof.
  induction l as [| t l IH]; [done |]. intros H. simpl.
  rewrite (H 0%nat t eq_refl). apply IH. intros i u. apply (H (S i)).
Qed.

Lemma one_live_filter (l : list Task) :
  (forall i j t u, l !! i = Some t -> l !! j = Some u ->
                   Task_live t = true -> Task_live u = true -> i = j) ->
  (length (List.filter Task_live l) <= 1)%nat.
Proof.
  induction l as [| t l IH]; [simpl; lia |]. intros H. simpl.
  destruct (Task_live t) eqn:E.
  - rewrite idle_filter; [simpl; lia |].
    intros i u Hi. destruct (Task_live u) eqn:Eu; [| done].
    by specialize (H 0%nat (S i) t u eq_refl Hi E Eu).
  - apply IH. intros i j u v Hi Hj Hu Hv.
    specialize (H (S i) (S j) u v Hi Hj Hu Hv). lia.
Qed.

Lemma tracked_live s : tracked s -> (live s <= 1)%nat.
Proof.
  intros H. apply one_live_filter. intros i j t u Hi Hj Ht Hu.
  pose proof (H i t Hi Ht). pose proof (H j u Hj Hu). congruence.
Qed.

Lemma idle_tracked s : idle s -> tracked s.
Proof. intros H i t Hi Ht. rewrite (H i t Hi) in Ht. done. Qed.

Lemma idle_live s : idle s -> live s = 0%nat.
Proof. intros H. unfold live. by rewrite idle_filter. Qed.

(** With the invariant, the test of line 102 is true on idle sessions
    only. *)
Lemma no_active_task_idle s :
  tracked s -> no_active_task s = true -> idle s.
Proof.
  intros Ht Hn i t Hi. destruct (Task_live t) eqn:El; [| done].
  pose proof (Ht i t Hi El) as Hm.
  unfold no_active_task, done in Hn. rewrite Hm, Hi in Hn.
  by destruct t.
Qed.

Lemma same_tasks_tracked s s' : same_tasks s s' -> tracked s -> tracked s'.
Proof. intros [Et Em] H i. rewrite Et, Em. apply H. Qed.

Lemma same_tasks_idle s s' : same_tasks s s' -> idle s -> idle s'.
Proof. intros [Et _] H i. rewrite Et. apply H. Qed.

Lemma create_move_task_tracked s : idle s -> tracked (create_move_task s).
Proof.
  intros H i t. unfold create_move_task. simpl. intros Hi Ht.
  destruct (decide (i < length (tasks s))%nat) as [Hlt | Hge].
  - rewrite lookup_app_l in Hi by done. by rewrite (H i t Hi) in Ht.
  - apply lookup_lt_Some in Hi. rewrite length_app in Hi. simpl in Hi.
    f_equal. lia.
Qed.

Lemma tracked_none_idle s : tracked s -> move_task s = None -> idle s.
Proof.
  intros Ht Hm i t Hi. destruct (Task_live t) eqn:El; [| done].
  pose proof (Ht i t Hi El). congruence.
Qed.

Lemma tasks_set_task i t s : tasks (set_task i t s) = <[i := t]> (tasks s).
Proof. done. Qed.

(** When the task that is held stops being live, no task is live. *)
Lemma set_task_idle i t s :
  Task_live t = false -> tracked s -> move_task s = Some i ->
  idle (set_task i t s).
Proof.
  intros Hl Ht Hm j u. simpl. intros Hj.
  apply list_lookup_insert_Some in Hj as [(_ & <- & _) | [Hne Hj]]; [done |].
  destruct (Task_live u) eqn:El; [| done].
  pose proof (Ht j u Hj El). congruence.
Qed.

(** A task that is not live stays out of the way. *)
Lemma set_task_tracked i t s :
  Task_live t = false -> tracked s -> tracked (set_task i t s).
Proof.
  intros Hl Ht j u. simpl. intros Hj Hu.
  apply list_lookup_insert_Some in Hj as [(_ & <- & _) | [Hne Hj]];
    [congruence |].
  by apply (Ht j u).
Qed.

Lemma cancel_same i s :
  length (tasks (cancel i s)) = length (tasks s)
  /\ move_task (cancel i s) = move_task s
  /\ calls (cancel i s) = calls s
  /\ main (cancel i s) = main s
  /\ config (cancel i s) = config s
  /\ takeback_count (cancel i s) = takeback_count s
  /\ bot_offered_draw (cancel i s) = bot_offered_draw s
  /\ rematch_manager (cancel i s) = rematch_manager s
  /\ was_aborted (cancel i s) = was_aborted s
  /\ lichess_game (cancel i s) = lichess_game s.
Proof.
  unfold cancel. destruct (tasks s !! i) as [[] |]; simpl;
    by rewrite ?length_insert.
Qed.

(** Cancelling the task that is held leaves no task live. *)
Lemma cancel_idle i s :
  tracked s -> move_task s = Some i -> idle (cancel i s).
Proof.
  intros Ht Hm. unfold cancel.
  destruct (tasks s !! i) as [t |] eqn:Ei.
  - destruct t; try (by apply set_task_idle);
      intros j u Hj; (destruct (Task_live u) eqn:El; [| done]);
      pose proof (Ht j u Hj El); assert (j = i) as -> by congruence;
      rewrite Ei in Hj; by injection Hj as <-.
  - intros j u Hj. destruct (Task_live u) eqn:El; [| done].
    pose proof (Ht j u Hj El). congruence.
Qed.

Lemma _make_move_dispatch_same m s :
  tasks (_make_move_dispatch m s) = tasks s
  /\ move_task (_make_move_dispatch m s) = None.
Proof. unfold _make_move_dispatch. by destruct (resign m). Qed.

(** A task that has run once more is the one that is held, or no task is
    live. *)
Lemma run_task_tracked i answer s : tracked s -> tracked (run_task c i answer s).
Proof.
  intros Ht. unfold run_task.
  destruct (tasks s !! i) as [t |] eqn:Ei; [| done].
  destruct t; try done.
  - pose proof (Ht i Created Ei eq_refl) as Hm.
    destruct (_make_move_reuse c s) as [m |].
    + destruct (_make_move_dispatch_same m s) as [Et Em].
      apply idle_tracked. intros j u. rewrite tasks_set_task, Et. intros Hj.
      apply list_lookup_insert_Some in Hj as [(_ & <- & _) | [Hne Hj]];
        [done |].
      destruct (Task_live u) eqn:El; [| done].
      pose proof (Ht j u Hj El). congruence.
    + intros j u. simpl. intros Hj Hu.
      apply list_lookup_insert_Some in Hj as [(<- & _ & _) | [Hne Hj]];
        [done | by apply (Ht j u)].
  - pose proof (Ht i Awaiting Ei eq_refl) as Hm.
    destruct answer as [[m lg] |].
    + cbn [_make_move_resume fst].
      match goal with |- context [_make_move_dispatch m ?x] =>
        destruct (_make_move_dispatch_same m x) as [Et Em] end.
      apply idle_tracked. intros j u. rewrite tasks_set_task, Et.
      cbn [tasks set_last set_lichess_game]. intros Hj.
      apply list_lookup_insert_Some in Hj as [(_ & <- & _) | [Hne Hj]];
        [done |].
      destruct (Task_live u) eqn:El; [| done].
      pose proof (Ht j u Hj El). congruence.
    + apply idle_tracked. by apply set_task_idle.
  - by apply set_task_tracked.
Qed.

Lemma result_same game_state s :
  same_tasks s (fst (result c game_state info s))
  /\ main (fst (result c game_state info s)) = main s.
Proof.
  unfold result. destruct (truthy_winner game_state) as [w |].
  - destruct (bool_decide (w = "white"%string));
      repeat (case_bool_decide; try done).
  - repeat (case_bool_decide; try done).
Qed.

Lemma _print_result_message_same game_state s :
  same_tasks s (_print_result_message c game_state info s).
Proof.
  unfold _print_result_message.
  pose proof (result_same game_state s) as [H _].
  by destruct (result c game_state info s).
Qed.

Lemma _handle_draw_offer_same event s s' :
  _handle_draw_offer event s = inr s' -> same_tasks s s'.
Proof.
  unfold _handle_draw_offer, _should_accept_draw.
  repeat case_match; try done; by intros [= <-].
Qed.

Lemma after_loop_same s : same_tasks s (after_loop s).
Proof. done. Qed.

(** The end of the game leaves no task live and creates none. *)
Lemma game_finished_idle event s :
  tracked s ->
  idle (game_finished c event info s)
  /\ length (tasks (game_finished c event info s)) = length (tasks s).
Proof.
  intros Ht.
  pose (s0 := match move_task s with Some i => cancel i s | None => s end).
  assert (idle s0 /\ length (tasks s0) = length (tasks s)) as [Hid Hlen].
  { unfold s0. destruct (move_task s) as [i |] eqn:Em.
    - split; [by apply cancel_idle | apply cancel_same].
    - split; [by apply tracked_none_idle | done]. }
  destruct (_print_result_message_same event s0) as [Et _].
  assert (tasks (game_finished c event info s) = tasks s0) as E.
  { unfold game_finished. fold s0.
    destruct (rematch_manager _ && negb (was_aborted _)); simpl; exact Et. }
  split; [intros i; rewrite E; apply Hid | by rewrite E].
Qed.

Lemma updated_same event s : same_tasks s (snd (updated c event s)).
Proof. unfold updated. by destruct (update c (lichess_game s) event). Qed.

(** Lines 89 to 103: the invariant is kept, an event that ends the game
    leaves no task live and creates none, and any other event creates a
    task exactly when the board changed and no task is active. *)
Lemma handle_update_tracked event s :
  tracked s ->
  let hu := fst (updated c event s) in
  let s1 := snd (updated c event s) in
  let s' := handle_update c info event s in
  tracked s'
  /\ (status event <> "started"%string ->
      idle s' /\ length (tasks s') = length (tasks s))
  /\ (status event = "started"%string ->
      if hu && no_active_task s1
      then s' = set_main AwaitsEvent (create_move_task s1)
      else s' = set_main AwaitsEvent s1).
Proof.
  intros Ht hu s1 s'.
  pose proof (updated_same event s) as [Et Em]. fold s1 in Et, Em.
  assert (tracked s1) as Ht1 by (by apply (same_tasks_tracked s)).
  unfold s', handle_update, hu, s1 in *.
  destruct (updated c event s) as [b s2]. simpl in *.
  case_bool_decide as Es.
  - destruct (game_finished_idle event s2 Ht1) as [Hid Hl].
    split; [by apply idle_tracked |]. split; [| done].
    intros _. split; [done | by rewrite Hl, Et].
  - split.
    + destruct (b && no_active_task s2) eqn:E; [| done].
      apply andb_true_iff in E as [_ E].
      apply (same_tasks_tracked (create_move_task s2)); [done |].
      by apply create_move_task_tracked, no_active_task_idle.
    + split; [done |]. intros _. by destruct (b && no_active_task s2).
Qed.

Lemma _handle_takeback_start_same max_takebacks s :
  same_tasks s (fst (_handle_takeback_start max_takebacks s)).
Proof. unfold _handle_takeback_start. by destruct (_ <=? _)%Z. Qed.

(** The answer of the API to an acceptance: when it confirms, no task is
    live and none is held. *)
Lemma _handle_takeback_answer_tracked accepted s :
  tracked s ->
  tracked (fst (_handle_takeback_answer accepted s))
  /\ (accepted = true ->
      idle (fst (_handle_takeback_answer accepted s))
      /\ move_task (fst (_handle_takeback_answer accepted s)) = None
      /\ snd (_handle_takeback_answer accepted s) = true).
Proof.
  intros Ht. unfold _handle_takeback_answer.
  destruct accepted; [| done]. simpl.
  assert (idle (match move_task s with
                | Some i => set_move_task None (cancel i s)
                | None => s
                end)
          /\ move_task (match move_task s with
                        | Some i => set_move_task None (cancel i s)
                        | None => s
                        end) = None) as [Hid Hm].
  { destruct (move_task s) as [i |] eqn:Em.
    - split; [| done]. by apply (cancel_idle i s).
    - split; [by apply tracked_none_idle | done]. }
  split; [by apply idle_tracked | done].
Qed.

Lemma handle_state_tracked event s :
  tracked s -> tracked (handle_state c info event s).
Proof.
  intros Ht. unfold handle_state.
  set (drawn := if wdraw event || bdraw event then _handle_draw_offer event s
                else inr (set_bot_offered_draw false s)).
  assert (forall s0, drawn = inr s0 -> tracked s0) as Hd.
  { intros s0. unfold drawn. destruct (wdraw event || bdraw event).
    - intros H. apply _handle_draw_offer_same in H.
      by apply (same_tasks_tracked s).
    - by intros [= <-]. }
  destruct drawn as [e | s0]; [done |]. specialize (Hd s0 eq_refl).
  destruct (wtakeback event || btakeback event);
    [| by apply handle_update_tracked].
  pose proof (_handle_takeback_start_same (run_max_takebacks info s0) s0) as Hs.
  destruct (_handle_takeback_start (run_max_takebacks info s0) s0)
    as [s1 suspended]. simpl in Hs.
  assert (tracked s1) as Ht1 by (by apply (same_tasks_tracked s0)).
  destruct suspended; [done | by apply handle_update_tracked].
Qed.

Lemma handle_event_tracked event s :
  tracked s -> tracked (handle_event c info event s).
Proof.
  intros Ht. destruct event as [text | secs | gs | gs]; simpl.
  - done.
  - by case_bool_decide.
  - by apply handle_state_tracked.
  - by apply handle_state_tracked.
Qed.

Lemma step_tracked l s : tracked s -> tracked (step c info l s).
Proof.
  intros Ht. destruct l as [event | answer | e | i answer]; simpl.
  - destruct (main s); try done. by apply handle_event_tracked.
  - destruct (main s) as [| gs | gs | | | | |]; try done.
    + destruct (_handle_takeback_answer_tracked answer s Ht) as [Ht1 _].
      destruct (_handle_takeback_answer answer s) as [s1 suspended].
      simpl in Ht1. destruct suspended; [done |].
      by apply handle_update_tracked.
    + by apply handle_update_tracked.
  - destruct (main s); destruct e; done.
  - by apply run_task_tracked.
Qed.

Lemma start_tracked cfg user rm lg : tracked (start c cfg user rm info lg).
Proof.
  unfold start. case_bool_decide.
  - apply idle_tracked. intros i t. simpl.
    destruct (_print_result_message_same (state info)
                (_print_game_information info (init cfg user rm lg)))
      as [-> _].
    done.
  - destruct (negb (is_our_turn lg)).
    + apply idle_tracked. by intros i t.
    + apply (same_tasks_tracked
               (create_move_task
                  (call chatter_send_greetings
                     (_print_game_information info (init cfg user rm lg)))));
        [done |].
      apply create_move_task_tracked. by intros i t.
Qed.

(** The invariant holds all along a session. *)
Lemma run_tracked cfg user rm lg steps :
  tracked (run c cfg user rm info lg steps).
Proof.
  unfold run. generalize (start_tracked cfg user rm lg).
  generalize (start c cfg user rm info lg).
  induction steps as [| l steps IH]; intros s Hs; simpl; [done |].
  apply IH. by apply step_tracked.
Qed.

(** C1, as amended: along every sequence of events, answers, exceptions
    and runs of tasks, at every suspension of [run], at most one move task
    can still run the body of [_make_move], and it is the one
    [self.move_task] holds; tasks that were asked to cancel may be waiting
    beside it to unwind, and they do nothing more.  Where line 102 is
    reached, a new move computation is started iff the status is
    "started", the board changed in the update and no move task is active
    (none is held, or the one held is done); it is created when no task is
    live.  An event that ends the game leaves no task live and starts
    none.  A takeback whose acceptance the API confirms leaves no task
    live and none held before anything else runs.  Chat and opponent-gone
    events start no task. *)
Theorem one_move_task cfg user rm lg steps :
  let s := run c cfg user rm info lg steps in
  (live s <= 1)%nat
  /\ (forall i t, tasks s !! i = Some t -> Task_live t = true ->
                  move_task s = Some i)
  /\ (forall gs,
        let hu := fst (updated c gs s) in
        let s1 := snd (updated c gs s) in
        let s' := handle_update c info gs s in
        (length (tasks s') = S (length (tasks s)) <->
           status gs = "started"%string /\ hu = true
           /\ no_active_task s1 = true)
        /\ (status gs = "started"%string -> hu = true ->
            no_active_task s1 = true ->
            live s1 = 0%nat
            /\ tasks s' = (tasks s1 ++ [Created])%list
            /\ move_task s' = Some (length (tasks s1)))
        /\ (status gs <> "started"%string ->
            live s' = 0%nat /\ length (tasks s') = length (tasks s))
        /\ (live s' <= 1)%nat)
  /\ (forall gs,
        main s = AwaitsTakebackAnswer gs ->
        let s' := step c info (Returns true) s in
        main s' = AwaitsTakeback gs /\ live s' = 0%nat /\ move_task s' = None)
  /\ (forall i answer,
        tasks s !! i = Some Cancelling ->
        run_task c i answer s = set_task i Cancelled s)
  /\ (forall text,
        tasks (handle_event c info (chatLine text) s) = tasks s)
  /\ (forall secs,
        tasks (handle_event c info (opponentGone secs) s) = tasks s).
Proof.
  intros s. pose proof (run_tracked cfg user rm lg steps) as Ht. fold s in Ht.
  split; [by apply tracked_live |]. split; [exact Ht |].
  split; [| split; [| split; [| split; [done |]]]].
  - intros gs hu s1 s'.
    destruct (handle_update_tracked gs s Ht) as (Ht' & Hend & Hgo).
    pose proof (updated_same gs s) as [Et Em].
    fold s1 in Et, Em, Hgo. fold hu in Hgo. fold s' in Ht', Hend, Hgo.
    assert (tracked s1) as Ht1 by (by apply (same_tasks_tracked s)).
    assert (status gs = "started"%string -> hu = true ->
            no_active_task s1 = true ->
            live s1 = 0%nat /\ tasks s' = (tasks s1 ++ [Created])%list
            /\ move_task s' = Some (length (tasks s1))) as Hstart.
    { intros Es Eh En. specialize (Hgo Es). rewrite Eh, En in Hgo.
      simpl in Hgo.
      split; [by apply idle_live, no_active_task_idle |].
      by rewrite Hgo. }
    split; [| split; [done | split]].
    + split.
      * intros Hl. destruct (decide (status gs = "started"%string)) as [Es | Es].
        -- split; [done |]. specialize (Hgo Es).
           destruct hu; [destruct (no_active_task s1); [done |] |];
             simpl in Hgo; rewrite Hgo in Hl; simpl in Hl; rewrite Et in Hl;
             lia.
        -- destruct (Hend Es) as [_ Hl']. lia.
      * intros (Es & Eh & En). destruct (Hstart Es Eh En) as (_ & E & _).
        rewrite E, length_app, Et. simpl. lia.
    + intros Es. destruct (Hend Es) as [Hid Hl].
      split; [by apply idle_live | done].
    + by apply tracked_live.
  - intros gs Hm s'. unfold s', step. rewrite Hm.
    destruct (_handle_takeback_answer_tracked true s Ht)
      as (_ & Hacc). destruct (Hacc eq_refl) as (Hid & Hnone & Hsusp).
    destruct (_handle_takeback_answer true s) as [s1 suspended].
    simpl in *. subst suspended.
    split; [done |]. split; [| done]. by apply idle_live.
  - intros i answer Hi. unfold run_task. by rewrite Hi.
  - intros secs. simpl. by case_bool_decide.
Qed.

End OneTask.

Section OneTaskExamples.

Import Game GameScenario.

Lemma one_move_task_witness :
  (live after_takeback <= 1)%nat
  /\ length (tasks (handle_update collaborators an_info
                      (state_event "started" None ["e2e4"; "e7e5"; "g1f3"]
                                   false)
                      after_first_move)) = 2%nat
  /\ live (handle_update collaborators an_info mate_event (started true))
     = 0%nat
  /\ live (step collaborators an_info (Returns true)
             (run collaborators a_config "bot" false an_info (a_game true)
                [Incoming (gameState takeback_event)])) = 0%nat.
Proof.
  destruct (one_move_task collaborators an_info a_config "bot"%string false
              (a_game true)
              [TaskRuns 0 None; Incoming (gameState takeback_event);
               Returns true; Returns true]) as (Hone & _).
  destruct (one_move_task collaborators an_info a_config "bot"%string false
              (a_game true) [TaskRuns 0 None; TaskRuns 0 first_answer])
    as (_ & _ & Hstate & _).
  destruct (one_move_task collaborators an_info a_config "bot"%string false
              (a_game true) []) as (_ & _ & Hstate0 & _).
  destruct (one_move_task collaborators an_info a_config "bot"%string false
              (a_game true) [Incoming (gameState takeback_event)])
    as (_ & _ & _ & Htb & _).
  split; [exact Hone |].
  split.
  - destruct (Hstate (state_event "started" None ["e2e4"; "e7e5"; "g1f3"]
                                  false)) as ([_ H] & _).
    apply H. repeat apply conj; vm_compute; reflexivity.
  - split.
    + destruct (Hstate0 mate_event) as (_ & _ & H & _).
      apply H. discriminate.
    + destruct (Htb takeback_event) as (_ & H & _); [| exact H].
      vm_compute. reflexivity.
Defined.

(** C1 as worded fails.  The first move task is waiting for the answer of
    [lichess_game.make_move()] when a takeback is accepted and confirmed:
    the task is asked to cancel and forgotten, the board is rolled back and
    updated, and line 103 creates a second task while the first one has
    not unwound.  Two move tasks are not done; one of them can still
    act. *)
Lemma takeback_leaves_two_tasks :
  main after_takeback = AwaitsEvent
  /\ tasks after_takeback = [Cancelling; Created]
  /\ done after_takeback 0 = false
  /\ done after_takeback 1 = false
  /\ pending after_takeback = 2%nat
  /\ ~ (pending after_takeback <= 1)%nat
  /\ live after_takeback = 1%nat.
Proof.
  assert (pending after_takeback = 2%nat) as E by (vm_compute; reflexivity).
  repeat apply conj; try (vm_compute; reflexivity).
  rewrite E. lia.
Qed.

(** The rule of line 102 is no equivalence on the events that end the
    game: such an event arrives with a changed board while no move task is
    active, and no move computation is started. *)
Lemma terminal_event_starts_no_task :
  main after_first_move = AwaitsEvent
  /\ fst (updated collaborators mate_event after_first_move) = true
  /\ no_active_task (snd (updated collaborators mate_event after_first_move))
     = true
  /\ tasks (step collaborators an_info (Incoming (gameState mate_event))
                 after_first_move)
     = tasks after_first_move
  /\ live (step collaborators an_info (Incoming (gameState mate_event))
                after_first_move)
     = 0%nat.
Proof. repeat apply conj; vm_compute; reflexivity. Qed.

End OneTaskExamples.

(** ** make_move: the calls and the results *)

Section MakeMoveResults.

Import Engine Scenario.
Open Scope Q_scope.

Variable self : Engine.
Variable engine : Uci.
Variable board : Board.
Variables white_time black_time increment : Q.

(** The limit that [make_move] hands to [engine.play]. *)
Local Abbreviation the_limit :=
  {| white_clock := white_time; white_inc := increment;
     black_clock := black_time; black_inc := increment;
     time := think_time self board white_time black_time increment;
     limit_depth := lc_depth (limit_config self);
     limit_nodes := lc_nodes (limit_config self) |}.

Local Abbreviation the_move :=
  (make_move self engine board white_time black_time increment).

(** The extra time of the deeper analysis, for a think time that went
    through the bullet safety caps. *)
Lemma extra_time_bounds tc mine t :
  0.012 <= extra_time tc (bullet_safety_caps tc mine t) <= 12.
Proof.
  unfold extra_time, bullet_safety_caps.
  destruct (is_bullet tc); simpl.
  - destruct (Py.Qltb 30 mine); [| destruct (Py.Qltb 3 mine)];
      py_minmax; lra.
  - py_minmax; lra.
Qed.

(** The null move is the one move that is falsy. *)
Lemma Move_bool_null m : Move_bool m = false <-> m = Move_null.
Proof.
  unfold Move_bool, Move_null. destruct m as [f t p d]. simpl. split.
  - intros H. repeat (apply orb_false_iff in H as [H ?]).
    apply negb_false_iff, Nat.eqb_eq in H.
    match goal with E : negb _ = false |- _ =>
      apply negb_false_iff, Nat.eqb_eq in E end.
    destruct p, d; try done. by subst.
  - by intros [= -> -> -> ->].
Qed.

Lemma truthy_move_None result :
  truthy_move result = None <->
  move result = None \/ move result = Some Move_null.
Proof.
  unfold truthy_move. destruct (move result) as [m |]; [| by intuition].
  destruct (Move_bool m) eqn:E.
  - split; [done |]. intros [[=] | [= ->]]. done.
  - apply Move_bool_null in E as ->. by intuition.
Qed.

Lemma truthy_move_Some result m :
  truthy_move result = Some m ->
  move result = Some m /\ Move_bool m = true.
Proof.
  unfold truthy_move. destruct (move result) as [m' |]; [| done].
  destruct (Move_bool m') eqn:E; [| done]. by intros [= <-].
Qed.

(** X1: with a search process attached, [make_move] raises in two cases
    only: the search failed on a board without a legal move, or the search
    returned a result whose move is falsy, that is, no move or the null
    move.  In particular nothing that happens in the deeper analysis makes
    the request fail. *)
Theorem make_move_raises_iff :
  fst the_move = Raise <->
  (play engine board the_limit = None /\ legal_moves board = [])
  \/ (exists result, play engine board the_limit = Some result
                     /\ (move result = None
                         \/ move result = Some Move_null)).
Proof.
  unfold make_move.
  destruct (play engine board the_limit) as [result |] eqn:Hplay.
  - destruct (truthy_move result) as [m |] eqn:Hmove.
    + split.
      * destruct (wants_fallback _ _ _ _); [| done].
        destruct (analyse engine board _) as [infos |]; [| done].
        destruct (pv (best_info infos)); [done |].
        by destruct (_ && _).
      * intros [[[=] _] | (r & [= <-] & Hr)].
        apply truthy_move_None in Hr. congruence.
    + split; [| done]. intros _. right. exists result.
      split; [done | by apply truthy_move_None].
  - destruct (legal_moves board) as [| m l] eqn:Hl.
    + split; [intros _; by left | done].
    + split; [done |]. intros [[_ [=]] | (r & [=] & _)].
Qed.

(** X2: the search is asked once, first, with the clocks and the increment
    as received and the computed think time; the deeper analysis is asked
    at most once, after it, only when the search returned a move that is
    not the null move, and never for less than 0.012 s or more than
    12 s. *)
Theorem make_move_calls :
  snd the_move = [CallPlay the_limit]
  \/ exists t, snd the_move = [CallPlay the_limit; CallAnalyse t]
               /\ 0.012 <= t <= 12
               /\ exists result m, play engine board the_limit = Some result
                                   /\ move result = Some m
                                   /\ m <> Move_null.
Proof.
  unfold make_move.
  destruct (play engine board the_limit) as [result |] eqn:Hplay.
  - destruct (truthy_move result) as [m |] eqn:Hmove; [| by left].
    destruct (wants_fallback _ _ _ _); [| by left].
    apply truthy_move_Some in Hmove as [Hmove Hb].
    assert (m <> Move_null) as Hn by (by intros ->).
    right. eexists. split; [| split; [apply extra_time_bounds | by eauto 6]].
    destruct (analyse engine board _) as [infos |]; [| done].
    destruct (pv (best_info infos)); [done |].
    by destruct (_ && _).
  - left. by destruct (legal_moves board).
Qed.

(** X3: the move that [make_move] returns comes with its own info: it is
    the move of the search with the info of the search, or the first move
    of the deeper analysis, different from the move of the search, with
    the info of that analysis, or, when the search failed, the first legal
    move with an empty info. *)
Theorem make_move_provenance m i :
  fst the_move = Return m i ->
  (play engine board the_limit = None
   /\ head (legal_moves board) = Some m /\ i = empty_info)
  \/ (exists result,
        play engine board the_limit = Some result
        /\ ((move result = Some m /\ i = info result)
            \/ (exists t infos,
                  analyse engine board t = Some infos
                  /\ head (pv (best_info infos)) = Some m
                  /\ i = best_info infos
                  /\ move result <> Some m
                  /\ prefer (turn board) (score (info result))
                            (score (best_info infos)) = true))).
Proof.
  unfold make_move.
  destruct (play engine board the_limit) as [result |] eqn:Hplay.
  - intros H. right. exists result. split; [done |].
    destruct (truthy_move result) as [m0 |] eqn:Htruthy; [| done].
    apply truthy_move_Some in Htruthy as [Hmove _].
    destruct (wants_fallback _ _ _ _);
      [| injection H as <- <-; by left].
    destruct (analyse engine board _) as [infos |] eqn:Ha;
      [| injection H as <- <-; by left].
    destruct (pv (best_info infos)) as [| cand l] eqn:Hpv;
      [injection H as <- <-; by left |].
    destruct (bool_decide (cand <> m0)) eqn:Hne; simpl in H.
    + destruct (prefer _ _ _) eqn:Hp; injection H as <- <-; [| by left].
      right. eexists _, infos. rewrite Hpv.
      apply bool_decide_eq_true in Hne.
      repeat split; try done. congruence.
    + injection H as <- <-. by left.
  - intros H. left. split; [done |].
    destruct (legal_moves board) as [| m0 l]; [done |].
    by injection H as <- <-.
Qed.

End MakeMoveResults.

Section Prefer.

Import Engine.

(** X4: on centipawn scores the comparison of the fallback is the right
    one: the candidate is preferred exactly when its evaluation from the
    perspective of the side to move is not worse than the primary's,
    whatever side each score is relative to. *)
Theorem prefer_centipawns side o po n pn :
  prefer side (Some {| relative := Cp o; pov_turn := po |})
              (Some {| relative := Cp n; pov_turn := pn |})
  = negb (worse (evaluation side {| relative := Cp n; pov_turn := pn |})
                (evaluation side {| relative := Cp o; pov_turn := po |})).
Proof.
  unfold prefer, ws, evaluation, white, is_mate. simpl.
  destruct side, po, pn; simpl;
    repeat (rewrite bool_decide_eq_true_2 by done);
    repeat (rewrite bool_decide_eq_false_2 by done); simpl;
    apply eq_true_iff_eq;
    rewrite negb_true_iff, Z.leb_le, Z.ltb_ge; lia.
Qed.

End Prefer.

(** ** engine.py: the tuning table *)

Section Recommend.

Import EngineSetup.
Open Scope Z_scope.

(** X5: whatever the machine reports, the recommendation is at least one
    thread and at most 4 (role "bullet") or 7 (any other role), a hash of
    256, 512 or 1024 MB for "bullet" and of 1024, 3072 or 4096 MB
    otherwise; and with a reported count of two or more cores it leaves
    one core free. *)
Theorem recommend_bounds os role cpu ram :
  let threads := fst (_recommend_threads_and_hash os role cpu ram) in
  let hash_mb := snd (_recommend_threads_and_hash os role cpu ram) in
  1 <= threads
  /\ (role = "bullet"%string ->
      threads <= 4 /\ (hash_mb = 256 \/ hash_mb = 512 \/ hash_mb = 1024))
  /\ (role <> "bullet"%string ->
      threads <= 7 /\ (hash_mb = 1024 \/ hash_mb = 3072 \/ hash_mb = 4096))
  /\ (forall n, cpu = Some n -> 2 <= n -> threads <= n - 1).
Proof.
  intros threads hash_mb. unfold threads, hash_mb, _recommend_threads_and_hash.
  split; [case_bool_decide; simpl; lia |].
  split; [| split].
  - intros ->. rewrite bool_decide_eq_true_2 by done. simpl.
    split; [lia |]. repeat case_match; auto.
  - intros Hr. rewrite bool_decide_eq_false_2 by done. simpl.
    split; [lia |]. repeat case_match; auto.
  - intros n -> Hn.
    assert ((n =? 0) = false) as E by (apply Z.eqb_neq; lia).
    unfold or_else. rewrite E.
    case_bool_decide; simpl; lia.
Qed.

Lemma recommend_bounds_witness :
  fst (_recommend_threads_and_hash None "bullet" (Some 8) (Some 16384)) <= 4
  /\ fst (_recommend_threads_and_hash None "standard" (Some 8) (Some 16384))
     <= 7
  /\ fst (_recommend_threads_and_hash None "standard" (Some 2) None) <= 2 - 1.
Proof.
  destruct (recommend_bounds None "bullet" (Some 8) (Some 16384))
    as (_ & Hb & _).
  destruct (recommend_bounds None "standard" (Some 8) (Some 16384))
    as (_ & _ & Hs & _).
  destruct (recommend_bounds None "standard" (Some 2) None)
    as (_ & _ & _ & Hfree).
  split; [apply Hb; reflexivity |].
  split; [apply Hs; discriminate |].
  apply (Hfree 2); [reflexivity | lia].
Defined.

(** X6: on the same machine the role "bullet" never gets more threads
    than another role, and always gets a smaller hash. *)
Theorem recommend_bullet_is_smaller os role cpu ram :
  role <> "bullet"%string ->
  fst (_recommend_threads_and_hash os "bullet" cpu ram)
  <= fst (_recommend_threads_and_hash os role cpu ram)
  /\ snd (_recommend_threads_and_hash os "bullet" cpu ram)
     < snd (_recommend_threads_and_hash os role cpu ram).
Proof.
  intros Hr. unfold _recommend_threads_and_hash.
  rewrite bool_decide_eq_true_2 by done.
  rewrite bool_decide_eq_false_2 by done. simpl.
  split; [lia |]. repeat case_match; lia.
Qed.

Lemma recommend_bullet_is_smaller_witness :
  fst (_recommend_threads_and_hash (Some 16) "bullet" None (Some 4096))
  <= fst (_recommend_threads_and_hash (Some 16) "standard" None (Some 4096))
  /\ snd (_recommend_threads_and_hash (Some 16) "bullet" None (Some 4096))
     < snd (_recommend_threads_and_hash (Some 16) "standard" None (Some 4096)).
Proof.
  apply (recommend_bullet_is_smaller (Some 16) "standard" None (Some 4096)).
  discriminate.
Defined.

(** X7: the recommendation grows with the machine: with more cores and
    more memory reported, neither the threads nor the hash get smaller. *)
Theorem recommend_monotone os role c1 c2 r1 r2 :
  0 < c1 <= c2 -> 0 < r1 <= r2 ->
  fst (_recommend_threads_and_hash os role (Some c1) (Some r1))
  <= fst (_recommend_threads_and_hash os role (Some c2) (Some r2))
  /\ snd (_recommend_threads_and_hash os role (Some c1) (Some r1))
     <= snd (_recommend_threads_and_hash os role (Some c2) (Some r2)).
Proof.
  intros Hc Hr. unfold _recommend_threads_and_hash, or_else.
  assert ((c1 =? 0) = false) as -> by (apply Z.eqb_neq; lia).
  assert ((c2 =? 0) = false) as -> by (apply Z.eqb_neq; lia).
  assert ((r1 =? 0) = false) as -> by (apply Z.eqb_neq; lia).
  assert ((r2 =? 0) = false) as -> by (apply Z.eqb_neq; lia).
  case_bool_decide; simpl; (split; [lia |]);
    destruct (Z.leb_spec r1 4096), (Z.leb_spec r2 4096),
             (Z.leb_spec r1 8192), (Z.leb_spec r2 8192); lia.
Qed.

Lemma recommend_monotone_witness :
  fst (_recommend_threads_and_hash None "bullet" (Some 2) (Some 2048))
  <= fst (_recommend_threads_and_hash None "bullet" (Some 8) (Some 16384))
  /\ snd (_recommend_threads_and_hash None "bullet" (Some 2) (Some 2048))
     <= snd (_recommend_threads_and_hash None "bullet" (Some 8) (Some 16384)).
Proof.
  apply (recommend_monotone None "bullet" 2 8 2048 16384); lia.
Defined.

End Recommend.

(** ** engine.py: _configure_engine and from_dual_config *)

Section Configure.

Import EngineSetup.

(** A key that is in the dictionary is provided under its lower-case
    name. *)
Lemma contains_provided name uci_options :
  contains name uci_options = true ->
  provided (lower name) uci_options = true.
Proof.
  unfold contains, provided. rewrite !existsb_exists.
  intros (kv & Hin & Hk). exists kv. split; [done |].
  apply bool_decide_eq_true in Hk. apply bool_decide_eq_true_2.
  by rewrite Hk.
Qed.

Lemma setdefault_absent name value uci_options :
  contains name uci_options = false ->
  setdefault name value uci_options = uci_options ++ [(name, value)].
Proof. unfold setdefault. by intros ->. Qed.

Lemma contains_app name (l1 l2 : Options) :
  contains name (l1 ++ l2) = contains name l1 || contains name l2.
Proof. unfold contains. apply existsb_app. Qed.

Lemma not_provided_not_contained name uci_options :
  provided (lower name) uci_options = false ->
  contains name uci_options = false.
Proof.
  intros H. destruct (contains name uci_options) eqn:E; [| done].
  apply contains_provided in E. congruence.
Qed.

(** The default of MultiPV, after options were added that are not
    MultiPV. *)
Lemma multipv_default advertised (uci_options added : Options) :
  contains "MultiPV" added = false ->
  (if negb (contains "MultiPV" (uci_options ++ added)) && advertised
   then setdefault "MultiPV" (VInt 1) (uci_options ++ added)
   else uci_options ++ added)
  = uci_options ++ added
    ++ (if negb (contains "MultiPV" uci_options) && advertised
        then [("MultiPV"%string, VInt 1)] else []).
Proof.
  intros Ha. rewrite contains_app, Ha, orb_false_r.
  destruct (contains "MultiPV" uci_options) eqn:Ec; simpl.
  - by rewrite app_nil_r.
  - destruct advertised.
    + rewrite setdefault_absent; [by rewrite <- app_assoc |].
      by rewrite contains_app, Ec, Ha.
    + by rewrite app_nil_r.
Qed.

(** X8: [_configure_engine] keeps every option of the configuration, with
    its value and in its place, and adds at the end at most "Threads",
    "Hash" and "MultiPV": "Threads" (and likewise "Hash") exactly when
    auto-tuning is on and no key of the configuration spells it in any
    letter case, with the recommended value; "MultiPV", with the value 1,
    exactly when the search process advertises it and the configuration
    does not have it. *)
Theorem configure_keeps_options self engine uci_options syzygy_config :
  let rec :=
    _recommend_threads_and_hash (os_cpu_count engine) (role self)
      (cpu_count self) (total_ram_mb self) in
  fst (_configure_engine self engine uci_options syzygy_config) =
  uci_options
  ++ ((if auto_tune self && negb (provided "threads" uci_options)
       then [("Threads"%string, VInt (fst rec))] else [])
      ++ (if auto_tune self && negb (provided "hash" uci_options)
          then [("Hash"%string, VInt (snd rec))] else []))
  ++ (if negb (contains "MultiPV" uci_options) && options engine "MultiPV"
      then [("MultiPV"%string, VInt 1)] else []).
Proof.
  intros rec. unfold _configure_engine, tuned_options. simpl. fold rec.
  destruct rec as [rec_threads rec_hash]. simpl.
  destruct (auto_tune self); simpl.
  - destruct (provided "threads" uci_options) eqn:Et,
             (provided "hash" uci_options) eqn:Eh; simpl.
    + pose proof (multipv_default (options engine "MultiPV") uci_options []
                    eq_refl) as H.
      rewrite !app_nil_r in H. exact H.
    + pose proof (not_provided_not_contained "Hash" uci_options Eh) as Ch.
      rewrite (setdefault_absent "Hash") by done.
      by rewrite multipv_default.
    + pose proof (not_provided_not_contained "Threads" uci_options Et) as Ct.
      rewrite (setdefault_absent "Threads") by done.
      by rewrite multipv_default.
    + pose proof (not_provided_not_contained "Threads" uci_options Et) as Ct.
      pose proof (not_provided_not_contained "Hash" uci_options Eh) as Ch.
      rewrite (setdefault_absent "Threads") by done.
      rewrite (setdefault_absent "Hash")
        by (by rewrite contains_app, Ch).
      rewrite <- app_assoc. by rewrite multipv_default.
  - pose proof (multipv_default (options engine "MultiPV") uci_options []
                  eq_refl) as H.
    rewrite !app_nil_r in H. exact H.
Qed.

Lemma sent_app (l1 l2 : list Effect) : sent (l1 ++ l2) = sent l1 ++ sent l2.
Proof.
  induction l1 as [| e l1 IH]; [done |]. destruct e; simpl; by rewrite ?IH.
Qed.

(** What the loop over the options sends. *)
Lemma sent_loop engine (uci_options : Options) :
  sent (flat_map (configure_option engine) uci_options)
  = List.filter
      (fun kv => negb (bool_decide (lower (fst kv) ∈ MANAGED_OPTIONS engine))
                 && options engine (fst kv))
      uci_options.
Proof.
  induction uci_options as [| [name value] l IH]; [done |].
  simpl. rewrite sent_app, IH. unfold configure_option.
  destruct (bool_decide (lower name ∈ MANAGED_OPTIONS engine)); simpl;
    [done |].
  destruct (options engine name); simpl; [| done].
  by destruct (configure_raises engine name value).
Qed.

(** [engine] with an [engine.configure] that never raises. *)
Local Abbreviation accepting engine :=
  {| options := options engine; MANAGED_OPTIONS := MANAGED_OPTIONS engine;
     configure_raises := fun _ _ => false;
     os_name_nt := os_name_nt engine; os_cpu_count := os_cpu_count engine |}.

(** X9: [_configure_engine] sends the search process only options that it
    advertises, each option of the configuration that is advertised and not
    managed by the library once and in the order of the configuration, and
    an option that the process rejects does not keep the following ones
    from being sent: what is sent is what would be sent to a process that
    accepts everything. *)
Theorem configure_sends self engine uci_options syzygy_config :
  let effects := snd (_configure_engine self engine uci_options syzygy_config) in
  let tuned := fst (_configure_engine self engine uci_options syzygy_config) in
  (forall name value, (name, value) ∈ sent effects ->
                      options engine name = true)
  /\ sent effects
     = List.filter
         (fun kv =>
            negb (bool_decide (lower (fst kv) ∈ MANAGED_OPTIONS engine))
            && options engine (fst kv))
         tuned
       ++ sent (configure_syzygy engine syzygy_config tuned)
  /\ sent effects
     = sent (snd (_configure_engine self (accepting engine) uci_options
                    syzygy_config)).
Proof.
  intros effects tuned. unfold effects, tuned, _configure_engine. simpl.
  rewrite !sent_app, !sent_loop. split; [| split; [done |]].
  - intros name value Hin. apply elem_of_app in Hin as [Hin | Hin].
    + apply list_elem_of_In, filter_In in Hin as [_ Hin].
      by apply andb_true_iff in Hin as [_ Hin].
    + revert Hin. unfold configure_syzygy.
      destruct (enabled syzygy_config); [| by intros ?%elem_of_nil].
      rewrite !sent_app, !elem_of_app.
      intros [Hin | [Hin | Hin]]; revert Hin;
        (destruct (options engine _ && _) eqn:E;
         [| by intros ?%elem_of_nil]);
        apply andb_true_iff in E as [E _];
        try destruct (configure_raises engine _ _); simpl;
        rewrite list_elem_of_singleton; by intros [= -> _].
  - f_equal. unfold configure_syzygy. simpl.
    destruct (enabled syzygy_config); [| done].
    rewrite !sent_app. f_equal.
    destruct (options engine _ && _); [| done].
    by destruct (configure_raises engine _ _).
Qed.

Lemma configure_sends_witness :
  sent (snd (_configure_engine SetupScenario.a_tuning SetupScenario.a_process
               SetupScenario.some_options SetupScenario.no_syzygy))
  = [("hash"%string, VInt 64); ("Threads"%string, VInt 4)]
  /\ options SetupScenario.a_process "Threads" = true.
Proof.
  destruct (configure_sends SetupScenario.a_tuning SetupScenario.a_process
              SetupScenario.some_options SetupScenario.no_syzygy)
    as (Hadv & _ & H).
  assert (sent (snd (_configure_engine SetupScenario.a_tuning
                       SetupScenario.a_process SetupScenario.some_options
                       SetupScenario.no_syzygy))
          = [("hash"%string, VInt 64); ("Threads"%string, VInt 4)]) as E
    by (rewrite H; vm_compute; reflexivity).
  split; [exact E |].
  apply (Hadv "Threads"%string (VInt 4)). rewrite E.
  apply list_elem_of_further, list_elem_of_here.
Defined.

(** X10: the role of the tuning table is decided by the fixed per-move
    limit, not by the time control of the game: it is "bullet" exactly
    when that limit, taken as 0 when it is not set, is at most 180 s; so
    an engine without a fixed limit is always tuned with the bullet
    table. *)
Theorem role_by_limit self :
  (role self = "bullet"%string <-> (time_or_0 (limit_time self) <= 180)%Q)
  /\ (role self = "standard"%string <->
      ~ (time_or_0 (limit_time self) <= 180)%Q)
  /\ (limit_time self = None -> role self = "bullet"%string).
Proof.
  assert (forall t, Engine.is_bullet (Engine.classify_tc t 0%Q) = true
                    <-> (t <= 180)%Q) as H.
  { intros t. unfold Engine.classify_tc.
    destruct (Py.Qleb t 60) eqn:E60; py_bools.
    { split; [intros _; lra | done]. }
    replace (Py.Qleb 0 1) with true by reflexivity. rewrite andb_true_r.
    destruct (Py.Qleb t 120) eqn:E120; py_bools; simpl.
    { split; [intros _; lra | done]. }
    destruct (Py.Qleb t 180) eqn:E180; py_bools; simpl; [done |].
    destruct (Py.Qleb t 600 || _); [done |].
    destruct (Py.Qleb t 3600); done. }
  unfold role. split; [| split].
  - rewrite <- H. destruct (Engine.is_bullet _); [done |].
    split; discriminate.
  - rewrite <- H. destruct (Engine.is_bullet _); [| done].
    split; [discriminate | intros E; by destruct E].
  - intros ->. reflexivity.
Qed.

(** X11: [from_dual_config] chooses the bullet configuration exactly when
    the base time is at most 120 s, or at most 180 s with an increment of
    at most 1 s, and the category it chooses by is the one [make_move]
    works with at the first move, when both clocks show the base time. *)
Theorem chosen_by_base {A : Type} (bullet_config standard_config : A)
    base_seconds inc_seconds :
  chosen bullet_config standard_config base_seconds inc_seconds
  = (if Py.Qleb base_seconds 120
        || (Py.Qleb base_seconds 180 && Py.Qleb inc_seconds 1)
     then bullet_config else standard_config)
  /\ Engine.move_tc base_seconds base_seconds inc_seconds
     = Engine.classify_tc base_seconds inc_seconds.
Proof.
  split.
  - unfold chosen, Engine.classify_tc.
    destruct (Py.Qleb base_seconds 60) eqn:E60; simpl.
    + py_bools. assert (Py.Qleb base_seconds 120 = true) as ->; [| done].
      apply Qleb_le. lra.
    + destruct (Py.Qleb base_seconds 120 || _); [done |].
      destruct (Py.Qleb base_seconds 600 || _); [done |].
      by destruct (Py.Qleb base_seconds 3600).
  - unfold Engine.move_tc, Py.max.
    by destruct (Py.Qltb base_seconds base_seconds).
Qed.

End Configure.

(** ** engine.py: pondering *)

Section PonderingFacts.

Import EngineSetup.

(** The handle that the state holds, as a list. *)
Local Abbreviation held s :=
  (match _ponder_handle s with Some h => [h] | None => [] end).

Lemma live_handles_app calls more live :
  live_handles (calls ++ more) live
  = live_handles more (live_handles calls live).
Proof.
  revert live. induction calls as [| c calls IH]; intros live; [done |].
  destruct c as [h | t | t | t | [h |] | t]; simpl; by rewrite ?IH.
Qed.

(** [stop_pondering] stops the handle that is held and forgets it. *)
Lemma stop_pondering_live timed_out s :
  live_handles (snd (stop_pondering timed_out s)) (held s) = []
  /\ _ponder_handle (fst (stop_pondering timed_out s)) = None
  /\ _ponder_task (fst (stop_pondering timed_out s)) = None.
Proof.
  unfold stop_pondering. simpl. split; [| done].
  rewrite live_handles_app.
  destruct (_ponder_handle s) as [h |]; simpl.
  - rewrite Nat.eqb_refl. simpl.
    destruct (_ponder_task s); [destruct timed_out |]; done.
  - destruct (_ponder_task s); [destruct timed_out |]; done.
Qed.

Lemma start_pondering_live timed_out analysis s :
  live_handles (snd (start_pondering timed_out analysis s)) (held s)
  = held (fst (start_pondering timed_out analysis s)).
Proof.
  unfold start_pondering.
  destruct (negb (ponder s) || negb (has_engine s)); [done |].
  destruct (stop_pondering_live timed_out s) as (Hl & Hh & Ht).
  destruct (stop_pondering timed_out s) as [s1 calls]. simpl in *.
  destruct analysis; simpl; rewrite live_handles_app, Hl; simpl;
    by rewrite ?Hh.
Qed.

(** X12: pondering analyses never overlap.  Along every sequence of
    [start_pondering] and [stop_pondering], whatever [engine.analysis] and
    the waits do, the analysis handles that were answered and not stopped
    are the one handle the engine holds, or none: a new analysis is asked
    for only after the previous handle was stopped, and after
    [stop_pondering] nothing is left running or held. *)
Theorem pondering_never_overlaps ops s :
  live_handles (snd (ponder_ops ops s)) (held s) = held (fst (ponder_ops ops s))
  /\ (length (live_handles (snd (ponder_ops ops s)) (held s)) <= 1)%nat
  /\ (forall timed_out,
        live_handles (snd (ponder_ops (ops ++ [Stop timed_out]) s)) (held s)
        = []
        /\ _ponder_handle (fst (ponder_ops (ops ++ [Stop timed_out]) s)) = None
        /\ _ponder_task (fst (ponder_ops (ops ++ [Stop timed_out]) s)) = None).
Proof.
  assert (forall ops s,
             live_handles (snd (ponder_ops ops s)) (held s)
             = held (fst (ponder_ops ops s))) as Hheld.
  { clear. induction ops as [| op ops IH]; intros s; [done |].
    simpl.
    assert (live_handles (snd (ponder_op op s)) (held s)
            = held (fst (ponder_op op s))) as Hop.
    { destruct op as [timed_out analysis | timed_out].
      - apply start_pondering_live.
      - destruct (stop_pondering_live timed_out s) as (Hl & Hh & _).
        change (ponder_op (Stop timed_out) s)
          with (stop_pondering timed_out s).
        by rewrite Hl, Hh. }
    destruct (ponder_op op s) as [s1 calls]. simpl in Hop.
    specialize (IH s1). destruct (ponder_ops ops s1) as [s2 more].
    simpl in *. by rewrite live_handles_app, Hop. }
  assert (forall ops1 ops2 s,
             ponder_ops (ops1 ++ ops2) s
             = (fst (ponder_ops ops2 (fst (ponder_ops ops1 s))),
                snd (ponder_ops ops1 s)
                ++ snd (ponder_ops ops2 (fst (ponder_ops ops1 s)))))
    as Happ.
  { clear. induction ops1 as [| op ops1 IH]; intros ops2 s; simpl.
    - by destruct (ponder_ops ops2 s).
    - destruct (ponder_op op s) as [s1 calls]. rewrite IH.
      destruct (ponder_ops ops1 s1) as [s2 more]. simpl.
      by rewrite app_assoc. }
  split; [apply Hheld |]. split.
  - rewrite Hheld. destruct (_ponder_handle _); simpl; lia.
  - intros timed_out. rewrite Happ.
    set (s0 := fst (ponder_ops ops s)).
    assert (ponder_ops [Stop timed_out] s0
            = (fst (stop_pondering timed_out s0),
               snd (stop_pondering timed_out s0) ++ [])) as -> by done.
    destruct (stop_pondering_live timed_out s0) as (Hl & Hh & Ht).
    cbn [fst snd]. rewrite app_nil_r, live_handles_app, Hheld. fold s0.
    by rewrite Hl.
Qed.

End PonderingFacts.

(** ** game.py: what a session calls *)

Section SessionCalls.

Import Game GameScenario GameTrace.

Variable c : Collaborators.
Variable info : Game_Information.

Lemma frame_refl s : frame s s.
Proof.
  do 2 (split; [done |]). exists []. by rewrite app_nil_r.
Qed.

Lemma frame_trans s1 s2 s3 : frame s1 s2 -> frame s2 s3 -> frame s1 s3.
Proof.
  intros (C1 & T1 & n1 & E1 & F1) (C2 & T2 & n2 & E2 & F2).
  do 2 (split; [congruence |]).
  exists (n1 ++ n2)%list. rewrite E2, E1, <- app_assoc.
  split; [done | by apply Forall_app].
Qed.

(** A state that differs from [s] in none of the three. *)
Lemma frame_same s s' :
  config s' = config s -> takeback_count s' = takeback_count s ->
  calls s' = calls s -> frame s s'.
Proof.
  intros C T E. do 2 (split; [done |]). exists [].
  by rewrite app_nil_r.
Qed.

Lemma frame_call x s : plain x -> frame s (call x s).
Proof.
  intros H. do 2 (split; [done |]). exists [x]. split; [done |].
  constructor; [exact H | constructor].
Qed.

Lemma frame_cancel i s : frame s (cancel i s).
Proof.
  unfold cancel. destruct (tasks s !! i) as [[] |];
    by apply frame_same || apply frame_refl.
Qed.

(** Peel the outermost update off the state on the right. *)
Ltac frame_peel :=
  lazymatch goal with
  | |- frame ?s ?s => apply frame_refl
  | |- frame ?s (call ?x ?t) =>
      apply (frame_trans s t);
      [| apply frame_call; repeat split; discriminate]
  | |- frame ?s (cancel ?i ?t) =>
      apply (frame_trans s t); [| apply frame_cancel]
  | |- frame ?s (set_move_task ?v ?t) =>
      apply (frame_trans s t); [| by apply frame_same]
  | |- frame ?s (set_bot_offered_draw ?v ?t) =>
      apply (frame_trans s t); [| by apply frame_same]
  | |- frame ?s (set_last ?f ?m ?t) =>
      apply (frame_trans s t); [| by apply frame_same]
  | |- frame ?s (set_lichess_game ?v ?t) =>
      apply (frame_trans s t); [| by apply frame_same]
  | |- frame ?s (set_tasks ?v ?t) =>
      apply (frame_trans s t); [| by apply frame_same]
  | |- frame ?s (set_task ?i ?v ?t) =>
      apply (frame_trans s t); [| by apply frame_same]
  | |- frame ?s (set_was_aborted ?v ?t) =>
      apply (frame_trans s t); [| by apply frame_same]
  | |- frame ?s (set_ejected_tournament ?v ?t) =>
      apply (frame_trans s t); [| by apply frame_same]
  | |- frame ?s (set_main ?v ?t) =>
      apply (frame_trans s t); [| by apply frame_same]
  end.

(** A draw offer is never answered: the handler raises before it could,
    or returns without a call. *)
Lemma _handle_draw_offer_cases event s :
  _handle_draw_offer event s =
  if reaches_policy event s
  then inl (Error "'Game' object has no attribute '_should_accept_draw'")
  else inr (set_bot_offered_draw false s).
Proof.
  unfold _handle_draw_offer, reaches_policy, _should_accept_draw.
  destruct ((is_white (lichess_game s) && bdraw event)
            || (negb (is_white (lichess_game s)) && wdraw event));
    simpl; [| done].
  destruct (bot_offered_draw s); simpl; [done |].
  destruct (bool_decide (tc_str (lichess_game s) = Some "0.5+0"%string));
    simpl; [| done].
  by destruct (accept_30_second_draws (config s)).
Qed.

Lemma frame__handle_draw_offer event s s' :
  _handle_draw_offer event s = inr s' -> frame s s'.
Proof.
  rewrite _handle_draw_offer_cases.
  destruct (reaches_policy event s); [done |]. intros [= <-].
  repeat frame_peel.
Qed.

Lemma frame_result game_state s :
  frame s (fst (result c game_state info s)).
Proof.
  unfold result. destruct (truthy_winner game_state) as [w |].
  - destruct (bool_decide (w = "white"%string));
      repeat (case_bool_decide; simpl; repeat frame_peel).
  - repeat (case_bool_decide; simpl; repeat frame_peel).
Qed.

Lemma frame__print_result_message game_state s :
  frame s (_print_result_message c game_state info s).
Proof.
  unfold _print_result_message.
  pose proof (frame_result game_state s) as H.
  destruct (result c game_state info s) as [s1 r]. simpl in H.
  frame_peel. exact H.
Qed.

Lemma frame__make_move_dispatch m s : frame s (_make_move_dispatch m s).
Proof.
  unfold _make_move_dispatch. destruct (resign m); repeat frame_peel.
Qed.

Lemma frame__make_move s : frame s (fst (_make_move c s)).
Proof.
  unfold _make_move.
  destruct (_make_move_reuse c s) as [m |]; simpl.
  - apply frame__make_move_dispatch.
  - destruct (make_move c (lichess_game s)) as [[m lg] |]; simpl.
    + eapply frame_trans; [| apply frame__make_move_dispatch].
      repeat frame_peel.
    + repeat frame_peel.
Qed.

Lemma frame_run_task i answer s : frame s (run_task c i answer s).
Proof.
  unfold run_task. destruct (tasks s !! i) as [[] |]; try apply frame_refl.
  - destruct (_make_move_reuse c s) as [m |]; frame_peel.
    + apply frame__make_move_dispatch.
    + repeat frame_peel.
  - destruct answer as [[m lg] |]; frame_peel; [| apply frame_refl].
    cbn [_make_move_resume fst].
    eapply frame_trans; [| apply frame__make_move_dispatch].
    repeat frame_peel.
  - frame_peel. apply frame_refl.
Qed.

Lemma main_run_task i answer s : main (run_task c i answer s) = main s.
Proof.
  unfold run_task. destruct (tasks s !! i) as [[] |]; try done.
  - destruct (_make_move_reuse c s) as [m |]; [| done].
    cbn [set_task set_tasks main].
    by destruct (_make_move_dispatch_effect m s)
      as (_ & _ & _ & _ & _ & _ & _ & _ & _ & ->).
  - destruct answer as [[m lg] |]; [| done].
    cbn [_make_move_resume fst set_task set_tasks main].
    match goal with |- context [_make_move_dispatch m ?x] =>
      by destruct (_make_move_dispatch_effect m x)
        as (_ & _ & _ & _ & _ & _ & _ & _ & _ & ->) end.
Qed.

Lemma frame_create_move_task s : frame s (create_move_task s).
Proof. unfold create_move_task. repeat frame_peel. Qed.

Lemma frame_updated event s : frame s (snd (updated c event s)).
Proof.
  unfold updated. destruct (update c (lichess_game s) event) as [hu lg].
  simpl. repeat frame_peel.
Qed.

Lemma count_app x (l1 l2 : list Call) :
  count x (l1 ++ l2) = (count x l1 + count x l2)%nat.
Proof. unfold count. by rewrite List.filter_app, length_app. Qed.

Lemma count_one x y :
  count x [y] = if bool_decide (y = x) then 1%nat else 0%nat.
Proof. unfold count. simpl. by case_bool_decide. Qed.

Lemma count_cons x y (l : list Call) :
  count x (y :: l)
  = ((if bool_decide (y = x) then 1 else 0) + count x l)%nat.
Proof. unfold count. simpl. by case_bool_decide. Qed.

(** Evaluate the counts of singleton lists of calls. *)
Ltac count_simpl :=
  rewrite ?count_app, ?count_one;
  repeat (case_bool_decide; try done).

Lemma count_plain new :
  Forall plain new ->
  count lichess_game_close new = 0%nat
  /\ count lichess_game_takeback new = 0%nat
  /\ count (api_handle_takeback true) new = 0%nat
  /\ count api_accept_draw new = 0%nat
  /\ count api_decline_draw new = 0%nat.
Proof.
  induction 1 as [| x l (H1 & H2 & H3 & H4 & H5) _ (I1 & I2 & I3 & I4 & I5)];
    [done |].
  unfold count in *. simpl.
  rewrite !bool_decide_eq_false_2 by done. done.
Qed.

(** Close the conjuncts of an invariant by the hypotheses at hand. *)
Ltac invariant_solve :=
  repeat split; intros; rewrite ?Nat.add_0_r in *;
  try done; try lia; try (by auto).

(** The counts of the calls that are not plain stay as they are. *)
Lemma frame_counts s s' :
  frame s s' ->
  count lichess_game_close (calls s') = count lichess_game_close (calls s)
  /\ count lichess_game_takeback (calls s')
     = count lichess_game_takeback (calls s)
  /\ count (api_handle_takeback true) (calls s')
     = count (api_handle_takeback true) (calls s)
  /\ count api_accept_draw (calls s') = count api_accept_draw (calls s)
  /\ count api_decline_draw (calls s') = count api_decline_draw (calls s).
Proof.
  intros (_ & _ & new & E & F).
  destruct (count_plain new F) as (N1 & N2 & N3 & N4 & N5).
  rewrite E, !count_app, N1, N2, N3, N4, N5, !Nat.add_0_r. done.
Qed.

Lemma frame_ready cfg s s' : frame s s' -> ready info cfg s -> ready info cfg s'.
Proof.
  intros F. pose proof (frame_counts s s' F) as (N1 & N2 & N3 & N4 & N5).
  destruct F as (C & T & _).
  unfold ready, counts_invariant, run_max_takebacks.
  by rewrite C, T, N1, N2, N3, N4, N5.
Qed.

Lemma frame_invariant cfg s s' :
  frame s s' -> main s' = main s ->
  session_invariant info cfg s -> session_invariant info cfg s'.
Proof.
  intros F M. pose proof (frame_counts s s' F) as (N1 & N2 & N3 & N4 & N5).
  destruct F as (C & T & _).
  unfold session_invariant, counts_invariant, rollbacks_invariant,
    closes_invariant, run_max_takebacks.
  by rewrite C, T, M, N1, N2, N3, N4, N5.
Qed.

(** Lines 105 and 106 close the game. *)
Lemma after_loop_invariant cfg s :
  ready info cfg s -> session_invariant info cfg (after_loop s).
Proof.
  intros ((Ic & Ib & Ia & Ibot & Id1 & Id2) & Ir & Il).
  unfold after_loop, session_invariant, counts_invariant,
    rollbacks_invariant, closes_invariant, run_max_takebacks in *. simpl.
  count_simpl. invariant_solve.
Qed.

Lemma game_finished_invariant cfg event s :
  ready info cfg s -> session_invariant info cfg (game_finished c event info s).
Proof.
  intros Hr. unfold game_finished.
  set (s0 := call chatter_send_goodbyes _).
  assert (frame s s0) as F0.
  { unfold s0. frame_peel.
    eapply frame_trans; [| apply frame__print_result_message].
    destruct (move_task s); repeat frame_peel. }
  pose proof (frame_ready cfg s s0 F0 Hr) as Hr0.
  destruct (rematch_manager s0 && negb (was_aborted s0)).
  - assert (frame s0 (call rematch s0)) as F1 by repeat frame_peel.
    destruct (frame_ready cfg _ _ F1 Hr0) as (Hc & Hb & Hl).
    split; [exact Hc | split; [exact Hb | exact Hl]].
  - by apply after_loop_invariant.
Qed.

Lemma handle_update_invariant cfg event s :
  ready info cfg s -> session_invariant info cfg (handle_update c info event s).
Proof.
  intros Hr. unfold handle_update.
  pose proof (frame_updated event s) as F.
  destruct (updated c event s) as [hu s1]. simpl in F.
  pose proof (frame_ready cfg s s1 F Hr) as Hr1.
  case_bool_decide; [by apply game_finished_invariant |].
  assert (frame s1 (if hu && no_active_task s1 then create_move_task s1
                    else s1)) as F1.
  { destruct (hu && no_active_task s1);
      [apply frame_create_move_task | apply frame_refl]. }
  destruct (frame_ready cfg _ _ F1 Hr1) as (Hc & Hb & Hl).
  split; [exact Hc | split; [exact Hb | exact Hl]].
Qed.

(** A session that an exception ends. *)
Lemma raised_invariant cfg e s :
  session_invariant info cfg s ->
  session_invariant info cfg (set_main (Raised e) s).
Proof.
  intros (Hc & Ir & Il). split; [exact Hc |].
  destruct Hc as (Ic & Ib & Ia & Ibot & Id1 & Id2).
  unfold counts_invariant, rollbacks_invariant, closes_invariant,
    run_max_takebacks in *. simpl.
  destruct (main s); simpl in *; lia.
Qed.

Lemma handle_state_invariant cfg event s :
  ready info cfg s -> session_invariant info cfg (handle_state c info event s).
Proof.
  intros Hr. unfold handle_state.
  set (drawn := if wdraw event || bdraw event then _handle_draw_offer event s
                else inr (set_bot_offered_draw false s)).
  assert (forall s0, drawn = inr s0 -> frame s s0) as Hd.
  { intros s0. unfold drawn. destruct (wdraw event || bdraw event).
    - apply frame__handle_draw_offer.
    - intros [= <-]. repeat frame_peel. }
  destruct drawn as [e | s0].
  { destruct Hr as (Hc & Ir & Il). split; [exact Hc |].
    destruct Hc as (Ic & Ib & Ia & Ibot & Id1 & Id2).
    unfold counts_invariant, rollbacks_invariant, closes_invariant,
      run_max_takebacks in *. simpl. lia. }
  pose proof (frame_ready cfg s s0 (Hd s0 eq_refl) Hr) as Hr0.
  destruct (wtakeback event || btakeback event);
    [| by apply handle_update_invariant].
  unfold _handle_takeback_start.
  destruct (run_max_takebacks info s0 <=? takeback_count s0)%Z eqn:E.
  - apply handle_update_invariant.
    apply (frame_ready cfg s0); [| done]. repeat frame_peel.
  - apply Z.leb_gt in E.
    destruct Hr0 as ((Ic & Ib & Ia & Ibot & Id1 & Id2) & Ir & Il).
    assert (opponent_is_bot info = false) as Hbot.
    { destruct (opponent_is_bot info) eqn:Eb; [| done].
      unfold run_max_takebacks in E. rewrite Eb in E. lia. }
    unfold session_invariant, counts_invariant, rollbacks_invariant,
      closes_invariant, run_max_takebacks in *. simpl.
    count_simpl. rewrite Hbot in *. invariant_solve.
Qed.

Lemma handle_event_invariant cfg event s :
  main s = AwaitsEvent ->
  session_invariant info cfg s ->
  session_invariant info cfg (handle_event c info event s).
Proof.
  intros Hm Hinv.
  assert (ready info cfg s) as Hr.
  { destruct Hinv as (Hc & Hb & Hl).
    unfold rollbacks_invariant, closes_invariant in *.
    rewrite Hm in *. done. }
  destruct event as [text | secs | gs | gs]; simpl.
  - apply (frame_invariant cfg s); [repeat frame_peel | done | done].
  - case_bool_decide; [| done].
    apply (frame_invariant cfg s); [repeat frame_peel | done | done].
  - by apply handle_state_invariant.
  - by apply handle_state_invariant.
Qed.

Lemma step_invariant cfg l s :
  session_invariant info cfg s -> session_invariant info cfg (step c info l s).
Proof.
  intros Hinv. destruct l as [event | answer | e | i answer]; simpl.
  - destruct (main s) eqn:Hm; try done.
    by apply handle_event_invariant.
  - destruct (main s) as [| gs | gs | | | | |] eqn:Hm; try done.
    + destruct Hinv as ((Ic & Ib & Ia & Ibot & Id1 & Id2) & Ir & Il).
      unfold rollbacks_invariant, closes_invariant in Ir, Il.
      rewrite Hm in Ir, Il. destruct Ir as (Ir & Hlt & Hacc).
      unfold _handle_takeback_answer. destruct answer.
      * set (s1 := match move_task s with
                   | Some i => set_move_task None (cancel i s)
                   | None => s
                   end).
        assert (config s1 = config s /\ takeback_count s1 = takeback_count s
                /\ calls s1 = calls s) as (C1 & T1 & E1).
        { unfold s1. destruct (move_task s) as [i |]; [| done].
          cbn [config takeback_count calls set_move_task].
          by destruct (cancel_same i s) as (_ & _ & -> & _ & -> & -> & _). }
        unfold session_invariant, counts_invariant, rollbacks_invariant,
          closes_invariant, run_max_takebacks in *. simpl.
        rewrite C1, T1, E1. count_simpl. invariant_solve.
      * apply handle_update_invariant.
        unfold ready, counts_invariant. invariant_solve.
    + apply handle_update_invariant.
      destruct Hinv as ((Ic & Ib & Ia & Ibot & Id1 & Id2) & Ir & Il).
      unfold rollbacks_invariant, closes_invariant in Ir, Il.
      rewrite Hm in Ir, Il. destruct Ir as (Ir & Hlt).
      unfold ready, counts_invariant, _handle_takeback_end,
        run_max_takebacks in *. simpl. invariant_solve.
    + apply after_loop_invariant.
      destruct Hinv as (Hc & Ir & Il).
      unfold rollbacks_invariant, closes_invariant in Ir, Il.
      rewrite Hm in Ir, Il. done.
    + destruct Hinv as ((Ic & Ib & Ia & Ibot & Id1 & Id2) & Ir & Il).
      unfold session_invariant, counts_invariant, rollbacks_invariant,
        closes_invariant, run_max_takebacks in *. simpl.
      rewrite Hm in Ir, Il. count_simpl. invariant_solve.
    + destruct Hinv as ((Ic & Ib & Ia & Ibot & Id1 & Id2) & Ir & Il).
      unfold session_invariant, counts_invariant, rollbacks_invariant,
        closes_invariant, run_max_takebacks in *. simpl.
      rewrite Hm in Ir, Il. invariant_solve.
  - assert (ready info cfg s -> session_invariant info cfg (after_loop s))
      as Hafter by apply after_loop_invariant.
    destruct (main s) eqn:Hm; try done; try (by apply raised_invariant).
    + destruct e; [| by apply raised_invariant].
      apply Hafter. destruct Hinv as (Hc & Ir & Il).
      unfold rollbacks_invariant, closes_invariant in Ir, Il.
      rewrite Hm in Ir, Il. done.
    + destruct e as [| text]; [by apply raised_invariant |].
      apply after_loop_invariant.
      apply (frame_ready cfg s); [repeat frame_peel |].
      destruct Hinv as (Hc & Ir & Il).
      unfold rollbacks_invariant, closes_invariant in Ir, Il.
      rewrite Hm in Ir, Il. done.
  - apply (frame_invariant cfg s);
      [apply frame_run_task | apply main_run_task | done].
Qed.

Lemma start_invariant cfg user rm lg :
  session_invariant info cfg (start c cfg user rm info lg).
Proof.
  assert (ready info cfg (_print_game_information info (init cfg user rm lg)))
    as Hr0.
  { unfold ready, counts_invariant, run_max_takebacks, count. simpl.
    repeat (case_bool_decide; try done). simpl. invariant_solve. }
  unfold start. case_bool_decide.
  - set (s0 := call chatter_send_goodbyes _).
    assert (frame (_print_game_information info (init cfg user rm lg)) s0)
      as F.
    { unfold s0. frame_peel. apply frame__print_result_message. }
    destruct (frame_ready cfg _ _ F Hr0) as (Hc & Hb & Hl).
    split; [exact Hc | split; [exact Hb | exact Hl]].
  - set (s0 := call (abortion_task_create _) _).
    assert (frame (_print_game_information info (init cfg user rm lg)) s0)
      as F.
    { unfold s0. frame_peel. destruct (negb (is_our_turn lg)).
      - repeat frame_peel.
      - eapply frame_trans; [| apply frame_create_move_task].
        repeat frame_peel. }
    destruct (frame_ready cfg _ _ F Hr0) as (Hc & Hb & Hl).
    split; [exact Hc | split; [exact Hb | exact Hl]].
Qed.

Lemma run_invariant cfg user rm lg steps :
  session_invariant info cfg (run c cfg user rm info lg steps).
Proof.
  unfold run. generalize (start_invariant cfg user rm lg).
  generalize (start c cfg user rm info lg).
  induction steps as [| l steps IH]; intros s Hs; simpl; [done |].
  apply IH. by apply step_invariant.
Qed.

End SessionCalls.

(** ** game.py: the session as a whole *)

Section SessionFacts.

Import Game GameScenario GameTrace.

Variable c : Collaborators.
Variable info : Game_Information.

(** The steps of a session from a state on. *)
Local Abbreviation steps_from rest s :=
  (fold_left (fun s l => step c info l s) rest s).

(** The text of the error that the lookup of [_should_accept_draw]
    raises. *)
Local Abbreviation no_attribute :=
  (Error "'Game' object has no attribute '_should_accept_draw'").

(** Once an exception has ended [run], it stays ended and closes
    nothing. *)
Lemma step_raised l s e :
  main s = Raised e ->
  main (step c info l s) = Raised e
  /\ count lichess_game_close (calls (step c info l s))
     = count lichess_game_close (calls s).
Proof.
  intros Hm. destruct l as [event | answer | e' | i answer]; simpl;
    rewrite ?Hm; try done.
  split; [by rewrite main_run_task |].
  by destruct (frame_counts _ _ (frame_run_task c i answer s)) as (-> & _).
Qed.

Lemma steps_raised rest s e :
  main s = Raised e ->
  main (steps_from rest s) = Raised e
  /\ count lichess_game_close (calls (steps_from rest s))
     = count lichess_game_close (calls s).
Proof.
  revert s. induction rest as [| l rest IH]; intros s Hm; simpl; [done |].
  destruct (step_raised l s e Hm) as [Hm' Hc'].
  destruct (IH _ Hm') as [Hm'' Hc'']. split; [done | congruence].
Qed.

(** An offer of a draw that reaches the policy ends [run] with the
    [AttributeError], and changes nothing else. *)
Lemma draw_offer_raises gs s :
  main s = AwaitsEvent -> reaches_policy gs s = true ->
  step c info (Incoming (gameState gs)) s = set_main (Raised no_attribute) s.
Proof.
  intros Hm Hr. simpl. rewrite Hm. simpl. unfold handle_state.
  assert (wdraw gs || bdraw gs = true) as ->.
  { unfold reaches_policy in Hr.
    destruct (is_white (lichess_game s)), (wdraw gs), (bdraw gs);
      simpl in *; done. }
  by rewrite _handle_draw_offer_cases, Hr.
Qed.

(** X13: [lichess_game.close()] is called once, when [run] has left its
    loop, and never before or again: along every session the number of
    calls is 0 while [run] is in its loop or in the rematch, and 1 once it
    is suspended in [lichess_game.close()] or has returned.  The loop is
    left, and the game closed, when the game ends and when [run] is
    cancelled while it waits for an event.  A session that an exception
    ends has closed the game at most once; the one that the source raises
    itself, on an offer of a draw that reaches the policy of the bot, ends
    the session without the game ever being closed, whatever follows. *)
Theorem closed_exactly_once cfg user rm lg steps :
  let s := run c cfg user rm info lg steps in
  match main s with
  | AwaitsClose | Returned => count lichess_game_close (calls s) = 1%nat
  | Raised _ => (count lichess_game_close (calls s) <= 1)%nat
  | _ => count lichess_game_close (calls s) = 0%nat
  end
  /\ (main s = AwaitsEvent ->
      main (step c info (Raises CancelledError) s) = AwaitsClose)
  /\ (forall gs rest,
        main s = AwaitsEvent -> reaches_policy gs s = true ->
        let s' := steps_from (Incoming (gameState gs) :: rest) s in
        main s' = Raised no_attribute
        /\ count lichess_game_close (calls s') = 0%nat).
Proof.
  intros s. destruct (run_invariant c info cfg user rm lg steps)
    as (_ & _ & Hl). fold s in Hl.
  split; [exact Hl |]. split.
  { intros Hm. simpl. by rewrite Hm. }
  intros gs rest Hm Hr s'. unfold s'. cbn [fold_left].
  rewrite (draw_offer_raises gs s Hm Hr).
  destruct (steps_raised rest (set_main (Raised no_attribute) s) no_attribute
              eq_refl) as [-> ->].
  split; [done |]. unfold closes_invariant in Hl. by rewrite Hm in Hl.
Qed.


(** X15: against a bot (both players carry the title BOT) no takeback is
    ever accepted, whatever maximum is configured: the counter stays at 0,
    no acceptance is sent and the board is never rolled back. *)
Theorem no_takeback_between_bots cfg user rm lg steps :
  opponent_is_bot info = true ->
  let s := run c cfg user rm info lg steps in
  takeback_count s = 0%Z
  /\ count (api_handle_takeback true) (calls s) = 0%nat
  /\ count lichess_game_takeback (calls s) = 0%nat.
Proof.
  intros Hbot s. destruct (run_invariant c info cfg user rm lg steps)
    as ((_ & Hb & Ha & Hz & _) & _ & _).
  fold s in Hb, Ha, Hz. specialize (Hz Hbot).
  unfold run_max_takebacks in Hb. rewrite Hbot in Hb. lia.
Qed.

(** The classification reads the board and the user name only. *)
Lemma result_reads game_state s s2 :
  board (lichess_game s2) = board (lichess_game s) ->
  username s2 = username s ->
  snd (result c game_state info s2) = snd (result c game_state info s).
Proof.
  intros Hb Hu. unfold result. rewrite Hb, Hu.
  destruct (truthy_winner game_state) as [w |].
  - destruct (bool_decide (w = "white"%string));
      repeat (case_bool_decide; try done).
  - repeat (case_bool_decide; try done).
Qed.

Lemma step_over said l s : over said s -> over said (step c info l s).
Proof.
  unfold over. intros (Ht & Hm & Hc).
  destruct l as [event | answer | e | i answer]; simpl.
  - destruct (main s) eqn:E; try done; by rewrite E.
  - destruct (main s) eqn:E; try done; rewrite ?E; simpl;
      repeat split; try done.
    by rewrite Hc.
  - destruct (main s) eqn:E; try done; rewrite ?E; try done;
      destruct e; simpl; rewrite ?E; repeat split; auto.
  - unfold run_task. by rewrite Ht.
Qed.

(** X16: a game that is already over at the first event gets no move.  The
    session prints the game information and the result, says goodbye and,
    when that call has returned, closes the game; these are all its calls,
    whatever events, answers and exceptions follow, and it creates no
    move task and never asks [lichess_game] for a move. *)
Theorem finished_game_plays_no_move cfg user rm lg steps :
  status (state info) <> "started"%string ->
  let s := run c cfg user rm info lg steps in
  let said :=
    [print (game_information info);
     print (result_line info
              (snd (result c (state info) info (init cfg user rm lg))));
     chatter_send_goodbyes] in
  tasks s = [] /\ move_task s = None
  /\ count lichess_game_make_move (calls s) = 0%nat
  /\ match main s with
     | AwaitsGoodbyes => calls s = said
     | AwaitsClose | Returned =>
         calls s = (said ++ [lichess_game_close])%list
     | Raised _ =>
         calls s = said \/ calls s = (said ++ [lichess_game_close])%list
     | _ => False
     end.
Proof.
  intros Hs s said.
  assert (over said (start c cfg user rm info lg)) as Hstart.
  { unfold start. rewrite bool_decide_eq_true_2 by done.
    set (s0 := _print_game_information info (init cfg user rm lg)).
    destruct (_print_result_message_same c info (state info) s0) as [Ht Hm].
    unfold over. cbn [tasks move_task main calls call set_main].
    rewrite Ht, Hm. split; [done |]. split; [done |].
    unfold _print_result_message.
    pose proof (result_calls c (state info) info s0) as Hc.
    assert (snd (result c (state info) info s0)
            = snd (result c (state info) info (init cfg user rm lg))) as Hr.
    { by apply result_reads. }
    destruct (result c (state info) info s0) as [s1 r]. simpl in *.
    by rewrite Hc, Hr. }
  assert (over said s) as (Ht & Hm & Hc).
  { unfold s, run. revert Hstart. generalize (start c cfg user rm info lg).
    induction steps as [| l steps' IH]; intros s0 H0; simpl; [done |].
    apply IH. by apply step_over. }
  split; [done |]. split; [done |]. split; [| done].
  assert (count lichess_game_make_move said = 0%nat) as Hn.
  { unfold said. rewrite !count_cons.
    by repeat (case_bool_decide; try done). }
  revert Hc. destruct (main s); try done; intros Hc;
    try (destruct Hc as [Hc | Hc]);
    rewrite Hc, ?count_app, ?count_one, Hn;
    repeat (case_bool_decide; try done); reflexivity.
Qed.

Lemma result_keeps game_state s :
  bot_offered_draw (fst (result c game_state info s)) = bot_offered_draw s
  /\ rematch_manager (fst (result c game_state info s)) = rematch_manager s.
Proof.
  unfold result. destruct (truthy_winner game_state) as [w |].
  - destruct (bool_decide (w = "white"%string));
      repeat (case_bool_decide; try done).
  - repeat (case_bool_decide; try done).
Qed.

(** Lines 89 to 103 leave the note of the bot's own offer as it is. *)
Lemma handle_update_keeps_offer event s :
  bot_offered_draw (handle_update c info event s) = bot_offered_draw s.
Proof.
  unfold handle_update, updated.
  destruct (update c (lichess_game s) event) as [hu lg].
  case_bool_decide.
  - unfold game_finished, _print_result_message.
    match goal with |- context [result c event info ?x] =>
      pose proof (result_keeps event x) as [Hb _];
      destruct (result c event info x) as [s1 r] end.
    simpl in Hb.
    destruct (_ && _); simpl; rewrite Hb;
      (destruct (move_task _) as [i |]; [| done]);
      by destruct (cancel_same i (call lichess_game_update
                                       (set_lichess_game lg s)))
        as (_ & _ & _ & _ & _ & _ & -> & _).
  - by destruct (hu && _).
Qed.

(** X17: a game-state event clears the note of the bot's own draw offer
    before [run] is suspended again: after the first run of the turn
    [bot_offered_draw] is false, also when the turn raises.  The turn as
    a whole need not end with the note cleared: a move task that hands in
    its move with an offer of a draw while [_handle_takeback] waits for the
    answer of the API sets it again, and the turn ends with the note
    set. *)
Theorem state_event_clears_own_offer :
  (forall s gs,
      main s = AwaitsEvent ->
      bot_offered_draw (step c info (Incoming (gameState gs)) s) = false)
  /\ main offer_during_takeback = AwaitsEvent
  /\ bot_offered_draw offer_during_takeback = true.
Proof.
  split; [| split; vm_compute; reflexivity].
  intros s gs Hm. simpl. rewrite Hm. simpl. unfold handle_state.
  set (drawn := if wdraw gs || bdraw gs then _handle_draw_offer gs s
                else inr (set_bot_offered_draw false s)).
  assert (match drawn with
          | inl _ => bot_offered_draw s = false
          | inr s0 => bot_offered_draw s0 = false
          end) as Hd.
  { unfold drawn. destruct (wdraw gs || bdraw gs); [| done].
    rewrite _handle_draw_offer_cases. unfold reaches_policy.
    destruct ((is_white (lichess_game s) && bdraw gs)
              || (negb (is_white (lichess_game s)) && wdraw gs));
      [| done].
    destruct (bot_offered_draw s); [done |]. simpl.
    by destruct (negb _ || _). }
  destruct drawn as [e | s0]; [done |].
  destruct (wtakeback gs || btakeback gs);
    [| by rewrite handle_update_keeps_offer].
  unfold _handle_takeback_start. destruct (_ <=? _)%Z; [| done].
  by rewrite handle_update_keeps_offer.
Qed.

End SessionFacts.

(** ** game.py: draw offers, results and moves *)

Section Handlers.

Import Game GameScenario GameTrace.

Variable c : Collaborators.
Variable info : Game_Information.

(** X18: the bot never answers a draw offer.  [_handle_draw_offer] returns
    without a call, the note of the bot's own offer cleared, when the flag
    is not the opponent's, when the bot has just offered a draw itself, and
    when the game is at 0.5+0 and the configuration does not accept draws
    there; in every other case it asks [_should_accept_draw], which the
    class does not define, and the [AttributeError] leaves the handler (and
    [run]) before anything is sent.  So no session ever accepts or
    declines a draw. *)
Theorem draw_offer_answer :
  (forall event s,
      _handle_draw_offer event s =
      if reaches_policy event s
      then inl (Error "'Game' object has no attribute '_should_accept_draw'")
      else inr (set_bot_offered_draw false s))
  /\ (forall cfg user rm lg steps,
        let s := run c cfg user rm info lg steps in
        count api_accept_draw (calls s) = 0%nat
        /\ count api_decline_draw (calls s) = 0%nat).
Proof.
  split; [apply _handle_draw_offer_cases |].
  intros cfg user rm lg steps s.
  by destruct (run_invariant c info cfg user rm lg steps)
    as ((_ & _ & _ & _ & H1 & H2) & _).
Qed.

(** X19: when the game ends, a rematch is negotiated exactly when a
    rematch manager is there and the game is not classified as aborted,
    that is, when the final event names a winner or has one of the draw
    statuses. *)
Theorem rematch_unless_aborted event s :
  was_aborted s = false ->
  let s' := game_finished c event info s in
  count rematch (calls s') =
  (count rematch (calls s)
   + (if rematch_manager s
         && bool_decide
              (truthy_winner event <> None
               \/ status event ∈ ["draw"; "stalemate"; "outoftime";
                                  "insufficientMaterialClaim"]%string)
      then 1 else 0))%nat.
Proof.
  intros Ha s'. unfold s', game_finished.
  set (s0 := match move_task s with Some i => cancel i s | None => s end).
  assert (rematch_manager s0 = rematch_manager s
          /\ was_aborted s0 = false /\ calls s0 = calls s) as (R0 & A0 & C0).
  { unfold s0. destruct (move_task s) as [i |]; [| done].
    unfold cancel. by destruct (tasks s !! i) as [[] |]. }
  unfold _print_result_message.
  pose proof (result_calls c event info s0) as Hc.
  assert (rematch_manager (fst (result c event info s0)) = rematch_manager s0
          /\ was_aborted (fst (result c event info s0))
             = negb (bool_decide
                       (truthy_winner event <> None
                        \/ status event ∈ ["draw"; "stalemate"; "outoftime";
                                           "insufficientMaterialClaim"]%string)))
    as [Hr Hw].
  { unfold result. destruct (truthy_winner event) as [w |].
    - match goal with
      | |- context [@bool_decide (?A \/ ?B) ?d] =>
          assert (@bool_decide (A \/ B) d = true) as ->
            by (apply bool_decide_eq_true_2; by left)
      end.
      destruct (bool_decide (w = "white"%string));
        repeat (case_bool_decide; try done).
    - destruct (bool_decide (status event
                             ∈ ["draw"; "stalemate"; "outoftime";
                                "insufficientMaterialClaim"]%string))
        eqn:Hin;
        [apply bool_decide_eq_true in Hin
        | apply bool_decide_eq_false in Hin; rename Hin into Hnin].
      + match goal with
        | |- context [@bool_decide (?A \/ ?B) ?d] =>
            assert (@bool_decide (A \/ B) d = true) as ->
              by (apply bool_decide_eq_true_2; by right)
        end.
        rewrite !elem_of_cons, elem_of_nil in Hin.
        destruct Hin as [-> | [-> | [-> | [-> | []]]]];
          repeat (case_bool_decide; try done).
      + match goal with
        | |- context [@bool_decide (?A \/ ?B) ?d] =>
            assert (@bool_decide (A \/ B) d = false) as ->
              by (apply bool_decide_eq_false_2; by intros [? | ?])
        end.
        assert (status event <> "draw"%string
                /\ status event <> "stalemate"%string
                /\ status event <> "outoftime"%string
                /\ status event <> "insufficientMaterialClaim"%string)
          as (N1 & N2 & N3 & N4)
          by (repeat split; intros E; apply Hnin;
              rewrite E, !elem_of_cons; tauto).
        by rewrite !bool_decide_eq_false_2 by done. }
  destruct (result c event info s0) as [s1 r]. simpl in *.
  rewrite Hr, Hw, R0, negb_involutive.
  destruct (rematch_manager s && _); simpl; rewrite Hc, C0;
    rewrite ?count_app, ?count_one;
    repeat (case_bool_decide; try done); lia.
Qed.

(** X20: the bot notes a tournament as one it was ejected from only when
    the game ended with status "noStart" and the player who did not start
    is the bot itself; in every other case [ejected_tournament] stays as
    it is. *)
Theorem ejected_only_when_bot_did_not_start game_state s :
  let s' := fst (result c game_state info s) in
  let bot_did_not_start :=
    match truthy_winner game_state with
    | Some w =>
        bool_decide (status game_state = "noStart"%string)
        && bool_decide ((if bool_decide (w = "white"%string)
                         then black_name info else white_name info)
                        = username s)
    | None => false
    end in
  ejected_tournament s' =
  if bot_did_not_start then tournament_id info else ejected_tournament s.
Proof.
  intros s' b. unfold s', b, result.
  destruct (truthy_winner game_state) as [w |].
  - destruct (bool_decide (w = "white"%string));
      repeat (case_bool_decide; try done; try congruence).
  - repeat (case_bool_decide; try done).
Qed.

(** X21: a move request that returns a move makes exactly one call to the
    network API, a resignation or the move, asks [lichess_game] for a move
    at most once, before it, forgets the task handle, and notes a draw
    offer exactly when the move that was sent carries one.  A request in
    which [lichess_game.make_move] raises sends nothing and leaves the
    stored position, the stored move and the task handle untouched. *)
Theorem move_request_dispatch s :
  match _make_move c s with
  | (s', Some m) =>
      (exists asked,
          (asked = [] \/ asked = [lichess_game_make_move])
          /\ calls s' =
             (calls s ++ asked
              ++ (if resign m then [api_resign_game]
                  else [api_send_move (uci_move m) (offer_draw m);
                        chatter_print_eval]))%list)
      /\ move_task s' = None
      /\ bot_offered_draw s' =
         (if resign m then bot_offered_draw s else offer_draw m)
  | (s', None) =>
      s' = call lichess_game_make_move s
  end.
Proof.
  unfold _make_move.
  destruct (_make_move_reuse c s) as [m |].
  - destruct (_make_move_dispatch_effect m s) as (Hc & Hm & Hb & _).
    split; [| done]. exists []. split; [by left | done].
  - cbn [lichess_game call].
    destruct (make_move c (lichess_game s)) as [[m lg] |]; [| done].
    cbn [_make_move_resume].
    match goal with |- context [_make_move_dispatch m ?x] =>
      destruct (_make_move_dispatch_effect m x) as (Hc & Hm & Hb & _) end.
    split; [| done].
    exists [lichess_game_make_move]. split; [by right |].
    rewrite Hc. simpl. by rewrite <- app_assoc.
Qed.

End Handlers.

(** ** Instances of the properties that have a premise *)

Section ExtraWitnesses.

Lemma make_move_provenance_witness :
  exists result,
    Engine.play (Scenario.scripted (Some Scenario.shallow_result)
                   (Some (Engine.InfoList [Scenario.mated_info])))
      (Scenario.capture_board Engine.WHITE 2)
      {| Engine.white_clock := 300%Q; Engine.white_inc := 0%Q;
         Engine.black_clock := 300%Q; Engine.black_inc := 0%Q;
         Engine.time :=
           Engine.think_time Scenario.plain_engine
             (Scenario.capture_board Engine.WHITE 2) 300 300 0;
         Engine.limit_depth := None; Engine.limit_nodes := None |}
    = Some result.
Proof.
  destruct (make_move_provenance Scenario.plain_engine
              (Scenario.scripted (Some Scenario.shallow_result)
                 (Some (Engine.InfoList [Scenario.mated_info])))
              (Scenario.capture_board Engine.WHITE 2) 300%Q 300%Q 0%Q
              Scenario.d4e5 Scenario.mated_info)
    as [[H _] | (result & H & _)].
  - vm_compute. reflexivity.
  - discriminate H.
  - exists result. exact H.
Defined.

Lemma role_by_limit_witness :
  EngineSetup.role SetupScenario.a_tuning = "bullet"%string.
Proof.
  destruct (role_by_limit SetupScenario.a_tuning) as (_ & _ & H).
  apply H. reflexivity.
Defined.

Lemma closed_exactly_once_witness :
  Game.main
    (Game.run GameScenario.collaborators GameScenario.a_config "bot" false
       GameScenario.an_info (GameScenario.a_game true)
       [Game.Raises Game.CancelledError]) = Game.AwaitsClose
  /\ GameTrace.count Game.lichess_game_close
       (Game.calls
          (Game.run GameScenario.collaborators GameScenario.a_config "bot"
             false GameScenario.an_info (GameScenario.a_game true)
             [Game.Incoming (Game.gameState GameScenario.draw_event);
              Game.Raises Game.CancelledError; Game.Returns true])) = 0%nat.
Proof.
  destruct (closed_exactly_once GameScenario.collaborators
              GameScenario.an_info GameScenario.a_config "bot"%string false
              (GameScenario.a_game true) []) as (_ & Hcancel & Hdraw).
  split; [apply Hcancel; reflexivity |].
  destruct (Hdraw GameScenario.draw_event
              [Game.Raises Game.CancelledError; Game.Returns true])
    as [_ H]; [reflexivity | reflexivity | exact H].
Defined.

Lemma no_takeback_between_bots_witness :
  Game.takeback_count
    (Game.run GameScenario.collaborators SetupScenario.three_takebacks "bot"
       false SetupScenario.bot_info (GameScenario.a_game true)
       SetupScenario.some_steps) = 0%Z.
Proof.
  apply (no_takeback_between_bots GameScenario.collaborators
           SetupScenario.bot_info SetupScenario.three_takebacks "bot"%string
           false (GameScenario.a_game true) SetupScenario.some_steps).
  vm_compute. reflexivity.
Defined.

Lemma finished_game_plays_no_move_witness :
  Game.tasks
    (Game.run GameScenario.collaborators GameScenario.a_config "bot" false
       SetupScenario.over_info (GameScenario.a_game true)
       SetupScenario.some_steps) = []
  /\ GameTrace.count Game.lichess_game_make_move
       (Game.calls
          (Game.run GameScenario.collaborators GameScenario.a_config "bot"
             false SetupScenario.over_info (GameScenario.a_game true)
             SetupScenario.some_steps)) = 0%nat.
Proof.
  destruct (finished_game_plays_no_move GameScenario.collaborators
              SetupScenario.over_info GameScenario.a_config "bot"%string false
              (GameScenario.a_game true) SetupScenario.some_steps)
    as (Ht & _ & Hn & _); [discriminate |].
  split; [exact Ht | exact Hn].
Defined.

Lemma state_event_clears_own_offer_witness :
  Game.bot_offered_draw
    (Game.step GameScenario.collaborators GameScenario.an_info
       (Game.Incoming (Game.gameState GameScenario.takeback_event))
       (Game.run GameScenario.collaborators GameScenario.a_config "bot" false
          GameScenario.an_info (GameScenario.a_game true)
          [Game.TaskRuns 0 None;
           Game.TaskRuns 0
             (Some (GameScenario.a_draw_move,
                    Game.set_board ["e2e4"; "e7e5"]%string
                      (GameScenario.a_game true)))])) = false.
Proof.
  destruct (state_event_clears_own_offer GameScenario.collaborators
              GameScenario.an_info) as (H & _).
  apply H. reflexivity.
Defined.

Lemma rematch_unless_aborted_witness :
  GameTrace.count Game.rematch
    (Game.calls
       (Game.game_finished GameScenario.collaborators GameScenario.mate_event
          GameScenario.an_info
          (Game.init GameScenario.a_config "bot" true (GameScenario.a_game true))))
  = 1%nat.
Proof.
  rewrite (rematch_unless_aborted GameScenario.collaborators
             GameScenario.an_info GameScenario.mate_event
             (Game.init GameScenario.a_config "bot"%string true
                (GameScenario.a_game true)) eq_refl).
  vm_compute. reflexivity.
Defined.

End ExtraWitnesses.
